(** * traininfo: the geofencing and arrival-detection engine

    A shallow embedding of the tracking hooks of the application
    ([hooks/useLocationTracking.ts], [hooks/arrival-threshold.ts],
    [hooks/useNotification.ts], [hooks/train-types.ts]) and the properties
    of its arrival state machine.

    Numbers.  A finite JavaScript number is a rational, so distances,
    speeds and thresholds are values of [Q]; array indices and the results
    of [Math.round] and [Math.floor] are integers of [Z]; the one place
    where the code uses [Number.POSITIVE_INFINITY] has a type of its own
    ([xnum]).  [null] and [undefined] are [None].  NaN has no counterpart:
    the [Number.isNaN] guards of the source are therefore always false
    here.  The haversine formula itself is studied over the real numbers
    in [Module Geodesy]; the state machine is verified for an arbitrary
    distance function, since it only compares distances.

    Effects.  The hooks keep their state in React state variables and
    refs: these are the fields of the records [Hook] and [Notifier], and a
    call is a function from the state before to the state after.  Samples
    are processed one after the other, each by the callback of the latest
    render.  A callback of the caller ([onArrive]) is a function on a
    state of the caller.  Calls of the location service resolve; calls of
    the notification channel resolve or reject as a [Channel] says. *)

From Stdlib Require Import Reals Lra.
From Stdlib Require Import ZArith QArith Qround Qabs Lia Lqa List String Ascii Bool.
Import ListNotations.

Local Open Scope Z_scope.

(** ** Comparison and rounding of numbers *)

Definition Qleb (x y : Q) : bool := Qle_bool x y.
Definition Qltb (x y : Q) : bool := negb (Qle_bool y x).
Definition Qgeb (x y : Q) : bool := Qle_bool y x.
Definition Qgtb (x y : Q) : bool := negb (Qle_bool x y).

(** [Math.round] rounds to the nearest integer, halves upwards. *)
Definition Math_round (x : Q) : Z := Qfloor (x + (1 # 2)).

Definition Math_floor (x : Q) : Z := Qfloor x.

(** ** train-types.ts *)

Module Station.
Record t : Type := mk {
  id : string;
  name : string;
  latitude : Q;
  longitude : Q
}.
End Station.

Module TrainLine.
Record t : Type := mk {
  id : string;
  name : string;
  stations : list Station.t;
  color : string
}.
End TrainLine.

(** [arrivalThreshold] is read with [?? ARRIVAL_THRESHOLD_DEFAULT], so a
    missing value is possible. *)
Record AppSettings : Type := mkAppSettings {
  soundOnlyWithHeadphones : bool;
  vibrationEnabled : bool;
  arrivalThreshold : option Q
}.

Module TRACKING_CONFIG.
Definition GPS_INTERVAL_NEAR_MS : Z := 1000.
Definition GPS_INTERVAL_MID_MS : Z := 3000.
Definition GPS_INTERVAL_FAR_MS : Z := 10000.
Definition GPS_DISTANCE_FILTER_NEAR : Z := 10.
Definition GPS_DISTANCE_FILTER_FAR : Z := 30.
Definition ARRIVAL_THRESHOLD_DEFAULT : Z := 300.
Definition CURRENT_STATION_THRESHOLD : Z := 150.
Definition STOPPED_STATION_THRESHOLD : Z := 75.
Definition DEPARTURE_THRESHOLD : Z := 600.
Definition DYNAMIC_FAR_DISTANCE : Z := 5000.
Definition DYNAMIC_MID_DISTANCE : Z := 2000.
Definition EARTH_RADIUS : Z := 6371000.
End TRACKING_CONFIG.

(** ** arrival-threshold.ts *)

Definition MIN_EFFECTIVE_THRESHOLD : Z := 220.
Definition MAX_EFFECTIVE_THRESHOLD : Z := 1300.

Definition getSpeedAdjustment (speedMps : option Q) : Z :=
  match speedMps with
  | None => 0
  | Some v =>
      if Qleb v 0 then 0
      else
        let speedKmh := (v * (36 # 10))%Q in
        if Qgeb speedKmh 80 then 180
        else if Qgeb speedKmh 60 then 120
        else if Qgeb speedKmh 40 then 60
        else if Qltb speedKmh 15 then -80
        else 0
  end.

Definition getLineAdjustment (averageStationSpacing : option Q) : Z :=
  match averageStationSpacing with
  | None => 0
  | Some a =>
      if Qleb a 0 then 0
      else if Qgeb a 1800 then 120
      else if Qgeb a 1200 then 60
      else if Qleb a 450 then -140
      else if Qleb a 700 then -80
      else 0
  end.

Definition computeEffectiveArrivalThreshold
    (baseThreshold : Q) (speedMps averageStationSpacing : option Q) : Z :=
  let tuned :=
    (baseThreshold + inject_Z (getSpeedAdjustment speedMps)
       + inject_Z (getLineAdjustment averageStationSpacing))%Q in
  Z.max MIN_EFFECTIVE_THRESHOLD (Z.min MAX_EFFECTIVE_THRESHOLD (Math_round tuned)).



(** ** useLocationTracking.ts: data *)

Inductive DynamicMode : Type := near | mid | far.

Definition DynamicMode_eqb (a b : DynamicMode) : bool :=
  match a, b with
  | near, near | mid, mid | far, far => true
  | _, _ => false
  end.

Module LocationSample.
Record t : Type := mk {
  latitude : Q;
  longitude : Q;
  speedMps : option Q
}.
End LocationSample.

(** The value of [minDistance]: a finite number, or the
    [Number.POSITIVE_INFINITY] it starts from. *)
Inductive xnum : Type :=
| Finite (q : Q)
| POSITIVE_INFINITY.

(** [q < m], [m <= q] and [Math.floor m] on such a value. *)
Definition xnum_gtb (m : xnum) (q : Q) : bool :=
  match m with
  | Finite m' => Qltb q m'
  | POSITIVE_INFINITY => true
  end.

Definition xnum_leb (m : xnum) (q : Q) : bool :=
  match m with
  | Finite m' => Qleb m' q
  | POSITIVE_INFINITY => false
  end.

Definition xnum_floor (m : xnum) : xnum :=
  match m with
  | Finite m' => Finite (inject_Z (Math_floor m'))
  | POSITIVE_INFINITY => POSITIVE_INFINITY
  end.

(** [stationSwitchCandidate.current] *)
Record Candidate : Type := mkCandidate { idx : Z; hits : Z }.

(** *** The position source (expo-location)

    The background location task is either running with some options or
    not running; every call that starts or stops it is logged, latest
    first.  The calls are modelled by their nominal behaviour: they
    resolve. *)

Inductive Accuracy : Type := Balanced | High.

Record WatchOptions : Type := mkWatchOptions {
  accuracy : Accuracy;
  timeInterval : Z;
  distanceInterval : Z
}.

Inductive LocationCall : Type :=
| StopLocationUpdates
| StartLocationUpdates (options : WatchOptions).

Record LocationService : Type := mkLocationService {
  backgroundTask : option WatchOptions;
  calls : list LocationCall
}.

Definition hasStartedLocationUpdatesAsync (l : LocationService) : bool :=
  match backgroundTask l with Some _ => true | None => false end.

Definition stopLocationUpdatesAsync (l : LocationService) : LocationService :=
  {| backgroundTask := None; calls := StopLocationUpdates :: calls l |}.

Definition startLocationUpdatesAsync (options : WatchOptions)
    (l : LocationService) : LocationService :=
  {| backgroundTask := Some options;
     calls := StartLocationUpdates options :: calls l |}.

(** How often the subscription has been (re)created. *)
Fixpoint subscriptionsCreated (cs : list LocationCall) : nat :=
  match cs with
  | [] => O
  | StartLocationUpdates _ :: cs' => S (subscriptionsCreated cs')
  | StopLocationUpdates :: cs' => subscriptionsCreated cs'
  end.

(** *** The hook

    [Props] are the parameters of the hook other than [onArrive]; [Hook]
    gathers its React state ([useState]), its refs ([useRef]) and the
    position source.  A call of [updateLocation] reads the state of the
    latest render, and a [set...] call is visible to the next call. *)

Record Props : Type := mkProps {
  selectedStation : option Station.t;
  selectedLine : option TrainLine.t;
  settings : AppSettings
}.

Record Hook : Type := mkHook {
  isTracking : bool;
  distance : option Z;
  isArrived : bool;
  currentStationIndex : Z;
  nearestStationDistance : option xnum;
  trackingMode : DynamicMode;
  stationSwitchCandidate : Candidate;
  hasDepartedFromCurrentStation : bool;
  hasTriggeredArrivalNotification : bool;
  lineAverageSpacing : option Q;
  location : LocationService
}.

Definition initialHook : Hook :=
  {| isTracking := false;
     distance := None;
     isArrived := false;
     currentStationIndex := -1;
     nearestStationDistance := None;
     trackingMode := near;
     stationSwitchCandidate := {| idx := -1; hits := 0 |};
     hasDepartedFromCurrentStation := false;
     hasTriggeredArrivalNotification := false;
     lineAverageSpacing := None;
     location := {| backgroundTask := None; calls := [] |} |}.

Definition setDistance (v : option Z) (h : Hook) : Hook :=
  mkHook (isTracking h) v (isArrived h) (currentStationIndex h)
    (nearestStationDistance h) (trackingMode h) (stationSwitchCandidate h)
    (hasDepartedFromCurrentStation h) (hasTriggeredArrivalNotification h)
    (lineAverageSpacing h) (location h).

Definition setIsArrived (v : bool) (h : Hook) : Hook :=
  mkHook (isTracking h) (distance h) v (currentStationIndex h)
    (nearestStationDistance h) (trackingMode h) (stationSwitchCandidate h)
    (hasDepartedFromCurrentStation h) (hasTriggeredArrivalNotification h)
    (lineAverageSpacing h) (location h).

Definition setCurrentStationIndex (v : Z) (h : Hook) : Hook :=
  mkHook (isTracking h) (distance h) (isArrived h) v
    (nearestStationDistance h) (trackingMode h) (stationSwitchCandidate h)
    (hasDepartedFromCurrentStation h) (hasTriggeredArrivalNotification h)
    (lineAverageSpacing h) (location h).

Definition setNearestStationDistance (v : option xnum) (h : Hook) : Hook :=
  mkHook (isTracking h) (distance h) (isArrived h) (currentStationIndex h)
    v (trackingMode h) (stationSwitchCandidate h)
    (hasDepartedFromCurrentStation h) (hasTriggeredArrivalNotification h)
    (lineAverageSpacing h) (location h).

Definition set_trackingMode (v : DynamicMode) (h : Hook) : Hook :=
  mkHook (isTracking h) (distance h) (isArrived h) (currentStationIndex h)
    (nearestStationDistance h) v (stationSwitchCandidate h)
    (hasDepartedFromCurrentStation h) (hasTriggeredArrivalNotification h)
    (lineAverageSpacing h) (location h).

Definition set_stationSwitchCandidate (v : Candidate) (h : Hook) : Hook :=
  mkHook (isTracking h) (distance h) (isArrived h) (currentStationIndex h)
    (nearestStationDistance h) (trackingMode h) v
    (hasDepartedFromCurrentStation h) (hasTriggeredArrivalNotification h)
    (lineAverageSpacing h) (location h).

Definition set_hasDepartedFromCurrentStation (v : bool) (h : Hook) : Hook :=
  mkHook (isTracking h) (distance h) (isArrived h) (currentStationIndex h)
    (nearestStationDistance h) (trackingMode h) (stationSwitchCandidate h)
    v (hasTriggeredArrivalNotification h)
    (lineAverageSpacing h) (location h).

Definition set_hasTriggeredArrivalNotification (v : bool) (h : Hook) : Hook :=
  mkHook (isTracking h) (distance h) (isArrived h) (currentStationIndex h)
    (nearestStationDistance h) (trackingMode h) (stationSwitchCandidate h)
    (hasDepartedFromCurrentStation h) v
    (lineAverageSpacing h) (location h).

Definition set_location (v : LocationService) (h : Hook) : Hook :=
  mkHook (isTracking h) (distance h) (isArrived h) (currentStationIndex h)
    (nearestStationDistance h) (trackingMode h) (stationSwitchCandidate h)
    (hasDepartedFromCurrentStation h) (hasTriggeredArrivalNotification h)
    (lineAverageSpacing h) v.

(** *** Results of a call

    The run-time errors of the modelled code: the [TypeError] of reading a
    property of [undefined], when [stations[index]] is out of range, and
    the rejection of a call by the notification channel. *)

Inductive JsError : Type := TypeError | PlatformRejection.

Inductive outcome (A : Type) : Type :=
| Completed (a : A)
| Threw (e : JsError).

Arguments Completed {A} a.
Arguments Threw {A} e.

Definition bind {A B : Type} (m : outcome A) (k : A -> outcome B) : outcome B :=
  match m with
  | Completed a => k a
  | Threw e => Threw e
  end.

Notation "x <- m ;; k" := (bind m (fun x => k))
  (at level 61, m at next level, right associativity).

(** [arr[i]] *)
Definition at_index {A : Type} (arr : list A) (i : Z) : option A :=
  if i <? 0 then None else nth_error arr (Z.to_nat i).

Definition length_of {A : Type} (arr : list A) : Z := Z.of_nat (List.length arr).

(** ** useLocationTracking.ts: operations *)

Definition resolveModeByDistance (targetDistance : Q) : DynamicMode :=
  if Qgtb targetDistance (inject_Z TRACKING_CONFIG.DYNAMIC_FAR_DISTANCE) then far
  else if Qgtb targetDistance (inject_Z TRACKING_CONFIG.DYNAMIC_MID_DISTANCE) then mid
  else near.

Definition baseOptions (mode : DynamicMode) : WatchOptions :=
  match mode with
  | far =>
      {| accuracy := Balanced;
         timeInterval := TRACKING_CONFIG.GPS_INTERVAL_FAR_MS;
         distanceInterval := TRACKING_CONFIG.GPS_DISTANCE_FILTER_FAR |}
  | mid =>
      {| accuracy := High;
         timeInterval := TRACKING_CONFIG.GPS_INTERVAL_MID_MS;
         distanceInterval := TRACKING_CONFIG.GPS_DISTANCE_FILTER_FAR |}
  | near =>
      {| accuracy := High;
         timeInterval := TRACKING_CONFIG.GPS_INTERVAL_NEAR_MS;
         distanceInterval := TRACKING_CONFIG.GPS_DISTANCE_FILTER_NEAR |}
  end.

(** The platform options (foreground-service texts, background indicator)
    do not depend on the mode and are left out of [WatchOptions]. *)
Definition subscribeWithMode (mode : DynamicMode) (h : Hook) : Hook :=
  let h := set_trackingMode mode h in
  let started := hasStartedLocationUpdatesAsync (location h) in
  let h :=
    if started then set_location (stopLocationUpdatesAsync (location h)) h
    else h in
  set_location (startLocationUpdatesAsync (baseOptions mode) (location h)) h.

Section Engine.

(** The haversine distance of the source, as a function on finite
    numbers. *)
Variable getDistanceFromLatLonInMeters : Q -> Q -> Q -> Q -> Q.

(** The [for] loop over the stations: [count] iterations starting at
    [index], with the running [nearestIdx] and [minDistance]. *)
Fixpoint scanStations (sample : LocationSample.t)
    (stations : list Station.t) (count : nat) (index : Z)
    (nearestIdx : Z) (minDistance : xnum) : outcome (Z * xnum) :=
  match count with
  | O => Completed (nearestIdx, minDistance)
  | S count' =>
      match at_index stations index with
      | None => Threw TypeError
      | Some station =>
          let stationDistance :=
            getDistanceFromLatLonInMeters
              (LocationSample.latitude sample)
              (LocationSample.longitude sample)
              (Station.latitude station)
              (Station.longitude station) in
          if xnum_gtb minDistance stationDistance
          then scanStations sample stations count' (index + 1)
                 index (Finite stationDistance)
          else scanStations sample stations count' (index + 1)
                 nearestIdx minDistance
      end
  end.

(** [start] and [end] of the scan. *)
Definition searchWindow (stations : list Station.t)
    (currentStationIndex : Z) : Z * Z :=
  if (currentStationIndex >=? 0) && (length_of stations >? 30) then
    let searchRange := 15 in
    (Z.max 0 (currentStationIndex - searchRange),
     Z.min (length_of stations) (currentStationIndex + searchRange))
  else (0, length_of stations).

(** The nearest-station scan of [updateLocation]: the station locator. *)
Definition locateNearest (sample : LocationSample.t)
    (stations : list Station.t) (currentStationIndex : Z)
    : outcome (Z * xnum) :=
  let '(start, end_) := searchWindow stations currentStationIndex in
  let nearestIdx :=
    if currentStationIndex >=? 0 then currentStationIndex else 0 in
  scanStations sample stations (Z.to_nat (end_ - start)) start
    nearestIdx POSITIVE_INFINITY.

(** The scan without a window, as the design document describes the
    locator when no hint applies: every station is a candidate. *)
Definition fullScan (sample : LocationSample.t)
    (stations : list Station.t) : outcome (Z * xnum) :=
  scanStations sample stations (List.length stations) 0 0 POSITIVE_INFINITY.

(** [onArrive] is a callback of the caller; it acts on the caller's
    world [W]. *)
Context {W : Type}.
Variable onArrive : string -> W -> W.

(** The arrival branch of [updateLocation]. *)
Definition arrivalTransition (target : Station.t) (dist : Q)
    (effectiveArrivalThreshold : Z) (h : Hook) (w : W) : Hook * W :=
  let justArrivedThreshold := TRACKING_CONFIG.CURRENT_STATION_THRESHOLD in
  let departThreshold :=
    Z.max (effectiveArrivalThreshold + 150)
      TRACKING_CONFIG.DEPARTURE_THRESHOLD in
  if Qleb dist (inject_Z justArrivedThreshold) then
    let h := setIsArrived true h in
    if negb (hasTriggeredArrivalNotification h) then
      let w := onArrive (Station.name target) w in
      (set_hasTriggeredArrivalNotification true h, w)
    else (h, w)
  else if Qleb dist (inject_Z effectiveArrivalThreshold) then
    (setIsArrived true h, w)
  else if Qgtb dist (inject_Z departThreshold) then
    (set_hasTriggeredArrivalNotification false (setIsArrived false h), w)
  else (h, w).

(** The update of the current station index, from the cold start to the
    debounced switch. *)
Definition stationIndexUpdate (currentStationIndex nearestIdx : Z)
    (minDistance : xnum) (h : Hook) : Hook :=
  if (currentStationIndex <? 0) && negb (nearestIdx =? currentStationIndex)
  then
    let h := setCurrentStationIndex nearestIdx h in
    let h := set_stationSwitchCandidate {| idx := -1; hits := 0 |} h in
    set_hasDepartedFromCurrentStation false h
  else if xnum_leb minDistance
            (inject_Z TRACKING_CONFIG.STOPPED_STATION_THRESHOLD) then
    let h :=
      if nearestIdx =? currentStationIndex
      then set_hasDepartedFromCurrentStation false h
      else h in
    let h :=
      if idx (stationSwitchCandidate h) =? nearestIdx
      then set_stationSwitchCandidate
             {| idx := idx (stationSwitchCandidate h);
                hits := hits (stationSwitchCandidate h) + 1 |} h
      else set_stationSwitchCandidate {| idx := nearestIdx; hits := 1 |} h in
    let isAdjacent :=
      (currentStationIndex <? 0)
      || (Z.abs (nearestIdx - currentStationIndex) <=? 1) in
    let canSwitch :=
      (hits (stationSwitchCandidate h) >=? 2)
      && negb (nearestIdx =? currentStationIndex)
      && hasDepartedFromCurrentStation h
      && isAdjacent in
    if canSwitch then
      let h := setCurrentStationIndex nearestIdx h in
      let h := set_stationSwitchCandidate {| idx := -1; hits := 0 |} h in
      set_hasDepartedFromCurrentStation false h
    else h
  else
    let h := set_hasDepartedFromCurrentStation true h in
    set_stationSwitchCandidate {| idx := -1; hits := 0 |} h.

Definition updateLocation (p : Props) (sample : LocationSample.t)
    (h : Hook) (w : W) : outcome (Hook * W) :=
  match selectedStation p, selectedLine p with
  | Some target, Some line =>
      let currentStationIndex := currentStationIndex h in
      let dist :=
        getDistanceFromLatLonInMeters
          (LocationSample.latitude sample)
          (LocationSample.longitude sample)
          (Station.latitude target)
          (Station.longitude target) in
      let h := setDistance (Some (Math_floor dist)) h in
      let nextMode := resolveModeByDistance dist in
      let h :=
        if negb (DynamicMode_eqb nextMode (trackingMode h)) && isTracking h
        then subscribeWithMode nextMode h
        else h in
      let baseArrivalThreshold :=
        match arrivalThreshold (settings p) with
        | Some v => v
        | None => inject_Z TRACKING_CONFIG.ARRIVAL_THRESHOLD_DEFAULT
        end in
      let effectiveArrivalThreshold :=
        computeEffectiveArrivalThreshold baseArrivalThreshold
          (LocationSample.speedMps sample) (lineAverageSpacing h) in
      let '(h, w) :=
        arrivalTransition target dist effectiveArrivalThreshold h w in
      found <- locateNearest sample (TrainLine.stations line)
                 currentStationIndex ;;
      let '(nearestIdx, minDistance) := found in
      let h := setNearestStationDistance (Some (xnum_floor minDistance)) h in
      Completed
        (stationIndexUpdate currentStationIndex nearestIdx minDistance h, w)
  | _, _ => Completed (h, w)
  end.

(** The samples of a journey, one call of [updateLocation] each. *)
Fixpoint feed (p : Props) (samples : list LocationSample.t)
    (h : Hook) (w : W) : outcome (Hook * W) :=
  match samples with
  | [] => Completed (h, w)
  | sample :: rest =>
      next <- updateLocation p sample h w ;;
      feed p rest (fst next) (snd next)
  end.

(** The distance of a sample to the target station. *)
Definition distanceToTarget (target : Station.t)
    (sample : LocationSample.t) : Q :=
  getDistanceFromLatLonInMeters
    (LocationSample.latitude sample) (LocationSample.longitude sample)
    (Station.latitude target) (Station.longitude target).

End Engine.

(** Names for two parts of [updateLocation]: the base threshold it reads
    from the settings, and the hook after its sampling-tier step. *)
Definition baseThresholdOf (p : Props) : Q :=
  match arrivalThreshold (settings p) with
  | Some v => v
  | None => inject_Z TRACKING_CONFIG.ARRIVAL_THRESHOLD_DEFAULT
  end.

Definition afterTierStep (dist : Q) (h : Hook) : Hook :=
  let h := setDistance (Some (Math_floor dist)) h in
  if negb (DynamicMode_eqb (resolveModeByDistance dist) (trackingMode h))
     && isTracking h
  then subscribeWithMode (resolveModeByDistance dist) h
  else h.

(** ** useNotification.ts *)

Inductive OS : Type := android | ios.

Definition NOTIFICATION_COOLDOWN_MS : Z := 5000.
Definition NOTIFICATION_PATTERN_DURATION_MS (os : OS) : Z :=
  match os with android => 1800 | ios => 1200 end.
Definition EXTRA_VIBRATION_ROUNDS : nat := 10.
Definition EXTRA_VIBRATION_GAP_MS : Z := 1200.
Definition VIBRATION_PATTERN_STRONG : list Z := [0; 800; 200; 800; 200; 800].

Record NotificationContent : Type := mkNotificationContent {
  title : string;
  body : string;
  sound : option string;
  vibrate : option (list Z)
}.

(** The notification channel (expo-notifications).  Whether a call
    resolves or rejects is decided by the platform: a [Channel] says it
    for each of the three calls of a dispatch. *)
Record Channel : Type := mkChannel {
  cancelAllScheduledNotificationsAsync_rejects : bool;
  dismissAllNotificationsAsync_rejects : bool;
  scheduleNotificationAsync_rejects : bool
}.

(** The refs of the hook, together with the notifications the channel has
    accepted (latest first) and the delays of the pending vibration
    timers. *)
Record Notifier : Type := mkNotifier {
  hasNotified : bool;
  lastNotificationTime : Z;
  extraVibrationTimers : list Z;
  presented : list NotificationContent
}.

Definition initialNotifier : Notifier :=
  {| hasNotified := false;
     lastNotificationTime := 0;
     extraVibrationTimers := [];
     presented := [] |}.

Definition set_hasNotified (v : bool) (n : Notifier) : Notifier :=
  mkNotifier v (lastNotificationTime n) (extraVibrationTimers n) (presented n).

Definition set_lastNotificationTime (v : Z) (n : Notifier) : Notifier :=
  mkNotifier (hasNotified n) v (extraVibrationTimers n) (presented n).

Definition set_extraVibrationTimers (v : list Z) (n : Notifier) : Notifier :=
  mkNotifier (hasNotified n) (lastNotificationTime n) v (presented n).

Definition set_presented (v : list NotificationContent) (n : Notifier) : Notifier :=
  mkNotifier (hasNotified n) (lastNotificationTime n) (extraVibrationTimers n) v.

Definition channelCall (rejects : bool) : outcome unit :=
  if rejects then Threw PlatformRejection else Completed tt.

(** The delays of the timers of the extra vibration rounds, for
    [index] = [from], ..., [from + rounds - 1]. *)
Fixpoint extraVibrationDelays (os : OS) (rounds : nat) (from : Z) : list Z :=
  match rounds with
  | O => []
  | S rounds' =>
      (NOTIFICATION_PATTERN_DURATION_MS os + EXTRA_VIBRATION_GAP_MS) * (from + 1)
      :: extraVibrationDelays os rounds' (from + 1)
  end.

(** The body of the [try] block of [sendNotification]. *)
Definition dispatch (settings : AppSettings) (os : OS) (channel : Channel)
    (stationName : string) (isHeadphonesConnected : bool) (n : Notifier)
    : outcome Notifier :=
  _ <- channelCall (cancelAllScheduledNotificationsAsync_rejects channel) ;;
  _ <- channelCall (dismissAllNotificationsAsync_rejects channel) ;;
  let shouldPlaySound :=
    if soundOnlyWithHeadphones settings then isHeadphonesConnected else true in
  let content :=
    {| title := "まもなく到着";
       body := stationName ++ "付近です";
       sound := if shouldPlaySound then Some "default"%string else None;
       vibrate :=
         match os with
         | android =>
             if vibrationEnabled settings
             then Some VIBRATION_PATTERN_STRONG else None
         | ios => None
         end |} in
  _ <- channelCall (scheduleNotificationAsync_rejects channel) ;;
  let n := set_presented (content :: presented n) n in
  if vibrationEnabled settings then
    let n := set_extraVibrationTimers [] n in
    Completed
      (set_extraVibrationTimers
         (extraVibrationTimers n
            ++ extraVibrationDelays os EXTRA_VIBRATION_ROUNDS 0) n)
  else Completed n.

(** [now] is the value of [Date.now()] at the call. *)
Definition sendNotification (settings : AppSettings) (os : OS)
    (channel : Channel) (now : Z) (stationName : string)
    (isHeadphonesConnected : bool) (n : Notifier) : Notifier :=
  if hasNotified n then n
  else if now - lastNotificationTime n <? NOTIFICATION_COOLDOWN_MS then n
  else
    let n := set_hasNotified true n in
    let n := set_lastNotificationTime now n in
    match dispatch settings os channel stationName isHeadphonesConnected n with
    | Completed n' => n'
    | Threw _ => set_hasNotified false n
    end.

(** ** The caller of the hooks ([app/(tabs)/_layout.tsx])

    [onArrive] as the layout passes it to [useLocationTracking].  The
    world it acts on holds the permission and headphone refs, the
    dispatcher, the clock and the behaviour of the channel. *)
Record App : Type := mkApp {
  hasNotificationPermission : bool;
  isHeadphonesConnected : bool;
  notifier : Notifier;
  clock : Z;
  channel : Channel
}.

Definition onArrive (settings : AppSettings) (os : OS)
    (stationName : string) (app : App) : App :=
  if negb (hasNotificationPermission app) then app
  else
    mkApp (hasNotificationPermission app) (isHeadphonesConnected app)
      (sendNotification settings os (channel app) (clock app) stationName
         (isHeadphonesConnected app) (notifier app))
      (clock app) (channel app).

(** [onArrive] of a caller that only records the calls, latest first. *)
Definition recordArrival (stationName : string) (log : list string)
    : list string :=
  stationName :: log.

(** ** Journeys *)

(** Distances that never grow from one sample to the next. *)
Fixpoint nonincreasing (ds : list Q) : Prop :=
  match ds with
  | a :: rest =>
      match rest with
      | b :: _ => (b <= a)%Q /\ nonincreasing rest
      | [] => True
      end
  | [] => True
  end.

(** The departure threshold [updateLocation] computes for a sample. *)
Definition departThresholdOf (p : Props) (sample : LocationSample.t)
    (h : Hook) : Z :=
  Z.max
    (computeEffectiveArrivalThreshold (baseThresholdOf p)
       (LocationSample.speedMps sample) (lineAverageSpacing h) + 150)
    TRACKING_CONFIG.DEPARTURE_THRESHOLD.

(** The layout's [onArrive], with a count of its invocations. *)
Definition countingOnArrive (settings : AppSettings) (os : OS)
    (stationName : string) (w : App * nat) : App * nat :=
  (onArrive settings os stationName (fst w), S (snd w)).

(** ** Data for examples

    A distance function for concrete journeys: between two points of one
    meridian the great-circle distance is proportional to the difference
    of the latitudes, 111195 metres to the degree. *)
Definition meridianDistance (lat1 lon1 lat2 lon2 : Q) : Q :=
  (111195 * Qabs (lat2 - lat1))%Q.

(** Stations [from], [from + 1], ... of a line along a meridian, one
    hundredth of a degree apart. *)
Fixpoint meridianStations (count : nat) (from : Z) : list Station.t :=
  match count with
  | O => []
  | S count' =>
      Station.mk "" "" (35 + (from # 100)) 139
      :: meridianStations count' (from + 1)
  end.

Definition line50 : TrainLine.t :=
  TrainLine.mk "line" "line" (meridianStations 50 0) "#000000".

Definition sampleAt (latitude : Q) (speedMps : option Q) : LocationSample.t :=
  LocationSample.mk latitude 139 speedMps.

(** The station the examples watch, at the place of station 40 of
    [line50], and the props of a session on that line. *)
Definition ueno : Station.t :=
  Station.mk "s40" "Ueno" (35 + (40 # 100)) 139.

Definition props50 : Props :=
  {| selectedStation := Some ueno;
     selectedLine := Some line50;
     settings :=
       {| soundOnlyWithHeadphones := true;
          vibrationEnabled := true;
          arrivalThreshold := Some 300%Q |} |}.

(** A sample on the meridian, the given number of metres before [ueno]. *)
Definition metresBefore (metres : Q) (speedMps : option Q)
    : LocationSample.t :=
  sampleAt (35 + (40 # 100) - metres / 111195) speedMps.

(** A line without stations, and a session on it. *)
Definition emptyLine : TrainLine.t := TrainLine.mk "none" "none" [] "#000000".

Definition propsEmptyLine : Props :=
  {| selectedStation := Some ueno;
     selectedLine := Some emptyLine;
     settings := settings props50 |}.

(** A channel whose calls all resolve, and one that rejects the
    scheduling call. *)
Definition healthyChannel : Channel := mkChannel false false false.
Definition brokenChannel : Channel := mkChannel false false true.

(** A running session that has not located the train yet, and one whose
    train has left station 25. *)
Definition trackingHook : Hook :=
  {| isTracking := true;
     distance := None;
     isArrived := false;
     currentStationIndex := -1;
     nearestStationDistance := None;
     trackingMode := near;
     stationSwitchCandidate := {| idx := -1; hits := 0 |};
     hasDepartedFromCurrentStation := false;
     hasTriggeredArrivalNotification := false;
     lineAverageSpacing := Some 700%Q;
     location :=
       {| backgroundTask := Some (baseOptions near);
          calls := [StartLocationUpdates (baseOptions near)] |} |}.


(** An application that may notify, at time 10000 ms. *)
Definition appWith (channel : Channel) : App :=
  {| hasNotificationPermission := true;
     isHeadphonesConnected := true;
     notifier := initialNotifier;
     clock := 10000;
     channel := channel |}.

(** The distance of a sample to a station. *)
Definition distanceToStation (getDistance : Q -> Q -> Q -> Q -> Q)
    (sample : LocationSample.t) (station : Station.t) : Q :=
  getDistance
    (LocationSample.latitude sample) (LocationSample.longitude sample)
    (Station.latitude station) (Station.longitude station).

(** What the scan has found once the stations [start], ..., [upto - 1]
    have been compared: nothing yet, or the first station among them at
    the least distance. *)
Definition scanned (getDistance : Q -> Q -> Q -> Q -> Q)
    (sample : LocationSample.t) (stations : list Station.t)
    (start upto : Z) (initialIdx nearestIdx : Z) (minDistance : xnum) : Prop :=
  (upto <= start /\ nearestIdx = initialIdx /\ minDistance = POSITIVE_INFINITY)
  \/ (start <= nearestIdx < upto
      /\ exists station,
          at_index stations nearestIdx = Some station
          /\ minDistance
             = Finite (distanceToStation getDistance sample station)
          /\ forall j other,
              start <= j < upto ->
              at_index stations j = Some other ->
              (distanceToStation getDistance sample station
               <= distanceToStation getDistance sample other)%Q
              /\ (j < nearestIdx ->
                  (distanceToStation getDistance sample station
                   < distanceToStation getDistance sample other)%Q)).

(** ** The log of the position source *)

(** The options of the background task a log leaves running: those of the
    latest call when it is a start. *)
Definition runningAfter (cs : list LocationCall) : option WatchOptions :=
  match cs with
  | StartLocationUpdates options :: _ => Some options
  | _ => None
  end.

(** No start follows a start without a stop in between (the log has the
    latest call first). *)
Fixpoint stopsBeforeRestart (cs : list LocationCall) : Prop :=
  match cs with
  | StartLocationUpdates _ :: rest =>
      match rest with
      | StartLocationUpdates _ :: _ => False
      | _ => stopsBeforeRestart rest
      end
  | StopLocationUpdates :: rest => stopsBeforeRestart rest
  | [] => True
  end.

(** The service knows what its log says, and its log is orderly. *)
Definition orderlyService (l : LocationService) : Prop :=
  backgroundTask l = runningAfter (calls l) /\ stopsBeforeRestart (calls l).

(** The background task runs with the options of the active tier. *)
Definition tierConsistent (h : Hook) : Prop :=
  backgroundTask (location h) = Some (baseOptions (trackingMode h)).

(** ** useNotification.ts: resetNotification

    The refs are reset before the channel is called, so they are reset
    also when the call rejects; the rejection is the result of the
    function. *)
Definition resetNotification (channel : Channel) (n : Notifier)
    : Notifier * outcome unit :=
  let n := set_hasNotified false n in
  let n := set_extraVibrationTimers [] n in
  (n, channelCall (cancelAllScheduledNotificationsAsync_rejects channel)).

(** The calls a caller makes on the dispatcher, each with the behaviour of
    the channel at that moment, and a run of such calls. *)
Inductive NotifierCall : Type :=
| Send (channel : Channel) (now : Z) (stationName : string)
    (isHeadphonesConnected : bool)
| Reset (channel : Channel).

Definition isSend (c : NotifierCall) : bool :=
  match c with Send _ _ _ _ => true | Reset _ => false end.

Fixpoint runNotifier (settings : AppSettings) (os : OS)
    (cs : list NotifierCall) (n : Notifier) : Notifier :=
  match cs with
  | [] => n
  | Send channel now stationName phones :: rest =>
      runNotifier settings os rest
        (sendNotification settings os channel now stationName phones n)
  | Reset channel :: rest =>
      runNotifier settings os rest (fst (resetNotification channel n))
  end.

(** ** arrival-threshold.ts: computeAverageStationSpacing

    The function computes the haversine distance of every station to the
    one before it with the formula of [getDistanceFromLatLonInMeters]
    written out; [haversine] stands for that formula.  The loop runs over
    [index] = 1, ..., [stations.length - 1] with [previous] and [current]
    the stations at [index - 1] and [index]; here it walks down the list
    with the previous station in hand.  A distance is a finite number, so
    the [Number.isFinite] test holds. *)

Section Spacing.

Variable haversine : Q -> Q -> Q -> Q -> Q.

Definition segmentDistance (previous current : Station.t) : Q :=
  haversine (Station.latitude previous) (Station.longitude previous)
    (Station.latitude current) (Station.longitude current).

Fixpoint spacingLoop (previous : Station.t) (rest : list Station.t)
    (sum : Q) (count : Z) : Q * Z :=
  match rest with
  | [] => (sum, count)
  | current :: rest' =>
      let distance := segmentDistance previous current in
      if Qgtb distance 0
      then spacingLoop current rest' (sum + distance)%Q (count + 1)
      else spacingLoop current rest' sum count
  end.

Definition computeAverageStationSpacing (stations : list Station.t)
    : option Q :=
  if length_of stations <? 2 then None
  else
    match stations with
    | [] => None
    | first :: rest =>
        let '(sum, count) := spacingLoop first rest 0%Q 0 in
        if count =? 0 then None else Some (sum / inject_Z count)%Q
    end.

(** The distances between consecutive stations, in route order. *)
Fixpoint segmentDistances (previous : Station.t) (rest : list Station.t)
    : list Q :=
  match rest with
  | [] => []
  | current :: rest' =>
      segmentDistance previous current :: segmentDistances current rest'
  end.

Definition segmentsOf (stations : list Station.t) : list Q :=
  match stations with
  | [] => []
  | first :: rest => segmentDistances first rest
  end.

End Spacing.

(** ** The session: startTracking and stopTracking

    [AsyncStorage] holds JSON text under string keys.  The code writes
    and reads four keys, each with values of one type; the store is
    modelled by the value each key holds, [None] for a key that is not
    set ([JSON.parse] gives back what [JSON.stringify] was given). *)
Record AsyncStorage : Type := mkAsyncStorage {
  SelectedTargetStation : option Station.t;
  SelectedLineMeta : option (option Q);
  AppSettingsItem : option AppSettings;
  SavedTrainLines : option (list TrainLine.t)
}.

Definition setSelectedTargetStation (v : option Station.t)
    (s : AsyncStorage) : AsyncStorage :=
  mkAsyncStorage v (SelectedLineMeta s) (AppSettingsItem s)
    (SavedTrainLines s).

Definition setSelectedLineMeta (v : option (option Q))
    (s : AsyncStorage) : AsyncStorage :=
  mkAsyncStorage (SelectedTargetStation s) v (AppSettingsItem s)
    (SavedTrainLines s).

(** The callbacks that a render creates read the props and the React
    state of that render, whatever has been set since: [updateLocation]
    reads [selectedStation], [selectedLine], [settings.arrivalThreshold],
    [isTracking] and [currentStationIndex] (its dependency list) from its
    closure, and the refs through [.current], as they are at the call. *)
Record Closure : Type := mkClosure {
  closureProps : Props;
  closureIsTracking : bool;
  closureCurrentStationIndex : Z
}.

(** The closure of the callbacks of the render that shows the hook [h]. *)
Definition renderOf (p : Props) (h : Hook) : Closure :=
  mkClosure p (isTracking h) (currentStationIndex h).

(** The foreground watch: its options and the callback it was given,
    which calls the [updateLocation] of the render [startTracking] comes
    from. *)
Record Watch : Type := mkWatch {
  watchOptions : WatchOptions;
  watchCallback : Closure
}.

(** The hook together with its ref [foregroundWatchSubscription], the
    store, and the alerts shown to the user (title and message, latest
    first). *)
Record Tracker : Type := mkTracker {
  hook : Hook;
  foregroundWatchSubscription : option Watch;
  storage : AsyncStorage;
  alerts : list (string * string)
}.

Definition set_hook (v : Hook) (t : Tracker) : Tracker :=
  mkTracker v (foregroundWatchSubscription t) (storage t) (alerts t).

Definition set_foregroundWatchSubscription (v : option Watch) (t : Tracker)
    : Tracker :=
  mkTracker (hook t) v (storage t) (alerts t).

Definition set_storage (v : AsyncStorage) (t : Tracker) : Tracker :=
  mkTracker (hook t) (foregroundWatchSubscription t) v (alerts t).

Definition alert (title message : string) (t : Tracker) : Tracker :=
  mkTracker (hook t) (foregroundWatchSubscription t) (storage t)
    ((title, message) :: alerts t).

(** What the platform does with the calls of one run.  The permission
    queries answer whether the status is ['granted'], and
    [getCurrentPositionAsync] answers a position, unless they reject;
    every other call resolves or rejects.  A call that rejects has no
    effect. *)
Record Platform : Type := mkPlatform {
  getForegroundPermissionsAsync : outcome bool;
  getBackgroundPermissionsAsync : outcome bool;
  setItem_SelectedTargetStation_rejects : bool;
  setItem_SelectedLineMeta_rejects : bool;
  hasStartedLocationUpdatesAsync_rejects : bool;
  stopLocationUpdatesAsync_rejects : bool;
  startLocationUpdatesAsync_rejects : bool;
  watchPositionAsync_rejects : bool;
  getCurrentPositionAsync : outcome LocationSample.t;
  removeItem_SelectedTargetStation_rejects : bool;
  removeItem_SelectedLineMeta_rejects : bool
}.

(** How an asynchronous call ends: resolved, or rejected with an error,
    and in both cases with the state it leaves behind. *)
Inductive ended (S : Type) : Type :=
| Resolved (s : S)
| Rejected (e : JsError) (s : S).

Arguments Resolved {S} s.
Arguments Rejected {S} e s.

Definition stateOf {S : Type} (m : ended S) : S :=
  match m with
  | Resolved s => s
  | Rejected _ s => s
  end.

Definition andThen {S : Type} (m : ended S) (k : S -> ended S) : ended S :=
  match m with
  | Resolved s => k s
  | Rejected e s => Rejected e s
  end.

(** [await call(...)] for a call with the given effect. *)
Definition await {S : Type} (rejects : bool) (effect : S -> S) (s : S)
    : ended S :=
  if rejects then Rejected PlatformRejection s else Resolved (effect s).

Definition setIsTracking (v : bool) (h : Hook) : Hook :=
  mkHook v (distance h) (isArrived h) (currentStationIndex h)
    (nearestStationDistance h) (trackingMode h) (stationSwitchCandidate h)
    (hasDepartedFromCurrentStation h) (hasTriggeredArrivalNotification h)
    (lineAverageSpacing h) (location h).

Definition set_lineAverageSpacing (v : option Q) (h : Hook) : Hook :=
  mkHook (isTracking h) (distance h) (isArrived h) (currentStationIndex h)
    (nearestStationDistance h) (trackingMode h) (stationSwitchCandidate h)
    (hasDepartedFromCurrentStation h) (hasTriggeredArrivalNotification h)
    v (location h).

Definition nearWatchOptions : WatchOptions :=
  {| accuracy := High;
     timeInterval := TRACKING_CONFIG.GPS_INTERVAL_NEAR_MS;
     distanceInterval := TRACKING_CONFIG.GPS_DISTANCE_FILTER_NEAR |}.

(** The hook as it runs: a callback reads the state of the render that
    created it, and the calls of the platform may reject. *)
Module Live.

Section Callbacks.

Variable getDistanceFromLatLonInMeters : Q -> Q -> Q -> Q -> Q.
Context {W : Type}.
Variable onArrive : string -> W -> W.

Definition subscribeWithMode (platform : Platform) (mode : DynamicMode)
    (h : Hook) : ended Hook :=
  let h := set_trackingMode mode h in
  if hasStartedLocationUpdatesAsync_rejects platform
  then Rejected PlatformRejection h
  else
    let started := hasStartedLocationUpdatesAsync (location h) in
    andThen
      (if started
       then await (stopLocationUpdatesAsync_rejects platform)
              (fun h => set_location (stopLocationUpdatesAsync (location h)) h)
              h
       else Resolved h)
      (await (startLocationUpdatesAsync_rejects platform)
         (fun h =>
            set_location
              (startLocationUpdatesAsync (baseOptions mode) (location h)) h)).

(** [updateLocation] as created by the render [render]. *)
Definition updateLocation (render : Closure) (platform : Platform)
    (sample : LocationSample.t) (h : Hook) (w : W) : ended (Hook * W) :=
  match selectedStation (closureProps render),
        selectedLine (closureProps render) with
  | Some target, Some line =>
      let isTracking := closureIsTracking render in
      let currentStationIndex := closureCurrentStationIndex render in
      let dist :=
        getDistanceFromLatLonInMeters
          (LocationSample.latitude sample)
          (LocationSample.longitude sample)
          (Station.latitude target)
          (Station.longitude target) in
      let h := setDistance (Some (Math_floor dist)) h in
      let nextMode := resolveModeByDistance dist in
      match
        (if negb (DynamicMode_eqb nextMode (trackingMode h)) && isTracking
         then subscribeWithMode platform nextMode h
         else Resolved h)
      with
      | Rejected e h => Rejected e (h, w)
      | Resolved h =>
          let baseArrivalThreshold :=
            match arrivalThreshold (settings (closureProps render)) with
            | Some v => v
            | None => inject_Z TRACKING_CONFIG.ARRIVAL_THRESHOLD_DEFAULT
            end in
          let effectiveArrivalThreshold :=
            computeEffectiveArrivalThreshold baseArrivalThreshold
              (LocationSample.speedMps sample) (lineAverageSpacing h) in
          let '(h, w) :=
            arrivalTransition onArrive target dist effectiveArrivalThreshold
              h w in
          match
            locateNearest getDistanceFromLatLonInMeters sample
              (TrainLine.stations line) currentStationIndex
          with
          | Threw e => Rejected e (h, w)
          | Completed (nearestIdx, minDistance) =>
              let h :=
                setNearestStationDistance (Some (xnum_floor minDistance)) h in
              Resolved
                (stationIndexUpdate currentStationIndex nearestIdx
                   minDistance h, w)
          end
      end
  | _, _ => Resolved (h, w)
  end.

(** The message of the alert of the [catch] block:
    [error instanceof Error ? error.message : ...]. *)
Variable messageOf : JsError -> string.

(** [startTracking], called from the render that shows the hook of [t]
    with the props [p].  The body of its [try] block ends resolved or
    rejected; the [catch] block follows a rejection. *)
Definition tryStartTracking (p : Props) (target : Station.t)
    (line : TrainLine.t) (platform : Platform) (t : Tracker) (w : W)
    : ended (Tracker * W) :=
  let render := renderOf p (hook t) in
  match getForegroundPermissionsAsync platform with
  | Threw e => Rejected e (t, w)
  | Completed fgGranted =>
      match getBackgroundPermissionsAsync platform with
      | Threw e => Rejected e (t, w)
      | Completed bgGranted =>
          if negb fgGranted || negb bgGranted then
            Resolved
              (alert "権限エラー"
                 "位置情報が「常に許可」になっていません。設定アプリから位置情報権限を変更してください。"
                 t,
               w)
          else
            let h :=
              set_lineAverageSpacing
                (computeAverageStationSpacing getDistanceFromLatLonInMeters
                   (TrainLine.stations line)) (hook t) in
            let t := set_hook h t in
            let store := storage t in
            let store :=
              if setItem_SelectedTargetStation_rejects platform then store
              else setSelectedTargetStation (Some target) store in
            let store :=
              if setItem_SelectedLineMeta_rejects platform then store
              else setSelectedLineMeta (Some (lineAverageSpacing h)) store in
            let t := set_storage store t in
            if setItem_SelectedTargetStation_rejects platform
               || setItem_SelectedLineMeta_rejects platform
            then Rejected PlatformRejection (t, w)
            else
              let h := setIsTracking true h in
              let h := setIsArrived false h in
              let h := set_hasTriggeredArrivalNotification false h in
              let h :=
                set_stationSwitchCandidate {| idx := -1; hits := 0 |} h in
              let h := set_hasDepartedFromCurrentStation false h in
              match subscribeWithMode platform near h with
              | Rejected e h => Rejected e (set_hook h t, w)
              | Resolved h =>
                  let t := set_hook h t in
                  let t := set_foregroundWatchSubscription None t in
                  if watchPositionAsync_rejects platform
                  then Rejected PlatformRejection (t, w)
                  else
                    let t :=
                      set_foregroundWatchSubscription
                        (Some (mkWatch nearWatchOptions render)) t in
                    match getCurrentPositionAsync platform with
                    | Threw e => Rejected e (t, w)
                    | Completed current =>
                        match
                          updateLocation render platform current (hook t) w
                        with
                        | Resolved (h, w) => Resolved (set_hook h t, w)
                        | Rejected e (h, w) => Rejected e (set_hook h t, w)
                        end
                    end
              end
      end
  end.

Definition startTracking (p : Props) (platform : Platform) (t : Tracker)
    (w : W) : Tracker * W :=
  match selectedStation p, selectedLine p with
  | Some target, Some line =>
      match tryStartTracking p target line platform t w with
      | Resolved tw => tw
      | Rejected error (t, w) =>
          let t := set_hook (setIsTracking false (hook t)) t in
          (alert "トラッキング起動エラー" (messageOf error) t, w)
      end
  | _, _ => (t, w)
  end.

(** The platform hands a position to the callback of the foreground
    watch.  The callback does not wait for [updateLocation]
    ([void updateLocation(...)]), so a rejection reaches nobody. *)
Definition deliver (platform : Platform) (sample : LocationSample.t)
    (t : Tracker) (w : W) : ended (Tracker * W) :=
  match foregroundWatchSubscription t with
  | None => Resolved (t, w)
  | Some watch =>
      match updateLocation (watchCallback watch) platform sample (hook t) w
      with
      | Resolved (h, w) => Resolved (set_hook h t, w)
      | Rejected e (h, w) => Rejected e (set_hook h t, w)
      end
  end.

(** The positions of a journey, each handled before the next arrives. *)
Fixpoint deliverAll (deliveries : list (Platform * LocationSample.t))
    (t : Tracker) (w : W) : Tracker * W :=
  match deliveries with
  | [] => (t, w)
  | (platform, sample) :: rest =>
      let '(t, w) := stateOf (deliver platform sample t w) in
      deliverAll rest t w
  end.

End Callbacks.

Definition stopTracking (platform : Platform) (t : Tracker)
    : ended Tracker :=
  let t := set_foregroundWatchSubscription None t in
  if hasStartedLocationUpdatesAsync_rejects platform
  then Rejected PlatformRejection t
  else
    let started := hasStartedLocationUpdatesAsync (location (hook t)) in
    andThen
      (if started
       then await (stopLocationUpdatesAsync_rejects platform)
              (fun t =>
                 set_hook
                   (set_location
                      (stopLocationUpdatesAsync (location (hook t))) (hook t))
                   t)
              t
       else Resolved t)
      (fun t =>
         let store := storage t in
         let store :=
           if removeItem_SelectedTargetStation_rejects platform then store
           else setSelectedTargetStation None store in
         let store :=
           if removeItem_SelectedLineMeta_rejects platform then store
           else setSelectedLineMeta None store in
         let t := set_storage store t in
         if removeItem_SelectedTargetStation_rejects platform
            || removeItem_SelectedLineMeta_rejects platform
         then Rejected PlatformRejection t
         else
           let h := hook t in
           let h := set_lineAverageSpacing None h in
           let h := setIsTracking false h in
           let h := setDistance None h in
           let h := setIsArrived false h in
           let h := setCurrentStationIndex (-1) h in
           let h := setNearestStationDistance None h in
           let h := set_hasTriggeredArrivalNotification false h in
           let h :=
             set_stationSwitchCandidate {| idx := -1; hits := 0 |} h in
           let h := set_hasDepartedFromCurrentStation false h in
           Resolved (set_hook h t)).

End Live.

(** ** The background location task ([app/(tabs)/index.tsx])

    The task reads the target, the settings and the line metadata from
    the store, and acts on the notifications presented and on the
    location service.  [error] says whether the platform reports an
    error, [locations] is [data.locations] (empty when missing),
    [stopRejects] whether [stopLocationUpdatesAsync] rejects: the empty
    [catch] block swallows the rejection and the updates keep running. *)
Record Background : Type := mkBackground {
  backgroundPresented : list NotificationContent;
  backgroundLocation : LocationService
}.

Section BackgroundTask.

Variable getDistanceFromLatLonInMeters : Q -> Q -> Q -> Q -> Q.

Definition backgroundLocationTask (error : bool)
    (locations : list LocationSample.t) (store : AsyncStorage)
    (channel : Channel) (stopRejects : bool) (b : Background) : Background :=
  if error then b
  else
    match SelectedTargetStation store with
    | None => b
    | Some targetStation =>
        let baseArrivalThreshold :=
          match AppSettingsItem store with
          | Some appSettings =>
              match arrivalThreshold appSettings with
              | Some v => v
              | None => inject_Z TRACKING_CONFIG.ARRIVAL_THRESHOLD_DEFAULT
              end
          | None => inject_Z TRACKING_CONFIG.ARRIVAL_THRESHOLD_DEFAULT
          end in
        match locations with
        | [] => b
        | latestLocation :: _ =>
            let averageStationSpacing :=
              match SelectedLineMeta store with
              | Some lineMeta => lineMeta
              | None => None
              end in
            let effectiveArrivalThreshold :=
              computeEffectiveArrivalThreshold baseArrivalThreshold
                (LocationSample.speedMps latestLocation)
                averageStationSpacing in
            let dist :=
              getDistanceFromLatLonInMeters
                (LocationSample.latitude latestLocation)
                (LocationSample.longitude latestLocation)
                (Station.latitude targetStation)
                (Station.longitude targetStation) in
            if Qleb dist (inject_Z effectiveArrivalThreshold) then
              match channelCall (scheduleNotificationAsync_rejects channel) with
              | Threw _ => b
              | Completed _ =>
                  let content :=
                    {| title := "まもなく到着";
                       body := Station.name targetStation ++ "付近です";
                       sound := Some "default"%string;
                       vibrate := None |} in
                  mkBackground (content :: backgroundPresented b)
                    (if stopRejects then backgroundLocation b
                     else stopLocationUpdatesAsync (backgroundLocation b))
              end
            else b
        end
    end.

(** The platform hands a batch of locations to the task only while the
    location updates are running, and a batch is handled before the next
    arrives. *)
Definition deliverToBackground (store : AsyncStorage)
    (delivery : bool * list LocationSample.t * Channel * bool)
    (b : Background) : Background :=
  let '(error, locations, channel, stopRejects) := delivery in
  if hasStartedLocationUpdatesAsync (backgroundLocation b)
  then backgroundLocationTask error locations store channel stopRejects b
  else b.

Fixpoint deliverAllToBackground (store : AsyncStorage)
    (deliveries : list (bool * list LocationSample.t * Channel * bool))
    (b : Background) : Background :=
  match deliveries with
  | [] => b
  | delivery :: rest =>
      deliverAllToBackground store rest
        (deliverToBackground store delivery b)
  end.

End BackgroundTask.

(** ** useTrainData.ts: createFallbackColor

    A name is given by its UTF-16 code units, the values of
    [charCodeAt].  [hash << 5] works on the 32-bit integer of [hash]
    ([ToInt32]) and gives a 32-bit integer; the subtraction and the
    addition are those of numbers, exact here since the values stay
    below 2^53 for names of fewer than four million code units. *)

Definition ToInt32 (x : Z) : Z :=
  let m := x mod 2 ^ 32 in
  if m <? 2 ^ 31 then m else m - 2 ^ 32.

Definition shiftLeft (x count : Z) : Z := ToInt32 (Z.shiftl (ToInt32 x) count).

Definition bitAnd (x y : Z) : Z := ToInt32 (Z.land (ToInt32 x) (ToInt32 y)).

Fixpoint hashLoop (name : list Z) (hash : Z) : Z :=
  match name with
  | [] => hash
  | code :: rest => hashLoop rest (code + (shiftLeft hash 5 - hash))
  end.

(** [Number.prototype.toString(16)] on a non-negative integer: the
    digits, most significant first, without leading zeros. *)
Definition digitChar (d : Z) : ascii :=
  match d with
  | 0 => "0" | 1 => "1" | 2 => "2" | 3 => "3" | 4 => "4"
  | 5 => "5" | 6 => "6" | 7 => "7" | 8 => "8" | 9 => "9"
  | 10 => "a" | 11 => "b" | 12 => "c" | 13 => "d" | 14 => "e"
  | _ => "f"
  end%char.

Fixpoint toString16_from (fuel : nat) (v : Z) (acc : string) : string :=
  match fuel with
  | O => acc
  | S fuel' =>
      let acc' := String (digitChar (v mod 16)) acc in
      if v <? 16 then acc' else toString16_from fuel' (v / 16) acc'
  end.

Definition toString16 (v : Z) : string :=
  toString16_from (S (Z.to_nat (Z.log2 v))) v "".

(** [toUpperCase] on a character of the ASCII range, and on a string. *)
Definition upperChar (c : ascii) : ascii :=
  let n := N_of_ascii c in
  if ((97 <=? n) && (n <=? 122))%N then ascii_of_N (n - 32) else c.

Fixpoint toUpperCase (s : string) : string :=
  match s with
  | EmptyString => EmptyString
  | String c rest => String (upperChar c) (toUpperCase rest)
  end.

(** [s.substring(0, end)]: a negative [end] counts as 0. *)
Definition substringFromStart (s : string) (end_ : Z) : string :=
  String.substring 0 (Z.to_nat end_) s.

Definition createFallbackColor (name : list Z) : string :=
  let hash := hashLoop name 0 in
  let value := toUpperCase (toString16 (bitAnd hash 16777215)) in
  ("#"
   ++ substringFromStart "00000" (6 - Z.of_nat (String.length value))
   ++ value)%string.

(** Reading a string of hexadecimal digits, and the polynomial hash of a
    name: each code unit weighs 31 times the one after it. *)
Definition digitValue (c : ascii) : Z :=
  let n := Z.of_N (N_of_ascii c) in
  if (48 <=? n) && (n <=? 57) then n - 48
  else if (65 <=? n) && (n <=? 70) then n - 55
  else if (97 <=? n) && (n <=? 102) then n - 87
  else 0.

Fixpoint parseHexFrom (acc : Z) (s : string) : Z :=
  match s with
  | EmptyString => acc
  | String c rest => parseHexFrom (16 * acc + digitValue c) rest
  end.

Definition isUpperHexDigit (c : ascii) : bool :=
  let n := Z.of_N (N_of_ascii c) in
  ((48 <=? n) && (n <=? 57)) || ((65 <=? n) && (n <=? 70)).

Fixpoint allUpperHexDigits (s : string) : bool :=
  match s with
  | EmptyString => true
  | String c rest => isUpperHexDigit c && allUpperHexDigits rest
  end.

Fixpoint polynomialHash (name : list Z) (acc : Z) : Z :=
  match name with
  | [] => acc
  | code :: rest => polynomialHash rest (31 * acc + code)
  end.

(** ** useTrainData.ts: the saved lines

    The answer of the station service is an input: [Threw] when the
    request or the decoding fails, otherwise [json.response?.station]
    ([None] when [response] is [null]).  [storageRejects] says whether
    [AsyncStorage.setItem] rejects. *)

Module HeartRailsStation.
Record t : Type := mk {
  name : string;
  y : string;
  x : string;
  line : option string
}.
End HeartRailsStation.

Record TrainData : Type := mkTrainData {
  savedLines : list TrainLine.t;
  isLoadingAPI : bool;
  foundLines : list string;
  savedLinesItem : option (list TrainLine.t);
  trainDataAlerts : list (string * string)
}.

Definition setSavedLines (v : list TrainLine.t) (d : TrainData) : TrainData :=
  mkTrainData v (isLoadingAPI d) (foundLines d) (savedLinesItem d)
    (trainDataAlerts d).

Definition setIsLoadingAPI (v : bool) (d : TrainData) : TrainData :=
  mkTrainData (savedLines d) v (foundLines d) (savedLinesItem d)
    (trainDataAlerts d).

Definition setFoundLines (v : list string) (d : TrainData) : TrainData :=
  mkTrainData (savedLines d) (isLoadingAPI d) v (savedLinesItem d)
    (trainDataAlerts d).

Definition set_savedLinesItem (v : option (list TrainLine.t))
    (d : TrainData) : TrainData :=
  mkTrainData (savedLines d) (isLoadingAPI d) (foundLines d) v
    (trainDataAlerts d).

Definition alertTrainData (title message : string) (d : TrainData)
    : TrainData :=
  mkTrainData (savedLines d) (isLoadingAPI d) (foundLines d)
    (savedLinesItem d) ((title, message) :: trainDataAlerts d).

(** [Boolean(line)]: [undefined] and the empty string are falsy. *)
Definition isTruthy (line : option string) : bool :=
  match line with
  | Some EmptyString => false
  | Some _ => true
  | None => false
  end.

(** [.filter((line): line is string => Boolean(line))] *)
Fixpoint truthyLines (lines : list (option string)) : list string :=
  match lines with
  | [] => []
  | line :: rest =>
      if isTruthy line
      then match line with
           | Some text => text :: truthyLines rest
           | None => truthyLines rest
           end
      else truthyLines rest
  end.

(** [Array.from(new Set(xs))]: the elements in the order of their first
    occurrence. *)
Fixpoint insertionOrder (seen : list string) (xs : list string)
    : list string :=
  match xs with
  | [] => []
  | x :: rest =>
      if existsb (String.eqb x) seen then insertionOrder seen rest
      else x :: insertionOrder (x :: seen) rest
  end.

Definition arrayFromSet (xs : list string) : list string :=
  insertionOrder [] xs.

Definition isEmptyString (s : string) : bool :=
  match s with EmptyString => true | _ => false end.

Definition searchLinesFromStation (stationName : string)
    (response : outcome (option (list HeartRailsStation.t)))
    (d : TrainData) : TrainData * list string :=
  if isEmptyString stationName then (d, [])
  else
    let d := setIsLoadingAPI true d in
    let d := setFoundLines [] d in
    match response with
    | Completed station =>
        let stations := match station with Some l => l | None => [] end in
        let lines :=
          arrayFromSet (truthyLines (map HeartRailsStation.line stations)) in
        let d := setFoundLines lines d in
        (setIsLoadingAPI false d, lines)
    | Threw _ =>
        let d := alertTrainData "通信エラー" "路線検索に失敗しました" d in
        (setIsLoadingAPI false d, [])
    end.

Definition saveLines (storageRejects : bool) (lines : list TrainLine.t)
    (d : TrainData) : outcome TrainData :=
  _ <- channelCall storageRejects ;;
  Completed (setSavedLines lines (set_savedLinesItem (Some lines) d)).

Section Download.

(** [Number.parseFloat], the identifier [Date.now().toString()] of the
    new line, the colour table of the caller and the code units of a
    name are taken as given. *)
Variable parseFloat : string -> Q.
Variable resolveLineColor : option (string -> option string).
Variable charCodes : string -> list Z.

Definition stationOfRaw (station : HeartRailsStation.t) : Station.t :=
  Station.mk
    (HeartRailsStation.name station ++ "_" ++ HeartRailsStation.y station
     ++ "_" ++ HeartRailsStation.x station)
    (HeartRailsStation.name station)
    (parseFloat (HeartRailsStation.y station))
    (parseFloat (HeartRailsStation.x station)).

Definition colorOf (lineName : string) : string :=
  let resolved :=
    match resolveLineColor with
    | Some resolve => resolve lineName
    | None => None
    end in
  match resolved with
  | Some color => color
  | None => createFallbackColor (charCodes lineName)
  end.

Definition downloadLine (now : string) (lineName : string)
    (response : outcome (option (list HeartRailsStation.t)))
    (storageRejects : bool) (d : TrainData)
    : TrainData * option TrainLine.t :=
  if isEmptyString lineName then (d, None)
  else
    let d := setIsLoadingAPI true d in
    match response with
    | Threw _ =>
        let d :=
          alertTrainData "通信エラー" "路線データの取得に失敗しました" d in
        (setIsLoadingAPI false d, None)
    | Completed station =>
        let stationsRaw := match station with Some l => l | None => [] end in
        match stationsRaw with
        | [] =>
            let d :=
              alertTrainData "エラー" "駅情報が見つかりませんでした。" d in
            (setIsLoadingAPI false d, None)
        | _ :: _ =>
            let stations := map stationOfRaw stationsRaw in
            let newLine :=
              TrainLine.mk now lineName stations (colorOf lineName) in
            if existsb
                 (fun line =>
                    String.eqb (TrainLine.name line) (TrainLine.name newLine))
                 (savedLines d)
            then
              let d :=
                alertTrainData "確認" (lineName ++ " は既に保存済みです") d in
              (setIsLoadingAPI false d, None)
            else
              let newLines := savedLines d ++ [newLine] in
              match saveLines storageRejects newLines d with
              | Completed d' =>
                  let d' := setFoundLines [] d' in
                  (setIsLoadingAPI false d', Some newLine)
              | Threw _ =>
                  let d :=
                    alertTrainData "通信エラー"
                      "路線データの取得に失敗しました" d in
                  (setIsLoadingAPI false d, None)
              end
        end
    end.

End Download.

(** ** More data for examples *)

(** A store without items, and the store of a session that watches
    [ueno] on a line of 700 m average spacing. *)
Definition emptyStore : AsyncStorage := mkAsyncStorage None None None None.


(** A tracker before its first session, and the background side of the
    session of [trackingHook]. *)
Definition readyTracker : Tracker := mkTracker initialHook None emptyStore [].


(** Answers of the station service: to a search by station, and to the
    download of a line. *)
Definition tokyoAnswer : list HeartRailsStation.t :=
  [HeartRailsStation.mk "Tokyo" "35.681" "139.767" (Some "Yamanote"%string);
   HeartRailsStation.mk "Tokyo" "35.681" "139.767" (Some "Chuo"%string);
   HeartRailsStation.mk "Tokyo" "35.681" "139.767" None;
   HeartRailsStation.mk "Tokyo" "35.681" "139.767" (Some "Yamanote"%string);
   HeartRailsStation.mk "Tokyo" "35.681" "139.767" (Some ""%string)].

Definition yamanoteAnswer : list HeartRailsStation.t :=
  [HeartRailsStation.mk "Tokyo" "35.681" "139.767" (Some "Yamanote"%string);
   HeartRailsStation.mk "Kanda" "35.692" "139.771" (Some "Yamanote"%string)].

(** [Number.parseFloat] on the coordinates of [yamanoteAnswer]. *)
Definition parseFloatOfExamples (text : string) : Q :=
  if String.eqb text "35.681" then 35681 # 1000
  else if String.eqb text "139.767" then 139767 # 1000
  else if String.eqb text "35.692" then 35692 # 1000
  else if String.eqb text "139.771" then 139771 # 1000
  else 0.

(** The code units of a name of ASCII characters. *)
Definition asciiCodes (text : string) : list Z :=
  map (fun c => Z.of_N (N_of_ascii c)) (list_ascii_of_string text).

(** The data of a user who has saved [line50]. *)
Definition savedLine50 : TrainData :=
  mkTrainData [line50] false [] (Some [line50]) [].

(** ** Names for parts of the session code *)

(** The position source lets [subscribeWithMode] through: the query and
    the start resolve, and so does the stop when the task is running. *)
Definition platformLetsSubscribe (platform : Platform) (h : Hook) : bool :=
  negb (hasStartedLocationUpdatesAsync_rejects platform)
  && negb (hasStartedLocationUpdatesAsync (location h)
           && stopLocationUpdatesAsync_rejects platform)
  && negb (startLocationUpdatesAsync_rejects platform).

(** The platform lets [startTracking] through: both permissions are
    granted and every call it makes resolves. *)
Definition platformLetsStart (platform : Platform) (h : Hook) : bool :=
  match getForegroundPermissionsAsync platform,
        getBackgroundPermissionsAsync platform,
        getCurrentPositionAsync platform with
  | Completed true, Completed true, Completed _ =>
      negb (setItem_SelectedTargetStation_rejects platform)
      && negb (setItem_SelectedLineMeta_rejects platform)
      && platformLetsSubscribe platform h
      && negb (watchPositionAsync_rejects platform)
  | _, _, _ => false
  end.

(** The two permission queries resolve, and one of them answers a status
    other than ['granted']. *)
Definition permissionMissing (platform : Platform) : bool :=
  match getForegroundPermissionsAsync platform,
        getBackgroundPermissionsAsync platform with
  | Completed fgGranted, Completed bgGranted =>
      negb fgGranted || negb bgGranted
  | _, _ => false
  end.

(** The platform lets [stopTracking] through. *)
Definition platformLetsStop (platform : Platform) (h : Hook) : bool :=
  negb (hasStartedLocationUpdatesAsync_rejects platform)
  && negb (hasStartedLocationUpdatesAsync (location h)
           && stopLocationUpdatesAsync_rejects platform)
  && negb (removeItem_SelectedTargetStation_rejects platform)
  && negb (removeItem_SelectedLineMeta_rejects platform).

(** The hook [startTracking] hands to the [updateLocation] at its end,
    when the platform has let it come that far. *)
Definition preparedForStart (getDistance : Q -> Q -> Q -> Q -> Q)
    (line : TrainLine.t) (h : Hook) : Hook :=
  subscribeWithMode near
    (set_hasDepartedFromCurrentStation false
       (set_stationSwitchCandidate {| idx := -1; hits := 0 |}
          (set_hasTriggeredArrivalNotification false
             (setIsArrived false
                (setIsTracking true
                   (set_lineAverageSpacing
                      (computeAverageStationSpacing getDistance
                         (TrainLine.stations line)) h)))))).

(** The watch of a session in which the callback reads neither that the
    hook is tracking nor a current station: what [startTracking] leaves
    when it is called, as the layout calls it, from a render that is not
    tracking and shows no current station. *)
Definition staleWatch (p : Props) (t : Tracker) : Prop :=
  exists watch,
    foregroundWatchSubscription t = Some watch
    /\ closureProps (watchCallback watch) = p
    /\ closureIsTracking (watchCallback watch) = false
    /\ closureCurrentStationIndex (watchCallback watch) < 0.

(** A platform on which every call resolves, both permissions are
    granted and the device is at [current]; and the message of an error.
    *)
Definition platformAt (current : LocationSample.t) : Platform :=
  {| getForegroundPermissionsAsync := Completed true;
     getBackgroundPermissionsAsync := Completed true;
     setItem_SelectedTargetStation_rejects := false;
     setItem_SelectedLineMeta_rejects := false;
     hasStartedLocationUpdatesAsync_rejects := false;
     stopLocationUpdatesAsync_rejects := false;
     startLocationUpdatesAsync_rejects := false;
     watchPositionAsync_rejects := false;
     getCurrentPositionAsync := Completed current;
     removeItem_SelectedTargetStation_rejects := false;
     removeItem_SelectedLineMeta_rejects := false |}.

Definition unknownErrorMessage (e : JsError) : string :=
  "不明なエラーが発生しました".

(** The same platform with the background permission missing, with a
    position request that rejects, and with location updates that cannot
    be queried. *)
Definition platformWithoutBackgroundPermission (current : LocationSample.t)
    : Platform :=
  {| getForegroundPermissionsAsync := Completed true;
     getBackgroundPermissionsAsync := Completed false;
     setItem_SelectedTargetStation_rejects := false;
     setItem_SelectedLineMeta_rejects := false;
     hasStartedLocationUpdatesAsync_rejects := false;
     stopLocationUpdatesAsync_rejects := false;
     startLocationUpdatesAsync_rejects := false;
     watchPositionAsync_rejects := false;
     getCurrentPositionAsync := Completed current;
     removeItem_SelectedTargetStation_rejects := false;
     removeItem_SelectedLineMeta_rejects := false |}.

Definition platformWithoutPosition : Platform :=
  {| getForegroundPermissionsAsync := Completed true;
     getBackgroundPermissionsAsync := Completed true;
     setItem_SelectedTargetStation_rejects := false;
     setItem_SelectedLineMeta_rejects := false;
     hasStartedLocationUpdatesAsync_rejects := false;
     stopLocationUpdatesAsync_rejects := false;
     startLocationUpdatesAsync_rejects := false;
     watchPositionAsync_rejects := false;
     getCurrentPositionAsync := Threw PlatformRejection;
     removeItem_SelectedTargetStation_rejects := false;
     removeItem_SelectedLineMeta_rejects := false |}.

Definition platformWithoutLocationUpdates : Platform :=
  {| getForegroundPermissionsAsync := Completed true;
     getBackgroundPermissionsAsync := Completed true;
     setItem_SelectedTargetStation_rejects := false;
     setItem_SelectedLineMeta_rejects := false;
     hasStartedLocationUpdatesAsync_rejects := true;
     stopLocationUpdatesAsync_rejects := true;
     startLocationUpdatesAsync_rejects := true;
     watchPositionAsync_rejects := false;
     getCurrentPositionAsync := Threw PlatformRejection;
     removeItem_SelectedTargetStation_rejects := false;
     removeItem_SelectedLineMeta_rejects := false |}.

(** A position at station [index] of [line50]. *)
Definition atStation (index : Z) : LocationSample.t :=
  sampleAt (35 + (index # 100)) None.

(** ** The arithmetic of the doubles

    The threshold tuner and the haversine formula compute with doubles
    (IEEE 754 binary64).  A finite double is a rational number, and the
    result of [+], [-], [*] and [/] on finite doubles is the exact result
    rounded to the nearest double, to the one with the even significand
    when two are equally near ([roundToDouble]).  Below 2^-1022 the
    doubles are 2^-1074 apart (subnormal numbers); the overflow to
    [Infinity], beyond 1.8e308, is left out.  [NaN] is a value of its
    own. *)
Module Binary64.

(** 2^e *)
Definition pow2 (e : Z) : Q :=
  if 0 <=? e then inject_Z (2 ^ e) else (/ inject_Z (2 ^ (- e)))%Q.

(** For [q > 0], the [e] with 2^e <= q < 2^(e+1). *)
Definition exponentOf (q : Q) : Z :=
  let e := Z.log2 (Qnum q) - Z.log2 (Zpos (Qden q)) in
  if Qltb q (pow2 e) then e - 1 else e.

(** The nearest integer, the even one of two that are equally near. *)
Definition roundHalfEven (q : Q) : Z :=
  let f := Qfloor q in
  let r := (q - inject_Z f)%Q in
  if Qltb r (1 # 2) then f
  else if Qltb (1 # 2) r then f + 1
  else if Z.even f then f
  else f + 1.

Definition roundToDouble (q : Q) : Q :=
  if Qeq_bool q 0 then 0%Q
  else
    let a := Qabs q in
    let ulp := pow2 (Z.max (exponentOf a - 52) (-1074)) in
    let m := (inject_Z (roundHalfEven (a / ulp)) * ulp)%Q in
    if Qltb q 0 then (- m)%Q else m.

Definition add (x y : Q) : Q := roundToDouble (x + y).
Definition sub (x y : Q) : Q := roundToDouble (x - y).
Definition mul (x y : Q) : Q := roundToDouble (x * y).
(** [x / y] for a divisor other than zero. *)
Definition div (x y : Q) : Q := roundToDouble (x / y).

(** *** arrival-threshold.ts *)

Definition getSpeedAdjustment (speedMps : option Q) : Z :=
  match speedMps with
  | None => 0
  | Some v =>
      if Qleb v 0 then 0
      else
        let speedKmh := mul v (roundToDouble (36 # 10)) in
        if Qgeb speedKmh 80 then 180
        else if Qgeb speedKmh 60 then 120
        else if Qgeb speedKmh 40 then 60
        else if Qltb speedKmh 15 then -80
        else 0
  end.

Definition computeEffectiveArrivalThreshold
    (baseThreshold : Q) (speedMps averageStationSpacing : option Q) : Z :=
  let tuned :=
    add (add baseThreshold (inject_Z (getSpeedAdjustment speedMps)))
      (inject_Z (getLineAdjustment averageStationSpacing)) in
  Z.max MIN_EFFECTIVE_THRESHOLD
    (Z.min MAX_EFFECTIVE_THRESHOLD (Math_round tuned)).

(** *** useLocationTracking.ts: getDistanceFromLatLonInMeters

    A JavaScript number that may be [NaN]. *)
Inductive number : Type :=
| NaN
| Num (q : Q).

(** [x == y] on numbers: [NaN] equals nothing, not even itself. *)
Definition equals (x y : number) : bool :=
  match x, y with
  | Num p, Num q => Qeq_bool p q
  | _, _ => false
  end.

(** [Math.sin], [Math.cos], [Math.sqrt] and [Math.atan2] on finite
    doubles are functions of the platform: ECMAScript leaves their values
    to the implementation.  What it fixes is written out below:
    [Math.sqrt] of a negative number is [NaN], and a [NaN] argument
    gives [NaN]. *)
Record MathLibrary : Type := mkMathLibrary {
  sin : Q -> Q;
  cos : Q -> Q;
  sqrtOfNonNegative : Q -> Q;
  atan2OfNumbers : Q -> Q -> Q
}.

(** [Math.PI] *)
Definition Math_PI : Q := 884279719003555 # 281474976710656.

Section Haversine.

Variable Math : MathLibrary.

Definition Math_sqrt (x : Q) : number :=
  if Qltb x 0 then NaN else Num (sqrtOfNonNegative Math x).

Definition Math_atan2 (y x : number) : number :=
  match y, x with
  | Num y', Num x' => Num (atan2OfNumbers Math y' x')
  | _, _ => NaN
  end.

Definition times (x : Q) (y : number) : number :=
  match y with
  | Num y' => Num (mul x y')
  | NaN => NaN
  end.

(** The [a] of the formula. *)
Definition haversineTerm (lat1 lon1 lat2 lon2 : Q) : Q :=
  let dLat := mul (sub lat2 lat1) (div Math_PI 180) in
  let dLon := mul (sub lon2 lon1) (div Math_PI 180) in
  add
    (mul (sin Math (div dLat 2)) (sin Math (div dLat 2)))
    (mul
       (mul
          (mul (cos Math (mul lat1 (div Math_PI 180)))
             (cos Math (mul lat2 (div Math_PI 180))))
          (sin Math (div dLon 2)))
       (sin Math (div dLon 2))).

Definition getDistanceFromLatLonInMeters (lat1 lon1 lat2 lon2 : Q)
    : number :=
  let radius := inject_Z TRACKING_CONFIG.EARTH_RADIUS in
  let a := haversineTerm lat1 lon1 lat2 lon2 in
  times (mul radius 2) (Math_atan2 (Math_sqrt a) (Math_sqrt (sub 1 a))).

End Haversine.

End Binary64.

(** ** The adjustments as the design document words them

    The speed adjustment: unknown or non-positive speed gives 0; the
    speed is converted to km/h; 80 km/h and more give +180, 60 and more
    +120, 40 and more +60, less than 15 -80, otherwise 0.  The line
    adjustment: unknown or non-positive spacing gives 0; 1800 m and more
    give +120, 1200 and more +60, 450 and less -140, 700 and less -80,
    otherwise 0.  Each is stated as the condition under which a number
    is the adjustment. *)
Definition kilometresPerHour (speedMps : Q) : Q :=
  Binary64.mul speedMps (Binary64.roundToDouble (36 # 10)).

Definition isSpeedAdjustment (speed : option Q) (adjustment : Z) : Prop :=
  match speed with
  | None => adjustment = 0
  | Some v =>
      ((v <= 0)%Q -> adjustment = 0)
      /\ ((0 < v)%Q ->
          let kmh := kilometresPerHour v in
          ((80 <= kmh)%Q -> adjustment = 180)
          /\ ((60 <= kmh)%Q -> (kmh < 80)%Q -> adjustment = 120)
          /\ ((40 <= kmh)%Q -> (kmh < 60)%Q -> adjustment = 60)
          /\ ((15 <= kmh)%Q -> (kmh < 40)%Q -> adjustment = 0)
          /\ ((kmh < 15)%Q -> adjustment = -80))
  end.

Definition isLineAdjustment (spacing : option Q) (adjustment : Z) : Prop :=
  match spacing with
  | None => adjustment = 0
  | Some a =>
      ((a <= 0)%Q -> adjustment = 0)
      /\ ((1800 <= a)%Q -> adjustment = 120)
      /\ ((1200 <= a)%Q -> (a < 1800)%Q -> adjustment = 60)
      /\ ((700 < a)%Q -> (a < 1200)%Q -> adjustment = 0)
      /\ ((450 < a)%Q -> (a <= 700)%Q -> adjustment = -80)
      /\ ((0 < a)%Q -> (a <= 450)%Q -> adjustment = -140)
  end.

(** *** Data for examples

    The values of [Math.sin] and [Math.cos] at the arguments that the
    distance between the points (8, 0) and (-8, 180) needs, as fdlibm
    (the library of V8) and glibc compute them; the square root and the
    arc tangent are not reached there. *)
Definition eightDegrees : Q := 5030569068109113 # 36028797018963968.
Definition sinOfEightDegrees : Q := 5014239404989977 # 36028797018963968.
Definition cosOfEightDegrees : Q := 4459770905381437 # 4503599627370496.

Definition exampleMath : Binary64.MathLibrary :=
  {| Binary64.sin := fun x =>
       if Qeq_bool x eightDegrees then sinOfEightDegrees
       else if Qeq_bool x (- eightDegrees) then (- sinOfEightDegrees)%Q
       else if Qeq_bool x (Binary64.Math_PI / 2) then 1%Q
       else if Qeq_bool x (- (Binary64.Math_PI / 2)) then (- (1))%Q
       else 0%Q;
     Binary64.cos := fun x =>
       if Qeq_bool (Qabs x) eightDegrees then cosOfEightDegrees else 1%Q;
     Binary64.sqrtOfNonNegative := fun x => x;
     Binary64.atan2OfNumbers := fun y x => 0%Q |}.

(** ** The haversine formula, over the real numbers *)

Module Geodesy.
Local Open Scope R_scope.

Definition EARTH_RADIUS : R := 6371000.

(** [Math.atan2 y x] on finite numbers. *)
Definition atan2 (y x : R) : R :=
  if Rlt_dec 0 x then atan (y / x)
  else if Rlt_dec x 0 then
    if Rle_dec 0 y then atan (y / x) + PI else atan (y / x) - PI
  else if Rlt_dec 0 y then PI / 2
  else if Rlt_dec y 0 then - (PI / 2)
  else 0.

Definition getDistanceFromLatLonInMeters (lat1 lon1 lat2 lon2 : R) : R :=
  let radius := EARTH_RADIUS in
  let dLat := (lat2 - lat1) * (PI / 180) in
  let dLon := (lon2 - lon1) * (PI / 180) in
  let a :=
    sin (dLat / 2) * sin (dLat / 2)
    + cos (lat1 * (PI / 180))
      * cos (lat2 * (PI / 180))
      * sin (dLon / 2)
      * sin (dLon / 2) in
  radius * 2 * atan2 (sqrt a) (sqrt (1 - a)).

Record Coordinate : Type := mkCoordinate { latitude : R; longitude : R }.

(** The distance between two coordinates. *)
Definition distance (a b : Coordinate) : R :=
  getDistanceFromLatLonInMeters
    (latitude a) (longitude a) (latitude b) (longitude b).
End Geodesy.

(** * Properties *)

Lemma Qleb_spec (x y : Q) : Qleb x y = true <-> (x <= y)%Q.
Proof. apply Qle_bool_iff. Qed.

Lemma Qgeb_spec (x y : Q) : Qgeb x y = true <-> (y <= x)%Q.
Proof. apply Qle_bool_iff. Qed.

Lemma Qltb_spec (x y : Q) : Qltb x y = true <-> (x < y)%Q.
Proof.
  unfold Qltb. rewrite negb_true_iff.
  split; intro H.
  - apply Qnot_le_lt. intro Hle. apply Qle_bool_iff in Hle. congruence.
  - destruct (Qle_bool y x) eqn:E; [|reflexivity].
    apply Qle_bool_iff in E. exfalso. apply (Qlt_not_le _ _ H E).
Qed.

Lemma Qgtb_spec (x y : Q) : Qgtb x y = true <-> (y < x)%Q.
Proof. apply (Qltb_spec y x). Qed.

Lemma Qleb_false (x y : Q) : Qleb x y = false <-> (y < x)%Q.
Proof.
  rewrite <- Qgtb_spec. unfold Qgtb, Qleb.
  destruct (Qle_bool x y); simpl; split; congruence.
Qed.

Lemma Qgtb_false (x y : Q) : Qgtb x y = false <-> (x <= y)%Q.
Proof.
  rewrite <- Qleb_spec. unfold Qgtb, Qleb.
  destruct (Qle_bool x y); simpl; split; congruence.
Qed.

(** *** The threshold tuner *)

Lemma effective_threshold_bounds (base : Q) (speed spacing : option Q) :
  220 <= computeEffectiveArrivalThreshold base speed spacing <= 1300.
Proof.
  unfold computeEffectiveArrivalThreshold,
    MIN_EFFECTIVE_THRESHOLD, MAX_EFFECTIVE_THRESHOLD.
  lia.
Qed.

(** The second scenario of the design document: a train at 25 m/s on a
    line with 700 m between stations. *)
Example effective_threshold_fast_train :
  computeEffectiveArrivalThreshold 300 (Some 25%Q) (Some 700%Q) = 400.
Proof. reflexivity. Qed.

Example effective_threshold_is_rounded :
  computeEffectiveArrivalThreshold (6005 # 10) None None = 601
  /\ computeEffectiveArrivalThreshold (6004 # 10) None None = 600.
Proof. split; reflexivity. Qed.

Example effective_threshold_is_clamped :
  computeEffectiveArrivalThreshold 100 (Some 1%Q) (Some 300%Q) = 220
  /\ computeEffectiveArrivalThreshold 1200 (Some 30%Q) (Some 2000%Q) = 1300.
Proof. split; reflexivity. Qed.


(** ** Geodesy *)






(** ** The station scan *)

Section EngineProperties.

Variable getDistance : Q -> Q -> Q -> Q -> Q.

Lemma at_index_in_range {A : Type} (arr : list A) (i : Z) :
  0 <= i < length_of arr -> exists x, at_index arr i = Some x.
Proof.
  unfold at_index, length_of. intros [H0 H1].
  destruct (Z.ltb_spec i 0); [lia|].
  destruct (nth_error arr (Z.to_nat i)) eqn:E; [eauto|].
  apply nth_error_None in E. lia.
Qed.

Lemma scanStations_completes sample stations count :
  forall index nearestIdx minDistance,
    0 <= index ->
    (count <> O -> index + Z.of_nat count <= length_of stations) ->
    exists nearestIdx' minDistance',
      scanStations getDistance sample stations count index
        nearestIdx minDistance
      = Completed (nearestIdx', minDistance').
Proof.
  induction count as [|count IH]; intros index nearestIdx minDistance H0 H1.
  - simpl. eauto.
  - cbn [scanStations].
    assert (index + Z.of_nat (S count) <= length_of stations)
      by (apply H1; discriminate).
    destruct (at_index_in_range stations index) as [station ->]; [lia|].
    cbv zeta.
    destruct (xnum_gtb minDistance _); apply IH; lia.
Qed.

Lemma searchWindow_in_range stations currentStationIndex :
  0 <= fst (searchWindow stations currentStationIndex)
  /\ snd (searchWindow stations currentStationIndex) <= length_of stations.
Proof.
  unfold searchWindow.
  destruct ((currentStationIndex >=? 0) && (length_of stations >? 30));
    simpl; lia.
Qed.

(** The scan never reads outside the station list: it always completes. *)
Lemma locateNearest_completes sample stations currentStationIndex :
  exists nearestIdx minDistance,
    locateNearest getDistance sample stations currentStationIndex
    = Completed (nearestIdx, minDistance).
Proof.
  unfold locateNearest.
  pose proof (searchWindow_in_range stations currentStationIndex) as [H0 H1].
  destruct (searchWindow stations currentStationIndex) as [start end_].
  simpl in H0, H1.
  apply scanStations_completes; lia.
Qed.

(** ** One call of [updateLocation] *)

Section Arrival.

Context {W : Type}.
Variable onArrive : string -> W -> W.

Lemma updateLocation_steps p sample h w target line :
  selectedStation p = Some target ->
  selectedLine p = Some line ->
  let dist := distanceToTarget getDistance target sample in
  let eff :=
    computeEffectiveArrivalThreshold (baseThresholdOf p)
      (LocationSample.speedMps sample) (lineAverageSpacing h) in
  let arrival :=
    arrivalTransition onArrive target dist eff (afterTierStep dist h) w in
  exists nearestIdx minDistance,
    locateNearest getDistance sample (TrainLine.stations line)
      (currentStationIndex h) = Completed (nearestIdx, minDistance)
    /\ updateLocation getDistance onArrive p sample h w
       = Completed
           (stationIndexUpdate (currentStationIndex h) nearestIdx minDistance
              (setNearestStationDistance (Some (xnum_floor minDistance))
                 (fst arrival)),
            snd arrival).
Proof.
  intros Ht Hl dist eff arrival.
  destruct (locateNearest_completes sample (TrainLine.stations line)
              (currentStationIndex h)) as (nearestIdx & minDistance & E).
  exists nearestIdx, minDistance. split; [exact E|].
  unfold updateLocation. rewrite Ht, Hl. cbv zeta.
  fold (distanceToTarget getDistance target sample). fold dist.
  fold (baseThresholdOf p).
  change (if negb (DynamicMode_eqb (resolveModeByDistance dist)
                     (trackingMode (setDistance (Some (Math_floor dist)) h)))
             && isTracking (setDistance (Some (Math_floor dist)) h)
          then subscribeWithMode (resolveModeByDistance dist)
                 (setDistance (Some (Math_floor dist)) h)
          else setDistance (Some (Math_floor dist)) h)
    with (afterTierStep dist h).
  assert (Hsp : lineAverageSpacing (afterTierStep dist h)
                = lineAverageSpacing h).
  { unfold afterTierStep. cbv zeta.
    destruct (negb _ && _); [|reflexivity].
    unfold subscribeWithMode. cbv zeta.
    destruct (hasStartedLocationUpdatesAsync _); reflexivity. }
  rewrite Hsp. fold eff. fold arrival.
  destruct arrival as [h1 w1]. rewrite E. reflexivity.
Qed.

Ltac branches :=
  repeat match goal with
         | |- context [if ?b then _ else _] => destruct b
         end.

Lemma afterTierStep_frame dist h :
  hasTriggeredArrivalNotification (afterTierStep dist h)
  = hasTriggeredArrivalNotification h
  /\ isArrived (afterTierStep dist h) = isArrived h
  /\ currentStationIndex (afterTierStep dist h) = currentStationIndex h
  /\ stationSwitchCandidate (afterTierStep dist h)
     = stationSwitchCandidate h
  /\ hasDepartedFromCurrentStation (afterTierStep dist h)
     = hasDepartedFromCurrentStation h.
Proof.
  unfold afterTierStep, subscribeWithMode. cbv zeta.
  branches; repeat split; reflexivity.
Qed.

Lemma stationIndexUpdate_frame cur nearestIdx minDistance h :
  let h' := stationIndexUpdate cur nearestIdx minDistance h in
  hasTriggeredArrivalNotification h' = hasTriggeredArrivalNotification h
  /\ isArrived h' = isArrived h
  /\ trackingMode h' = trackingMode h
  /\ location h' = location h.
Proof.
  unfold stationIndexUpdate. cbv zeta.
  branches; repeat split; reflexivity.
Qed.

(** What the arrival branch does to the latch, to the arrived flag and
    to the caller's world depends on the distance, on the two
    thresholds and on the latch only. *)
Lemma arrivalTransition_frame target dist eff h1 h2 w :
  hasTriggeredArrivalNotification h1 = hasTriggeredArrivalNotification h2 ->
  isArrived h1 = isArrived h2 ->
  let a1 := arrivalTransition onArrive target dist eff h1 w in
  let a2 := arrivalTransition onArrive target dist eff h2 w in
  snd a1 = snd a2
  /\ hasTriggeredArrivalNotification (fst a1)
     = hasTriggeredArrivalNotification (fst a2)
  /\ isArrived (fst a1) = isArrived (fst a2).
Proof.
  intros Hl Ha. unfold arrivalTransition. cbv zeta.
  destruct (Qleb dist _).
  - simpl. rewrite Hl.
    destruct (hasTriggeredArrivalNotification h2) eqn:E2;
      simpl; repeat split; congruence.
  - destruct (Qleb dist _); [simpl; auto|].
    destruct (Qgtb dist _); simpl; auto.
Qed.

(** A call with a target and a line completes; its effect on the
    latch, the arrived flag and the world is that of the arrival
    branch. *)
Lemma updateLocation_arrival p sample h w target line :
  selectedStation p = Some target ->
  selectedLine p = Some line ->
  let arrival :=
    arrivalTransition onArrive target
      (distanceToTarget getDistance target sample)
      (computeEffectiveArrivalThreshold (baseThresholdOf p)
         (LocationSample.speedMps sample) (lineAverageSpacing h))
      h w in
  exists h',
    updateLocation getDistance onArrive p sample h w
    = Completed (h', snd arrival)
    /\ hasTriggeredArrivalNotification h'
       = hasTriggeredArrivalNotification (fst arrival)
    /\ isArrived h' = isArrived (fst arrival).
Proof.
  intros Ht Hl arrival.
  destruct (updateLocation_steps p sample h w target line Ht Hl)
    as (nearestIdx & minDistance & _ & E).
  cbv zeta in E.
  destruct (afterTierStep_frame
              (distanceToTarget getDistance target sample) h)
    as (Fl & Fa & _).
  destruct (arrivalTransition_frame target
              (distanceToTarget getDistance target sample)
              (computeEffectiveArrivalThreshold (baseThresholdOf p)
                 (LocationSample.speedMps sample) (lineAverageSpacing h))
              _ _ w Fl Fa) as (Gw & Gl & Ga).
  eexists. split; [rewrite E, Gw; reflexivity|].
  destruct (stationIndexUpdate_frame (currentStationIndex h)
                nearestIdx minDistance
                (setNearestStationDistance (Some (xnum_floor minDistance))
                   (fst (arrivalTransition onArrive target
                      (distanceToTarget getDistance target sample)
                      (computeEffectiveArrivalThreshold (baseThresholdOf p)
                         (LocationSample.speedMps sample)
                         (lineAverageSpacing h))
                      (afterTierStep
                         (distanceToTarget getDistance target sample) h)
                      w)))) as (Sl & Sa & _).
  rewrite Sl, Sa. simpl. split; assumption.
Qed.

Lemma updateLocation_spacing p sample h w h' w' :
  updateLocation getDistance onArrive p sample h w = Completed (h', w') ->
  lineAverageSpacing h' = lineAverageSpacing h.
Proof.
  unfold updateLocation.
  destruct (selectedStation p) as [target|];
    [|intros E; inversion E; reflexivity].
  destruct (selectedLine p) as [line|];
    [|intros E; inversion E; reflexivity].
  cbv zeta.
  destruct (locateNearest getDistance sample (TrainLine.stations line)
              (currentStationIndex h)) as [[nearestIdx minDistance]|e];
    [|destruct (arrivalTransition _ _ _ _ _ _); discriminate].
  unfold arrivalTransition, stationIndexUpdate, subscribeWithMode.
  cbv zeta. simpl.
  branches; simpl; intros E; inversion E; reflexivity.
Qed.

(** *** The one-shot latch *)

Lemma step_fires p sample h w target line :
  selectedStation p = Some target ->
  selectedLine p = Some line ->
  (distanceToTarget getDistance target sample <= 150)%Q ->
  hasTriggeredArrivalNotification h = false ->
  exists h',
    updateLocation getDistance onArrive p sample h w
    = Completed (h', onArrive (Station.name target) w)
    /\ hasTriggeredArrivalNotification h' = true.
Proof.
  intros Ht Hl Hd Hlatch.
  destruct (updateLocation_arrival p sample h w target line Ht Hl)
    as (h' & E & L & _).
  exists h'. revert E L. unfold arrivalTransition. cbv zeta.
  apply Qleb_spec in Hd.
  change (inject_Z TRACKING_CONFIG.CURRENT_STATION_THRESHOLD) with 150%Q.
  rewrite Hd. simpl. rewrite Hlatch. simpl. auto.
Qed.

Lemma step_latched p sample h w target line :
  selectedStation p = Some target ->
  selectedLine p = Some line ->
  (distanceToTarget getDistance target sample
   <= inject_Z (departThresholdOf p sample h))%Q ->
  hasTriggeredArrivalNotification h = true ->
  exists h',
    updateLocation getDistance onArrive p sample h w = Completed (h', w)
    /\ hasTriggeredArrivalNotification h' = true.
Proof.
  intros Ht Hl Hd Hlatch.
  destruct (updateLocation_arrival p sample h w target line Ht Hl)
    as (h' & E & L & _).
  exists h'. revert E L. unfold arrivalTransition. cbv zeta.
  apply Qgtb_false in Hd. unfold departThresholdOf in Hd.
  destruct (Qleb _ (inject_Z TRACKING_CONFIG.CURRENT_STATION_THRESHOLD)).
  - simpl. rewrite Hlatch. simpl.
    intros E L; split; [exact E | congruence].
  - destruct (Qleb _ _);
      [simpl; intros E L; split; [exact E | congruence]|].
    rewrite Hd. simpl. intros E L; split; [exact E | congruence].
Qed.

Lemma step_unlatched p sample h w target line :
  selectedStation p = Some target ->
  selectedLine p = Some line ->
  (150 < distanceToTarget getDistance target sample)%Q ->
  hasTriggeredArrivalNotification h = false
  \/ (1450 < distanceToTarget getDistance target sample)%Q ->
  exists h',
    updateLocation getDistance onArrive p sample h w = Completed (h', w)
    /\ hasTriggeredArrivalNotification h' = false.
Proof.
  intros Ht Hl Hd Hlatch.
  destruct (updateLocation_arrival p sample h w target line Ht Hl)
    as (h' & E & L & _).
  exists h'. revert E L. unfold arrivalTransition. cbv zeta.
  apply Qleb_false in Hd.
  change (inject_Z TRACKING_CONFIG.CURRENT_STATION_THRESHOLD) with 150%Q.
  rewrite Hd.
  set (eff := computeEffectiveArrivalThreshold _ _ _).
  pose proof (effective_threshold_bounds (baseThresholdOf p)
                (LocationSample.speedMps sample) (lineAverageSpacing h))
    as Hb.
  fold eff in Hb.
  destruct (Qleb _ (inject_Z eff)) eqn:Ee.
  - simpl. intros E L. split; [exact E|].
    destruct Hlatch as [Hlatch|Hfar]; [congruence|].
    exfalso. apply Qleb_spec in Ee.
    assert (inject_Z eff <= 1300)%Q
      by (change 1300%Q with (inject_Z 1300); rewrite <- Zle_Qle; lia).
    lra.
  - destruct (Qgtb _ _) eqn:Eg; simpl; intros E L; split; auto.
    destruct Hlatch as [Hlatch|Hfar]; [congruence|].
    exfalso. apply Qgtb_false in Eg.
    assert (inject_Z (Z.max (eff + 150)
                        TRACKING_CONFIG.DEPARTURE_THRESHOLD) <= 1450)%Q.
    { change 1450%Q with (inject_Z 1450). rewrite <- Zle_Qle.
      unfold TRACKING_CONFIG.DEPARTURE_THRESHOLD. lia. }
    lra.
Qed.

Lemma nonincreasing_tail a ds : nonincreasing (a :: ds) -> nonincreasing ds.
Proof. destruct ds as [|b ds]; simpl; tauto. Qed.

Lemma nonincreasing_below a ds bound :
  nonincreasing (a :: ds) -> (a <= bound)%Q ->
  Forall (fun d => (d <= bound)%Q) ds.
Proof.
  revert a. induction ds as [|b ds IH]; intros a Hn Ha; constructor.
  - simpl in Hn. lra.
  - apply (IH b); [exact (nonincreasing_tail _ _ Hn)|].
    simpl in Hn. lra.
Qed.

(** Once the latch is set, samples that stay within the departure
    threshold leave the caller's world alone. *)
Lemma feed_latched p target line samples :
  selectedStation p = Some target ->
  selectedLine p = Some line ->
  forall h w,
    Forall (fun sample =>
              (distanceToTarget getDistance target sample
               <= inject_Z (departThresholdOf p sample h))%Q) samples ->
    hasTriggeredArrivalNotification h = true ->
    exists h',
      feed getDistance onArrive p samples h w = Completed (h', w)
      /\ hasTriggeredArrivalNotification h' = true.
Proof.
  intros Ht Hl. induction samples as [|sample rest IH]; intros h w Hall Hlatch.
  - simpl. eauto.
  - inversion Hall as [|? ? Hd Hrest]; subst.
    destruct (step_latched p sample h w target line Ht Hl Hd Hlatch)
      as (h1 & E1 & L1).
    cbn [feed]. rewrite E1. cbn [bind fst snd].
    apply IH; [|exact L1].
    pose proof (updateLocation_spacing _ _ _ _ _ _ E1) as Hsp.
    unfold departThresholdOf in *. rewrite Hsp. exact Hrest.
Qed.

Lemma departThreshold_above_150 p sample h :
  (150 <= inject_Z (departThresholdOf p sample h))%Q.
Proof.
  change 150%Q with (inject_Z 150). rewrite <- Zle_Qle.
  unfold departThresholdOf, TRACKING_CONFIG.DEPARTURE_THRESHOLD. lia.
Qed.

(** An approach: with the latch unset, nonincreasing distances that
    reach the just-arrived threshold call [onArrive] once. *)
Lemma feed_approach p target line samples :
  selectedStation p = Some target ->
  selectedLine p = Some line ->
  forall h w,
    nonincreasing (map (distanceToTarget getDistance target) samples) ->
    Exists (fun sample =>
              (distanceToTarget getDistance target sample <= 150)%Q)
      samples ->
    hasTriggeredArrivalNotification h = false ->
    exists h',
      feed getDistance onArrive p samples h w
      = Completed (h', onArrive (Station.name target) w)
      /\ hasTriggeredArrivalNotification h' = true.
Proof.
  intros Ht Hl. induction samples as [|sample rest IH];
    intros h w Hmono Hex Hlatch.
  - inversion Hex.
  - cbn [feed].
    destruct (Qlt_le_dec 150 (distanceToTarget getDistance target sample))
      as [Hfar|Hnear].
    + destruct (step_unlatched p sample h w target line Ht Hl Hfar
                  (or_introl Hlatch)) as (h1 & E1 & L1).
      rewrite E1. cbn [bind fst snd].
      apply IH; [exact (nonincreasing_tail _ _ Hmono)| |exact L1].
      inversion Hex as [? ? Hhere|? ? Hlater]; subst; [lra|exact Hlater].
    + destruct (step_fires p sample h w target line Ht Hl Hnear Hlatch)
        as (h1 & E1 & L1).
      rewrite E1. cbn [bind fst snd].
      apply (feed_latched p target line rest Ht Hl); [|exact L1].
      pose proof (nonincreasing_below
                    (distanceToTarget getDistance target sample)
                    (map (distanceToTarget getDistance target) rest)
                    150 Hmono Hnear) as Hall.
      rewrite Forall_map in Hall.
      eapply Forall_impl; [|exact Hall].
      intros s Hs. cbv beta in Hs.
      pose proof (departThreshold_above_150 p s h1). lra.
Qed.

End Arrival.

(** C1: for a session with a target station on a line, samples whose
    distances to the target start at 5000 m, never grow, and reach the
    just-arrived threshold of 150 m make [updateLocation] call
    [onArrive] exactly once, with the name of the target, however many
    samples follow at or below that threshold. *)
Theorem one_shot_arrival :
  forall (p : Props) (target : Station.t) (line : TrainLine.t) (h : Hook)
         (first : LocationSample.t) (rest : list LocationSample.t),
    selectedStation p = Some target ->
    selectedLine p = Some line ->
    TrainLine.stations line <> [] ->
    (distanceToTarget getDistance target first == 5000)%Q ->
    nonincreasing
      (map (distanceToTarget getDistance target) (first :: rest)) ->
    Exists (fun sample =>
              (distanceToTarget getDistance target sample <= 150)%Q) rest ->
    exists h',
      feed getDistance recordArrival p (first :: rest) h []
      = Completed (h', [Station.name target]).
Proof.
  intros p target line h first rest Ht Hl _ Hfirst Hmono Hex.
  assert (Hfar : (150 < distanceToTarget getDistance target first)%Q) by lra.
  assert (Hvery : (1450 < distanceToTarget getDistance target first)%Q) by lra.
  destruct (step_unlatched recordArrival p first h [] target line Ht Hl Hfar
              (or_intror Hvery)) as (h1 & E1 & L1).
  cbn [feed]. rewrite E1. cbn [bind fst snd].
  destruct (feed_approach recordArrival p target line rest Ht Hl h1 []
              (nonincreasing_tail _ _ Hmono) Hex L1) as (h2 & E2 & _).
  exists h2. exact E2.
Qed.

Section Tiers.
Context {W : Type}.
Variable onArrive : string -> W -> W.

(** ** The hysteresis band *)

(** C6: with base threshold 300 m, speed 0 m/s and average spacing
    700 m the adjustments are 0 and -80 and the effective arrival
    threshold is 220 m, and a sample 250 m
    from the target, which lies between that threshold and the
    departure threshold, leaves the arrived flag and the one-shot
    latch as they were (in particular not arrived stays not arrived)
    and does not call [onArrive]. *)
Theorem hysteresis_band_scenario :
  getSpeedAdjustment (Some 0%Q) = 0
  /\ getLineAdjustment (Some 700%Q) = -80
  /\ computeEffectiveArrivalThreshold 300 (Some 0%Q) (Some 700%Q) = 220
  /\ forall (p : Props) (target : Station.t) (line : TrainLine.t)
            (sample : LocationSample.t) (h : Hook) (w : W),
      selectedStation p = Some target ->
      selectedLine p = Some line ->
      arrivalThreshold (settings p) = Some 300%Q ->
      LocationSample.speedMps sample = Some 0%Q ->
      lineAverageSpacing h = Some 700%Q ->
      (distanceToTarget getDistance target sample == 250)%Q ->
      exists h',
        updateLocation getDistance onArrive p sample h w
        = Completed (h', w)
        /\ isArrived h' = isArrived h
        /\ hasTriggeredArrivalNotification h'
           = hasTriggeredArrivalNotification h.
Proof.
  do 3 (split; [reflexivity|]).
  intros p target line sample h w Ht Hl Hbase Hspeed Hspacing Hd.
  destruct (updateLocation_arrival onArrive p sample h w target line Ht Hl)
    as (h' & E & L & A).
  exists h'. revert E L A.
  unfold baseThresholdOf. rewrite Hbase, Hspeed, Hspacing.
  change (computeEffectiveArrivalThreshold 300 (Some 0%Q) (Some 700%Q))
    with 220.
  unfold arrivalTransition. cbv zeta.
  change (inject_Z TRACKING_CONFIG.CURRENT_STATION_THRESHOLD) with 150%Q.
  change (inject_Z 220) with 220%Q.
  change (inject_Z (Z.max (220 + 150) TRACKING_CONFIG.DEPARTURE_THRESHOLD))
    with 600%Q.
  assert (H1 : Qleb (distanceToTarget getDistance target sample) 150 = false)
    by (apply Qleb_false; lra).
  assert (H2 : Qleb (distanceToTarget getDistance target sample) 220 = false)
    by (apply Qleb_false; lra).
  assert (H3 : Qgtb (distanceToTarget getDistance target sample) 600 = false)
    by (apply Qgtb_false; lra).
  rewrite H1, H2, H3. simpl. auto.
Qed.

(** ** The sampling tiers *)




Lemma DynamicMode_eqb_eq a b : DynamicMode_eqb a b = true <-> a = b.
Proof. destruct a, b; simpl; split; congruence. Qed.

Lemma arrivalTransition_source target dist eff h w :
  let h' := fst (arrivalTransition onArrive target dist eff h w) in
  trackingMode h' = trackingMode h /\ location h' = location h.
Proof.
  unfold arrivalTransition. cbv zeta.
  repeat match goal with
         | |- context [if ?b then _ else _] => destruct b
         end; split; reflexivity.
Qed.

(** The position source after a call is the one the sampling-tier
    step leaves. *)
Lemma updateLocation_source p sample h w target line :
  selectedStation p = Some target ->
  selectedLine p = Some line ->
  exists h' w',
    updateLocation getDistance onArrive p sample h w = Completed (h', w')
    /\ trackingMode h'
       = trackingMode
           (afterTierStep (distanceToTarget getDistance target sample) h)
    /\ location h'
       = location
           (afterTierStep (distanceToTarget getDistance target sample) h).
Proof.
  intros Ht Hl.
  destruct (updateLocation_steps onArrive p sample h w target line Ht Hl)
    as (nearestIdx & minDistance & _ & E).
  cbv zeta in E. rewrite E. do 2 eexists. split; [reflexivity|].
  match goal with
  | |- context [stationIndexUpdate ?c ?n ?m ?x] =>
      destruct (stationIndexUpdate_frame c n m x) as (_ & _ & Fm & Fl)
  end.
  rewrite Fm, Fl. simpl.
  match goal with
  | |- context [arrivalTransition onArrive ?t ?d ?e ?x ?y] =>
      destruct (arrivalTransition_source t d e x y) as (Gm & Gl)
  end.
  rewrite Gm, Gl. split; reflexivity.
Qed.


End Tiers.

(** ** The latch and the dispatcher *)

Lemma sendNotification_undelivered settings os channel now name phones n :
  hasNotified n = true
  \/ now - lastNotificationTime n < NOTIFICATION_COOLDOWN_MS
  \/ cancelAllScheduledNotificationsAsync_rejects channel = true
  \/ dismissAllNotificationsAsync_rejects channel = true
  \/ scheduleNotificationAsync_rejects channel = true ->
  presented (sendNotification settings os channel now name phones n)
  = presented n.
Proof.
  intros H. unfold sendNotification.
  destruct (hasNotified n) eqn:En; [reflexivity|].
  destruct (Z.ltb_spec (now - lastNotificationTime n)
              NOTIFICATION_COOLDOWN_MS) as [Hc|Hc]; [reflexivity|].
  destruct H as [H|[H|H]]; [discriminate|lia|].
  unfold dispatch, channelCall.
  destruct (cancelAllScheduledNotificationsAsync_rejects channel);
    [reflexivity|].
  destruct (dismissAllNotificationsAsync_rejects channel); [reflexivity|].
  destruct (scheduleNotificationAsync_rejects channel); [reflexivity|].
  destruct H as [H|[H|H]]; discriminate.
Qed.

(** C10: the first sample at or below the just-arrived threshold calls
    [onArrive] once and sets the latch of the engine, whatever the
    dispatcher does with the call (it may deliver, be refused by its own
    latch or cooldown, or meet a channel that rejects); the samples that
    follow within the departure threshold do not call [onArrive] again
    and leave the latch set, also when nothing has been delivered. *)
Theorem latch_ignores_dispatch_result :
  forall (os : OS) (p : Props) (target : Station.t) (line : TrainLine.t)
         (h : Hook) (first : LocationSample.t)
         (later : list LocationSample.t) (app : App),
    selectedStation p = Some target ->
    selectedLine p = Some line ->
    hasTriggeredArrivalNotification h = false ->
    (distanceToTarget getDistance target first <= 150)%Q ->
    Forall (fun sample =>
              (distanceToTarget getDistance target sample
               <= inject_Z (departThresholdOf p sample h))%Q) later ->
    let app' := onArrive (settings p) os (Station.name target) app in
    exists h1 h2,
      updateLocation getDistance (countingOnArrive (settings p) os)
        p first h (app, O)
      = Completed (h1, (app', 1%nat))
      /\ hasTriggeredArrivalNotification h1 = true
      /\ feed getDistance (countingOnArrive (settings p) os)
           p later h1 (app', 1%nat)
         = Completed (h2, (app', 1%nat))
      /\ hasTriggeredArrivalNotification h2 = true
      /\ (hasNotificationPermission app = false
          \/ hasNotified (notifier app) = true
          \/ clock app - lastNotificationTime (notifier app)
             < NOTIFICATION_COOLDOWN_MS
          \/ cancelAllScheduledNotificationsAsync_rejects (channel app) = true
          \/ dismissAllNotificationsAsync_rejects (channel app) = true
          \/ scheduleNotificationAsync_rejects (channel app) = true ->
          presented (notifier app') = presented (notifier app)).
Proof.
  intros os p target line h first later app Ht Hl Hlatch Hd Hlater app'.
  destruct (step_fires (countingOnArrive (settings p) os) p first h (app, O)
              target line Ht Hl Hd Hlatch) as (h1 & E1 & L1).
  assert (Hsp : lineAverageSpacing h1 = lineAverageSpacing h)
    by exact (updateLocation_spacing _ _ _ _ _ _ _ E1).
  destruct (feed_latched (countingOnArrive (settings p) os) p target line
              later Ht Hl h1 (app', 1%nat)) as (h2 & E2 & L2).
  { unfold departThresholdOf in *. rewrite Hsp. exact Hlater. }
  { exact L1. }
  exists h1, h2. repeat split; try assumption.
  intros H. subst app'. unfold onArrive.
  destruct (hasNotificationPermission app); [|reflexivity].
  simpl. apply sendNotification_undelivered.
  destruct H as [H|H]; [discriminate|exact H].
Qed.

Section StationIndex.
Context {W : Type}.
Variable onArrive : string -> W -> W.

(** ** The current station index *)

Lemma arrivalTransition_index target dist eff h w :
  let h' := fst (arrivalTransition onArrive target dist eff h w) in
  currentStationIndex h' = currentStationIndex h
  /\ stationSwitchCandidate h' = stationSwitchCandidate h
  /\ hasDepartedFromCurrentStation h' = hasDepartedFromCurrentStation h.
Proof.
  unfold arrivalTransition. cbv zeta.
  repeat match goal with
         | |- context [if ?b then _ else _] => destruct b
         end; repeat split; reflexivity.
Qed.

(** The index, the candidate and the departed flag that
    [stationIndexUpdate] produces depend on the candidate and the
    departed flag of the hook only. *)
Lemma stationIndexUpdate_index cur nearestIdx minDistance h1 h2 :
  currentStationIndex h1 = currentStationIndex h2 ->
  stationSwitchCandidate h1 = stationSwitchCandidate h2 ->
  hasDepartedFromCurrentStation h1 = hasDepartedFromCurrentStation h2 ->
  let r1 := stationIndexUpdate cur nearestIdx minDistance h1 in
  let r2 := stationIndexUpdate cur nearestIdx minDistance h2 in
  currentStationIndex r1 = currentStationIndex r2
  /\ stationSwitchCandidate r1 = stationSwitchCandidate r2
  /\ hasDepartedFromCurrentStation r1 = hasDepartedFromCurrentStation r2.
Proof.
  intros Hc Hs Hd. unfold stationIndexUpdate. cbv zeta.
  destruct ((cur <? 0) && negb (nearestIdx =? cur)); [simpl; auto|].
  destruct (xnum_leb minDistance _); [|simpl; auto].
  destruct (nearestIdx =? cur); simpl; rewrite Hs;
    destruct (idx (stationSwitchCandidate h2) =? nearestIdx); simpl;
    rewrite ?Hd;
    repeat match goal with
           | |- context [if ?b then _ else _] => destruct b
           end; simpl; auto.
Qed.

(** A call with a target and a line runs the scan around the current
    index and then updates the index, the candidate and the departed
    flag as [stationIndexUpdate] does. *)
Lemma updateLocation_index p sample h w target line :
  selectedStation p = Some target ->
  selectedLine p = Some line ->
  exists nearestIdx minDistance h' w',
    locateNearest getDistance sample (TrainLine.stations line)
      (currentStationIndex h) = Completed (nearestIdx, minDistance)
    /\ updateLocation getDistance onArrive p sample h w
       = Completed (h', w')
    /\ let r :=
         stationIndexUpdate (currentStationIndex h) nearestIdx
           minDistance h in
       currentStationIndex h' = currentStationIndex r
       /\ stationSwitchCandidate h' = stationSwitchCandidate r
       /\ hasDepartedFromCurrentStation h'
          = hasDepartedFromCurrentStation r.
Proof.
  intros Ht Hl.
  destruct (updateLocation_steps onArrive p sample h w target line Ht Hl)
    as (nearestIdx & minDistance & Escan & E).
  cbv zeta in E.
  exists nearestIdx, minDistance. do 2 eexists.
  split; [exact Escan|]. split; [exact E|].
  apply stationIndexUpdate_index; simpl;
    match goal with
    | |- context [arrivalTransition onArrive ?t ?d ?e ?x ?y] =>
        destruct (arrivalTransition_index t d e x y) as (Gc & Gs & Gd);
        destruct (afterTierStep_frame
                    (distanceToTarget getDistance target sample) h)
          as (_ & _ & Fc & Fs & Fd)
    end; congruence.
Qed.



(** The three fields [stationIndexUpdate] writes, at a known index. *)
Lemma stationIndexUpdate_known cur nearestIdx minDistance h :
  0 <= cur ->
  let r := stationIndexUpdate cur nearestIdx minDistance h in
  let departed :=
    if nearestIdx =? cur then false
    else hasDepartedFromCurrentStation h in
  let hits' :=
    if idx (stationSwitchCandidate h) =? nearestIdx
    then hits (stationSwitchCandidate h) + 1 else 1 in
  if xnum_leb minDistance
       (inject_Z TRACKING_CONFIG.STOPPED_STATION_THRESHOLD)
  then
    if (2 <=? hits') && negb (nearestIdx =? cur) && departed
       && (Z.abs (nearestIdx - cur) <=? 1)
    then currentStationIndex r = nearestIdx
         /\ stationSwitchCandidate r = {| idx := -1; hits := 0 |}
         /\ hasDepartedFromCurrentStation r = false
    else currentStationIndex r = currentStationIndex h
         /\ stationSwitchCandidate r
            = {| idx := nearestIdx; hits := hits' |}
         /\ hasDepartedFromCurrentStation r = departed
  else currentStationIndex r = currentStationIndex h
       /\ stationSwitchCandidate r = {| idx := -1; hits := 0 |}
       /\ hasDepartedFromCurrentStation r = true.
Proof.
  intros Hc. cbv zeta. unfold stationIndexUpdate. cbv zeta.
  destruct (Z.ltb_spec cur 0) as [Hneg|_]; [lia|].
  cbn [andb orb].
  destruct (xnum_leb minDistance _); [|simpl; auto].
  destruct h as [tr di ar cu ne mo [ci ch] de la sp lo].
  destruct (nearestIdx =? cur); cbn -[Z.abs Z.leb Z.geb Z.add];
    destruct (Z.eqb_spec ci nearestIdx); subst;
    cbn -[Z.abs Z.leb Z.geb Z.add];
    rewrite ?Z.geb_leb, ?andb_false_r; cbn -[Z.abs Z.leb Z.geb Z.add];
    auto;
    repeat match goal with
           | |- context [if ?b then _ else _] => destruct b
           end; cbn; auto.
Qed.


(** The number of hits of the candidate is never negative: it starts
    at zero and a call resets it or adds one to it. *)
Lemma hits_nonnegative cur nearestIdx minDistance h :
  0 <= hits (stationSwitchCandidate h) ->
  0 <= hits (stationSwitchCandidate
               (stationIndexUpdate cur nearestIdx minDistance h)).
Proof.
  intros H. unfold stationIndexUpdate. cbv zeta.
  repeat match goal with
         | |- context [if ?b then _ else _] => destruct b
         end; cbn; lia.
Qed.

Lemma updateLocation_hits_nonnegative p sample h w h' w' :
  0 <= hits (stationSwitchCandidate h) ->
  updateLocation getDistance onArrive p sample h w = Completed (h', w') ->
  0 <= hits (stationSwitchCandidate h').
Proof.
  intros Hh E.
  destruct (selectedStation p) as [target|] eqn:Ht;
    [|unfold updateLocation in E; rewrite Ht in E; inversion E; subst;
      exact Hh].
  destruct (selectedLine p) as [line|] eqn:Hl;
    [|unfold updateLocation in E; rewrite Ht, Hl in E; inversion E; subst;
      exact Hh].
  destruct (updateLocation_index p sample h w target line Ht Hl)
    as (n & d & h'' & w'' & _ & E' & _ & S & _).
  rewrite E in E'. inversion E'; subst h'' w''.
  rewrite S. apply hits_nonnegative. exact Hh.
Qed.


(** ** A line without stations *)

Lemma locateNearest_no_stations sample cur :
  locateNearest getDistance sample [] cur
  = Completed (if cur >=? 0 then cur else 0, POSITIVE_INFINITY).
Proof.
  unfold locateNearest, searchWindow. cbn [length_of List.length].
  change (length_of (@nil Station.t)) with 0.
  rewrite andb_false_r. reflexivity.
Qed.

(** C5, as the code has it: on a line without stations the scan raises
    no error.  Its loop body never runs, so it completes with the
    distance [POSITIVE_INFINITY] and with the current index, or 0 when
    the index is unknown, as nearest index; [updateLocation] completes
    too, stores that distance, and adopts index 0 when the index was
    unknown. *)
Theorem zero_station_line_scan_completes :
  forall (p : Props) (target : Station.t) (line : TrainLine.t)
         (sample : LocationSample.t) (h : Hook) (w : W),
    selectedStation p = Some target ->
    selectedLine p = Some line ->
    TrainLine.stations line = [] ->
    locateNearest getDistance sample (TrainLine.stations line)
      (currentStationIndex h)
    = Completed
        (if currentStationIndex h >=? 0 then currentStationIndex h else 0,
         POSITIVE_INFINITY)
    /\ exists h' w',
        updateLocation getDistance onArrive p sample h w
        = Completed (h', w')
        /\ nearestStationDistance h' = Some POSITIVE_INFINITY
        /\ currentStationIndex h'
           = (if currentStationIndex h <? 0 then 0
              else currentStationIndex h).
Proof.
  intros p target line sample h w Ht Hl Hempty.
  rewrite Hempty. split; [apply locateNearest_no_stations|].
  destruct (updateLocation_steps onArrive p sample h w target line Ht Hl)
    as (n & d & Escan & E).
  rewrite Hempty, locateNearest_no_stations in Escan.
  inversion Escan; subst n d. cbv zeta in E.
  do 2 eexists. split; [exact E|].
  unfold stationIndexUpdate. cbv zeta.
  rewrite Z.geb_leb.
  destruct (Z.ltb_spec (currentStationIndex h) 0) as [Hneg|Hpos].
  - destruct (Z.leb_spec 0 (currentStationIndex h)); [lia|].
    destruct (Z.eqb_spec 0 (currentStationIndex h)); [lia|].
    cbn. auto.
  - destruct (Z.leb_spec 0 (currentStationIndex h)); [|lia].
    cbn [andb xnum_leb].
    match goal with
    | |- context [arrivalTransition onArrive ?t ?d ?e ?x ?y] =>
        destruct (arrivalTransition_index t d e x y) as (Gc & _);
        destruct (afterTierStep_frame
                    (distanceToTarget getDistance target sample) h)
          as (_ & _ & Fc & _)
    end.
    cbn. split; [reflexivity|]. congruence.
Qed.

End StationIndex.

(** ** The window of the scan *)

Lemma scanStations_scanned sample stations start initialIdx count :
  forall index nearestIdx minDistance nearestIdx' minDistance',
    start <= index ->
    scanned getDistance sample stations start index initialIdx
      nearestIdx minDistance ->
    scanStations getDistance sample stations count index nearestIdx minDistance
    = Completed (nearestIdx', minDistance') ->
    scanned getDistance sample stations start (index + Z.of_nat count)
      initialIdx nearestIdx' minDistance'.
Proof.
  induction count as [|count IH];
    intros index nearestIdx minDistance nearestIdx' minDistance' Hstart Hinv E.
  - cbn in E. inversion E; subst. rewrite Z.add_0_r. exact Hinv.
  - cbn [scanStations] in E.
    destruct (at_index stations index) as [station|] eqn:Eat; [|discriminate].
    cbv zeta in E.
    fold (distanceToStation getDistance sample station) in E.
    replace (index + Z.of_nat (S count)) with (index + 1 + Z.of_nat count)
      by lia.
    destruct (xnum_gtb minDistance
                (distanceToStation getDistance sample station)) eqn:Elt;
      (eapply IH; [| |exact E]; [lia|]).
    + (* the station at [index] is strictly nearer *)
      right. split; [lia|]. exists station. split; [exact Eat|].
      split; [reflexivity|].
      intros j other Hj Hother.
      destruct (Z.eq_dec j index) as [->|Hne].
      * rewrite Eat in Hother. inversion Hother; subst other.
        split; [apply Qle_refl|intros; lia].
      * destruct Hinv as [(Hempty & _)|(Hrange & best & Hbest & Hmin & Hall)];
          [lia|].
        subst minDistance. cbn [xnum_gtb] in Elt. apply Qltb_spec in Elt.
        destruct (Hall j other ltac:(lia) Hother) as [Hle _].
        split; [|intros _]; lra.
    + (* the running minimum stays *)
      destruct Hinv as [(_ & _ & Hinf)|(Hrange & best & Hbest & Hmin & Hall)].
      * subst minDistance. discriminate.
      * right. split; [lia|]. exists best. split; [exact Hbest|].
        split; [exact Hmin|].
        intros j other Hj Hother.
        destruct (Z.eq_dec j index) as [->|Hne].
        -- rewrite Eat in Hother. inversion Hother; subst other.
           subst minDistance. cbn [xnum_gtb] in Elt.
           assert (distanceToStation getDistance sample best
                   <= distanceToStation getDistance sample station)%Q.
           { destruct (Qlt_le_dec
                         (distanceToStation getDistance sample station)
                         (distanceToStation getDistance sample best))
               as [Hlt|Hle]; [|exact Hle].
             apply Qltb_spec in Hlt. congruence. }
           split; [assumption|intros; lia].
        -- apply Hall; [lia|exact Hother].
Qed.

(** The result of a scan over a range that holds a station is determined
    by the range. *)
Lemma scanned_unique sample stations start1 upto1 start2 upto2 i0 j0 i1 m1 i2 m2 :
  scanned getDistance sample stations start1 upto1 i0 i1 m1 ->
  scanned getDistance sample stations start2 upto2 j0 i2 m2 ->
  start1 <= i2 < upto1 ->
  start2 <= i1 < upto2 ->
  i1 = i2 /\ m1 = m2.
Proof.
  intros [(H1 & _)|(R1 & s1 & A1 & M1 & All1)]
         [(H2 & _)|(R2 & s2 & A2 & M2 & All2)] In1 In2; try lia.
  destruct (All1 i2 s2 In1 A2) as [Hle1 Hlt1].
  destruct (All2 i1 s1 In2 A1) as [Hle2 Hlt2].
  assert (i1 = i2).
  { destruct (Z.lt_trichotomy i1 i2) as [Hlt|[Heq|Hgt]]; [|exact Heq|].
    - specialize (Hlt2 Hlt). lra.
    - specialize (Hlt1 Hgt). lra. }
  subst i2. split; [reflexivity|].
  rewrite A1 in A2. inversion A2; subst s2. congruence.
Qed.

(** Where the window is right: the scan of [updateLocation] returns what
    a scan of all stations returns whenever the station that scan finds
    is at most 15 places behind the current index and at most 14 places
    ahead of it. *)
Lemma windowed_scan_agrees sample stations currentStationIndex nearestIdx minDistance :
  stations <> [] ->
  fullScan getDistance sample stations = Completed (nearestIdx, minDistance) ->
  currentStationIndex < 0
  \/ currentStationIndex - 15 <= nearestIdx < currentStationIndex + 15 ->
  locateNearest getDistance sample stations currentStationIndex
  = Completed (nearestIdx, minDistance).
Proof.
  intros Hne Efull Hnear.
  assert (Hlen : 0 < length_of stations).
  { unfold length_of. destruct stations; [contradiction|cbn; lia]. }
  assert (Hfull : scanned getDistance sample stations 0
                    (length_of stations) 0 nearestIdx minDistance).
  { apply (scanStations_scanned sample stations 0 0 (List.length stations)
             0 0 POSITIVE_INFINITY nearestIdx minDistance);
      [lia| |exact Efull].
    left. repeat split; lia. }
  assert (Hin : 0 <= nearestIdx < length_of stations).
  { destruct Hfull as [(H & _)|(H & _)]; lia. }
  destruct (locateNearest_completes sample stations currentStationIndex)
    as (i & m & Ewin).
  rewrite Ewin. unfold locateNearest in Ewin.
  pose proof (searchWindow_in_range stations currentStationIndex) as [W0 W1].
  assert (Hwin : fst (searchWindow stations currentStationIndex) <= nearestIdx
                 < snd (searchWindow stations currentStationIndex)).
  { unfold searchWindow.
    destruct (Z.geb_spec currentStationIndex 0);
      destruct (Z.gtb_spec (length_of stations) 30); cbn; lia. }
  destruct (searchWindow stations currentStationIndex) as [start end_].
  cbn [fst snd] in *.
  pose proof (scanStations_scanned sample stations start
                (if currentStationIndex >=? 0 then currentStationIndex else 0)
                (Z.to_nat (end_ - start)) start _ POSITIVE_INFINITY i m
                ltac:(lia) ltac:(left; repeat split; lia) Ewin) as Hscan.
  replace (start + Z.of_nat (Z.to_nat (end_ - start))) with end_ in Hscan
    by lia.
  assert (Hi : start <= i < end_).
  { destruct Hscan as [(H & _)|(H & _)]; lia. }
  destruct (scanned_unique sample stations _ _ _ _ _ _ _ _ _ _ Hscan Hfull)
    as [-> ->]; [lia|lia|reflexivity].
Qed.

End EngineProperties.

(** ** The notification dispatcher *)

Lemma dispatch_rejected settings os channel name phones n :
  cancelAllScheduledNotificationsAsync_rejects channel = true
  \/ dismissAllNotificationsAsync_rejects channel = true
  \/ scheduleNotificationAsync_rejects channel = true ->
  dispatch settings os channel name phones n = Threw PlatformRejection.
Proof.
  intros H. unfold dispatch, channelCall.
  destruct (cancelAllScheduledNotificationsAsync_rejects channel);
    [reflexivity|].
  destruct (dismissAllNotificationsAsync_rejects channel); [reflexivity|].
  destruct (scheduleNotificationAsync_rejects channel); [reflexivity|].
  destruct H as [H|[H|H]]; discriminate.
Qed.

Lemma dispatch_resolved settings os channel name phones n :
  cancelAllScheduledNotificationsAsync_rejects channel = false ->
  dismissAllNotificationsAsync_rejects channel = false ->
  scheduleNotificationAsync_rejects channel = false ->
  exists n' content,
    dispatch settings os channel name phones n = Completed n'
    /\ hasNotified n' = hasNotified n
    /\ lastNotificationTime n' = lastNotificationTime n
    /\ presented n' = content :: presented n.
Proof.
  intros H1 H2 H3. unfold dispatch, channelCall. rewrite H1, H2, H3.
  cbn [bind]. cbv zeta.
  destruct (vibrationEnabled settings); do 2 eexists;
    (split; [reflexivity|]); cbn; auto.
Qed.

(** C7: when the channel throws during a dispatch, [sendNotification]
    unsets the latch [hasNotified] again but keeps the time of the attempt
    as [lastNotificationTime]; so a retry less than 5000 ms later is
    refused (nothing changes), and a retry after the cooldown dispatches
    again. *)
Theorem dispatch_failure_rolls_back_latch_not_cooldown :
  forall (settings : AppSettings) (os : OS) (channel : Channel) (now : Z)
         (name : string) (phones : bool) (n : Notifier),
    hasNotified n = false ->
    NOTIFICATION_COOLDOWN_MS <= now - lastNotificationTime n ->
    cancelAllScheduledNotificationsAsync_rejects channel = true
    \/ dismissAllNotificationsAsync_rejects channel = true
    \/ scheduleNotificationAsync_rejects channel = true ->
    let n' := sendNotification settings os channel now name phones n in
    hasNotified n' = false
    /\ lastNotificationTime n' = now
    /\ presented n' = presented n
    /\ (forall channel2 now2 name2 phones2,
           now2 - now < 5000 ->
           sendNotification settings os channel2 now2 name2 phones2 n' = n')
    /\ (forall channel2 now2 name2 phones2,
           5000 <= now2 - now ->
           cancelAllScheduledNotificationsAsync_rejects channel2 = false ->
           dismissAllNotificationsAsync_rejects channel2 = false ->
           scheduleNotificationAsync_rejects channel2 = false ->
           let n'' :=
             sendNotification settings os channel2 now2 name2 phones2 n' in
           hasNotified n'' = true
           /\ exists content, presented n'' = content :: presented n).
Proof.
  intros settings os channel now name phones n Hlatch Hcool Hthrow n'.
  assert (En' : n' = set_hasNotified false
                       (set_lastNotificationTime now (set_hasNotified true n))).
  { subst n'. unfold sendNotification. rewrite Hlatch.
    destruct (Z.ltb_spec (now - lastNotificationTime n)
                NOTIFICATION_COOLDOWN_MS); [lia|].
    cbv zeta. rewrite dispatch_rejected by exact Hthrow. reflexivity. }
  rewrite En'. cbn [hasNotified lastNotificationTime presented
                    set_hasNotified set_lastNotificationTime].
  do 3 (split; [reflexivity|]). split.
  - intros channel2 now2 name2 phones2 Hsoon.
    unfold sendNotification.
    cbn [hasNotified lastNotificationTime presented
         set_hasNotified set_lastNotificationTime].
    destruct (Z.ltb_spec (now2 - now) NOTIFICATION_COOLDOWN_MS);
      [reflexivity|].
    unfold NOTIFICATION_COOLDOWN_MS in *. lia.
  - intros channel2 now2 name2 phones2 Hlate R1 R2 R3.
    unfold sendNotification.
    cbn [hasNotified lastNotificationTime presented
         set_hasNotified set_lastNotificationTime].
    destruct (Z.ltb_spec (now2 - now) NOTIFICATION_COOLDOWN_MS);
      [unfold NOTIFICATION_COOLDOWN_MS in *; lia|].
    match goal with
    | |- context [dispatch ?s ?o ?c ?nm ?ph ?x] =>
        destruct (dispatch_resolved s o c nm ph x R1 R2 R3)
          as (m & content & E & Hn & _ & Hp)
    end.
    rewrite E. split; [rewrite Hn; reflexivity|].
    exists content. rewrite Hp. reflexivity.
Qed.

(** ** Concrete journeys *)

(** C4, at the input where the code departs from it: on the line of 50
    stations with hint 25, a sample at the place of station 40 has station
    40 as its nearest station in a scan of all stations, 15 places from
    the hint; the windowed scan of [updateLocation] stops at index 39 and
    returns station 39, 1111.95 m away. *)
Theorem window_misses_station_fifteen_ahead :
  let sample := metresBefore 0 None in
  let stations := TrainLine.stations line50 in
  List.length stations = 50%nat
  /\ searchWindow stations 25 = (10, 40)
  /\ (exists d, fullScan meridianDistance sample stations
                = Completed (40, Finite d) /\ (d == 0)%Q)
  /\ Z.abs (40 - 25) <= 15
  /\ (exists d, locateNearest meridianDistance sample stations 25
                = Completed (39, Finite d) /\ (d == 22239 # 20)%Q).
Proof.
  cbv zeta. split; [reflexivity|]. split; [reflexivity|].
  split; [eexists; split; [vm_compute; reflexivity|reflexivity]|].
  split; [simpl; lia|].
  eexists; split; [vm_compute; reflexivity|reflexivity].
Qed.

(** C5 as stated fails: the scan of a line without stations completes,
    with index 0 and an infinite distance, and raises nothing. *)
Lemma zero_station_line_raises_no_error :
  locateNearest meridianDistance (metresBefore 100 None)
    (TrainLine.stations emptyLine) (-1)
  = Completed (0, POSITIVE_INFINITY)
  /\ ~ (exists e,
          locateNearest meridianDistance (metresBefore 100 None)
            (TrainLine.stations emptyLine) (-1) = Threw e)
  /\ ~ (exists e,
          updateLocation meridianDistance recordArrival propsEmptyLine
            (metresBefore 100 None) initialHook [] = Threw e).
Proof.
  split; [reflexivity|]. split; intros [e H]; vm_compute in H; discriminate.
Qed.

(** ** The theorems at work on the example session *)

Lemma Qle_by_computation (x y : Q) : Qle_bool x y = true -> (x <= y)%Q.
Proof. apply Qle_bool_iff. Qed.

Lemma one_shot_arrival_witness :
  exists h',
    feed meridianDistance recordArrival props50
      [metresBefore 5000 None; metresBefore 3000 None; metresBefore 1000 None;
       metresBefore 140 None; metresBefore 100 None; metresBefore 100 None;
       metresBefore 20 None]
      initialHook []
    = Completed (h', ["Ueno"%string]).
Proof.
  apply (one_shot_arrival meridianDistance props50 ueno line50 initialHook
           (metresBefore 5000 None)
           [metresBefore 3000 None; metresBefore 1000 None;
            metresBefore 140 None; metresBefore 100 None;
            metresBefore 100 None; metresBefore 20 None]).
  - reflexivity.
  - reflexivity.
  - discriminate.
  - vm_compute. reflexivity.
  - cbn [map nonincreasing].
    repeat split; apply Qle_by_computation; vm_compute; reflexivity.
  - apply Exists_exists. exists (metresBefore 140 None). split.
    + simpl. auto.
    + apply Qle_by_computation. vm_compute. reflexivity.
Defined.


Lemma zero_station_line_scan_completes_witness :
  locateNearest meridianDistance (metresBefore 100 None)
    (TrainLine.stations emptyLine) (currentStationIndex initialHook)
  = Completed
      (if currentStationIndex initialHook >=? 0
       then currentStationIndex initialHook else 0,
       POSITIVE_INFINITY)
  /\ exists h' w',
      updateLocation meridianDistance recordArrival propsEmptyLine
        (metresBefore 100 None) initialHook [] = Completed (h', w')
      /\ nearestStationDistance h' = Some POSITIVE_INFINITY
      /\ currentStationIndex h'
         = (if currentStationIndex initialHook <? 0 then 0
            else currentStationIndex initialHook).
Proof.
  apply (zero_station_line_scan_completes meridianDistance recordArrival
           propsEmptyLine ueno emptyLine (metresBefore 100 None)
           initialHook []); reflexivity.
Defined.

Lemma hysteresis_band_scenario_witness :
  exists h',
    updateLocation meridianDistance recordArrival props50
      (metresBefore 250 (Some 0%Q)) trackingHook []
    = Completed (h', [])
    /\ isArrived h' = isArrived trackingHook
    /\ hasTriggeredArrivalNotification h'
       = hasTriggeredArrivalNotification trackingHook.
Proof.
  apply (proj2 (proj2 (proj2
           (hysteresis_band_scenario meridianDistance recordArrival)))
           props50 ueno line50 (metresBefore 250 (Some 0%Q)) trackingHook []);
    vm_compute; reflexivity.
Defined.

Lemma dispatch_failure_witness :
  let n' :=
    sendNotification (settings props50) ios brokenChannel 10000 "Ueno" true
      initialNotifier in
  hasNotified n' = false
  /\ lastNotificationTime n' = 10000
  /\ presented n' = []
  /\ sendNotification (settings props50) ios healthyChannel 12000 "Ueno" true n'
     = n'
  /\ hasNotified
       (sendNotification (settings props50) ios healthyChannel 15000 "Ueno"
          true n') = true.
Proof.
  destruct (dispatch_failure_rolls_back_latch_not_cooldown
              (settings props50) ios brokenChannel 10000 "Ueno" true
              initialNotifier eq_refl
              ltac:(vm_compute; discriminate)
              (or_intror (or_intror eq_refl)))
    as (Hlatch & Htime & Hnone & Hsoon & Hlate).
  cbv zeta. split; [exact Hlatch|]. split; [exact Htime|].
  split; [exact Hnone|]. split.
  - apply Hsoon. lia.
  - apply (Hlate healthyChannel 15000 "Ueno"%string true);
      [lia|reflexivity|reflexivity|reflexivity].
Defined.


Lemma latch_ignores_dispatch_result_witness :
  exists h1 h2,
    updateLocation meridianDistance
      (countingOnArrive (settings props50) android) props50
      (metresBefore 120 None) trackingHook (appWith brokenChannel, O)
    = Completed
        (h1, (onArrive (settings props50) android "Ueno"
                (appWith brokenChannel), 1%nat))
    /\ hasTriggeredArrivalNotification h1 = true
    /\ feed meridianDistance
         (countingOnArrive (settings props50) android) props50
         [metresBefore 60 None; metresBefore 10 None; metresBefore 400 None]
         h1
         (onArrive (settings props50) android "Ueno" (appWith brokenChannel),
          1%nat)
       = Completed
           (h2, (onArrive (settings props50) android "Ueno"
                   (appWith brokenChannel), 1%nat))
    /\ hasTriggeredArrivalNotification h2 = true
    /\ presented
         (notifier
            (onArrive (settings props50) android "Ueno"
               (appWith brokenChannel))) = [].
Proof.
  destruct (latch_ignores_dispatch_result meridianDistance android props50
              ueno line50 trackingHook (metresBefore 120 None)
              [metresBefore 60 None; metresBefore 10 None;
               metresBefore 400 None]
              (appWith brokenChannel) eq_refl eq_refl eq_refl)
    as (h1 & h2 & E1 & L1 & E2 & L2 & Hnone).
  - apply Qle_by_computation. vm_compute. reflexivity.
  - repeat constructor; apply Qle_by_computation; vm_compute; reflexivity.
  - exists h1, h2.
    split; [exact E1|]. split; [exact L1|]. split; [exact E2|].
    split; [exact L2|].
    apply Hnone. do 5 right. reflexivity.
Defined.

(** * Further properties *)

(** ** The threshold tuner *)

Ltac number_tests :=
  repeat match goal with
         | |- context [Qleb ?a ?b] =>
             let E := fresh "E" in
             destruct (Qleb a b) eqn:E;
             [apply Qleb_spec in E|apply Qleb_false in E]
         | |- context [Qgeb ?a ?b] =>
             let E := fresh "E" in
             destruct (Qgeb a b) eqn:E;
             [apply Qgeb_spec in E
             |apply (Qleb_false b a) in E]
         | |- context [Qltb ?a ?b] =>
             let E := fresh "E" in
             destruct (Qltb a b) eqn:E;
             [apply Qltb_spec in E
             |apply (Qgtb_false b a) in E]
         | |- context [Qgtb ?a ?b] =>
             let E := fresh "E" in
             destruct (Qgtb a b) eqn:E;
             [apply Qgtb_spec in E|apply Qgtb_false in E]
         end.

Lemma getSpeedAdjustment_bounds speedMps :
  -80 <= getSpeedAdjustment speedMps <= 180.
Proof.
  unfold getSpeedAdjustment. destruct speedMps as [v|]; [|lia].
  cbv zeta. number_tests; lia.
Qed.

Lemma getLineAdjustment_bounds spacing :
  -140 <= getLineAdjustment spacing <= 120.
Proof.
  unfold getLineAdjustment. destruct spacing as [a|]; [|lia].
  number_tests; lia.
Qed.

Lemma getSpeedAdjustment_monotone v1 v2 :
  (0 < v1)%Q -> (v1 <= v2)%Q ->
  getSpeedAdjustment (Some v1) <= getSpeedAdjustment (Some v2).
Proof.
  intros H0 H. unfold getSpeedAdjustment. cbv zeta.
  number_tests; try lia; exfalso; lra.
Qed.

Lemma getLineAdjustment_monotone a1 a2 :
  (0 < a1)%Q -> (a1 <= a2)%Q ->
  getLineAdjustment (Some a1) <= getLineAdjustment (Some a2).
Proof.
  intros H0 H. unfold getLineAdjustment.
  number_tests; try lia; exfalso; lra.
Qed.

(** X1: the speed adjustment lies between -80 and 180 and the line
    adjustment between -140 and 120; among positive speeds a faster train
    never gets a smaller adjustment, and among positive spacings a sparser
    line never gets a smaller one. *)
Theorem adjustments_bounded_and_monotone :
  (forall speedMps, -80 <= getSpeedAdjustment speedMps <= 180)
  /\ (forall spacing, -140 <= getLineAdjustment spacing <= 120)
  /\ (forall v1 v2, (0 < v1)%Q -> (v1 <= v2)%Q ->
        getSpeedAdjustment (Some v1) <= getSpeedAdjustment (Some v2))
  /\ (forall a1 a2, (0 < a1)%Q -> (a1 <= a2)%Q ->
        getLineAdjustment (Some a1) <= getLineAdjustment (Some a2)).
Proof.
  split; [exact getSpeedAdjustment_bounds|].
  split; [exact getLineAdjustment_bounds|].
  split; [exact getSpeedAdjustment_monotone|exact getLineAdjustment_monotone].
Qed.

Lemma Math_round_monotone x y : (x <= y)%Q -> Math_round x <= Math_round y.
Proof. intros H. unfold Math_round. apply Qfloor_resp_le. lra. Qed.

Lemma Qfloor_unique (n : Z) (q : Q) :
  (inject_Z n <= q)%Q -> (q < inject_Z (n + 1))%Q -> Qfloor q = n.
Proof.
  intros Hlo Hhi.
  assert (H1 : n <= Qfloor q).
  { rewrite <- (Qfloor_Z n). apply Qfloor_resp_le. exact Hlo. }
  assert (H2 : Qfloor q < n + 1).
  { rewrite Zlt_Qlt. apply Qle_lt_trans with q; [apply Qfloor_le|exact Hhi]. }
  lia.
Qed.

Lemma Math_round_plus_integers (x : Q) (a b : Z) :
  Math_round (x + inject_Z a + inject_Z b) = Math_round x + a + b.
Proof.
  unfold Math_round.
  pose proof (Qfloor_le (x + (1 # 2))) as Hlo.
  pose proof (Qlt_floor (x + (1 # 2))) as Hhi.
  rewrite inject_Z_plus in Hhi.
  apply Qfloor_unique.
  - rewrite !inject_Z_plus.
    remember (inject_Z (Qfloor (x + (1 # 2)))) as f.
    remember (inject_Z a) as qa. remember (inject_Z b) as qb.
    clear - Hlo. lra.
  - replace (Qfloor (x + (1 # 2)) + a + b + 1)
      with (Qfloor (x + (1 # 2)) + 1 + a + b) by lia.
    rewrite !inject_Z_plus.
    remember (inject_Z (Qfloor (x + (1 # 2)))) as f.
    remember (inject_Z a) as qa. remember (inject_Z b) as qb.
    clear - Hhi. lra.
Qed.

(** X2: the effective arrival threshold never decreases when the base
    threshold grows, when a (positive) speed grows, or when a (positive)
    average spacing grows. *)
Theorem effective_threshold_monotone :
  forall (b1 b2 v1 v2 a1 a2 : Q),
    (b1 <= b2)%Q ->
    (0 < v1)%Q -> (v1 <= v2)%Q ->
    (0 < a1)%Q -> (a1 <= a2)%Q ->
    computeEffectiveArrivalThreshold b1 (Some v1) (Some a1)
    <= computeEffectiveArrivalThreshold b2 (Some v2) (Some a2).
Proof.
  intros b1 b2 v1 v2 a1 a2 Hb Hv0 Hv Ha0 Ha.
  unfold computeEffectiveArrivalThreshold. cbv zeta.
  pose proof (getSpeedAdjustment_monotone v1 v2 Hv0 Hv) as Hs.
  pose proof (getLineAdjustment_monotone a1 a2 Ha0 Ha) as Hl.
  apply Z.max_le_compat_l, Z.min_le_compat_l, Math_round_monotone.
  rewrite Zle_Qle in Hs, Hl. lra.
Qed.

(** ** The arrival state machine *)

Section ArrivalBehaviour.

Variable getDistance : Q -> Q -> Q -> Q -> Q.

Lemma thresholds_ordered p sample h :
  150 < computeEffectiveArrivalThreshold (baseThresholdOf p)
          (LocationSample.speedMps sample) (lineAverageSpacing h)
  /\ computeEffectiveArrivalThreshold (baseThresholdOf p)
       (LocationSample.speedMps sample) (lineAverageSpacing h)
     < departThresholdOf p sample h.
Proof.
  pose proof (effective_threshold_bounds (baseThresholdOf p)
                (LocationSample.speedMps sample) (lineAverageSpacing h)).
  unfold departThresholdOf, TRACKING_CONFIG.DEPARTURE_THRESHOLD. lia.
Qed.

Section WithCallback.

Context {W : Type}.
Variable onArrive : string -> W -> W.

(** X4: the three thresholds of a call are ordered, 150 m below the
    effective arrival threshold below the departure threshold, and the
    call leaves the session arrived when the distance is within the
    effective threshold, not arrived and re-armed when it is beyond the
    departure threshold, and as it was (flag, latch and the caller's
    world) in the band between the two. *)
Theorem arrived_flag_hysteresis :
  forall (p : Props) (target : Station.t) (line : TrainLine.t)
         (sample : LocationSample.t) (h : Hook) (w : W),
    selectedStation p = Some target ->
    selectedLine p = Some line ->
    let dist := distanceToTarget getDistance target sample in
    let eff :=
      computeEffectiveArrivalThreshold (baseThresholdOf p)
        (LocationSample.speedMps sample) (lineAverageSpacing h) in
    let depart := departThresholdOf p sample h in
    150 < eff < depart
    /\ exists h' w',
        updateLocation getDistance onArrive p sample h w = Completed (h', w')
        /\ ((dist <= inject_Z eff)%Q -> isArrived h' = true)
        /\ ((inject_Z depart < dist)%Q ->
            isArrived h' = false
            /\ hasTriggeredArrivalNotification h' = false
            /\ w' = w)
        /\ ((inject_Z eff < dist)%Q -> (dist <= inject_Z depart)%Q ->
            isArrived h' = isArrived h
            /\ hasTriggeredArrivalNotification h'
               = hasTriggeredArrivalNotification h
            /\ w' = w).
Proof.
  intros p target line sample h w Ht Hl dist eff depart.
  pose proof (thresholds_ordered p sample h) as [Ho1 Ho2].
  fold eff depart in Ho1, Ho2. split; [lia|].
  destruct (updateLocation_arrival getDistance onArrive p sample h w
              target line Ht Hl) as (h' & E & L & A).
  fold dist eff in E, L, A.
  exists h'. eexists. split; [exact E|].
  rewrite L, A. clear E L A.
  assert (Hq1 : (150 < inject_Z eff)%Q)
    by (change 150%Q with (inject_Z 150); rewrite <- Zlt_Qlt; exact Ho1).
  assert (Hq2 : (inject_Z eff < inject_Z depart)%Q)
    by (rewrite <- Zlt_Qlt; exact Ho2).
  unfold arrivalTransition. cbv zeta.
  change (inject_Z TRACKING_CONFIG.CURRENT_STATION_THRESHOLD) with 150%Q.
  change (Z.max (eff + 150) TRACKING_CONFIG.DEPARTURE_THRESHOLD) with depart.
  destruct (Qleb dist 150) eqn:E1;
    [apply Qleb_spec in E1|apply Qleb_false in E1].
  - split; [intros _; destruct (negb _); reflexivity|].
    split; intros; exfalso; lra.
  - destruct (Qleb dist (inject_Z eff)) eqn:E2;
      [apply Qleb_spec in E2|apply Qleb_false in E2].
    + split; [reflexivity|]. split; intros; exfalso; lra.
    + destruct (Qgtb dist (inject_Z depart)) eqn:E3;
        [apply Qgtb_spec in E3|apply Qgtb_false in E3]; cbn.
      * split; [intros; exfalso; lra|]. split; [auto|intros; exfalso; lra].
      * split; [intros; exfalso; lra|]. split; [intros; exfalso; lra|auto].
Qed.

(** A call invokes [onArrive] at most once, and only for a sample within
    150 m of the target that finds the latch unset. *)
Lemma step_world p sample h w target line :
  selectedStation p = Some target ->
  selectedLine p = Some line ->
  exists h' w',
    updateLocation getDistance onArrive p sample h w = Completed (h', w')
    /\ (w' = w
        \/ (w' = onArrive (Station.name target) w
            /\ (distanceToTarget getDistance target sample <= 150)%Q
            /\ hasTriggeredArrivalNotification h = false)).
Proof.
  intros Ht Hl.
  destruct (updateLocation_arrival getDistance onArrive p sample h w
              target line Ht Hl) as (h' & E & _).
  exists h'. eexists. split; [exact E|].
  unfold arrivalTransition. cbv zeta.
  change (inject_Z TRACKING_CONFIG.CURRENT_STATION_THRESHOLD) with 150%Q.
  number_tests; cbn; auto.
  destruct (hasTriggeredArrivalNotification h) eqn:El; cbn;
    [left; reflexivity|right; repeat split; assumption].
Qed.

Lemma feed_app p samples1 samples2 h w :
  feed getDistance onArrive p (samples1 ++ samples2) h w
  = bind (feed getDistance onArrive p samples1 h w)
      (fun r => feed getDistance onArrive p samples2 (fst r) (snd r)).
Proof.
  revert h w. induction samples1 as [|s rest IH]; intros h w.
  - reflexivity.
  - cbn [feed app].
    destruct (updateLocation getDistance onArrive p s h w) as [[h1 w1]|e];
      cbn [bind fst snd]; [apply IH|reflexivity].
Qed.

Lemma feed_spacing p samples :
  forall h w h' w',
    feed getDistance onArrive p samples h w = Completed (h', w') ->
    lineAverageSpacing h' = lineAverageSpacing h.
Proof.
  induction samples as [|s rest IH]; intros h w h' w' E.
  - cbn in E. inversion E; reflexivity.
  - cbn [feed] in E.
    destruct (updateLocation getDistance onArrive p s h w)
      as [[h1 w1]|e] eqn:E1; [|discriminate].
    cbn [bind fst snd] in E.
    rewrite (IH _ _ _ _ E).
    exact (updateLocation_spacing getDistance onArrive _ _ _ _ _ _ E1).
Qed.

(** A sample beyond the departure threshold unsets the latch. *)
Lemma step_departed p sample h w target line :
  selectedStation p = Some target ->
  selectedLine p = Some line ->
  (inject_Z (departThresholdOf p sample h)
   < distanceToTarget getDistance target sample)%Q ->
  exists h',
    updateLocation getDistance onArrive p sample h w = Completed (h', w)
    /\ hasTriggeredArrivalNotification h' = false.
Proof.
  intros Ht Hl Hd.
  destruct (updateLocation_arrival getDistance onArrive p sample h w
              target line Ht Hl) as (h' & E & L & _).
  exists h'. revert E L.
  pose proof (thresholds_ordered p sample h) as [Ho1 Ho2].
  assert (Hq1 : (150 < inject_Z (computeEffectiveArrivalThreshold
                                   (baseThresholdOf p)
                                   (LocationSample.speedMps sample)
                                   (lineAverageSpacing h)))%Q)
    by (change 150%Q with (inject_Z 150); rewrite <- Zlt_Qlt; exact Ho1).
  rewrite Zlt_Qlt in Ho2.
  unfold arrivalTransition. cbv zeta.
  change (inject_Z TRACKING_CONFIG.CURRENT_STATION_THRESHOLD) with 150%Q.
  unfold departThresholdOf in Hd, Ho2.
  pose proof Hd as Hd'. apply Qgtb_spec in Hd'. rewrite Hd'.
  number_tests; try (exfalso; lra); cbn; auto.
Qed.

End WithCallback.

End ArrivalBehaviour.

Section Journeys.

Variable getDistance : Q -> Q -> Q -> Q -> Q.

(** X5: the latch re-arms on departure.  An approach that reaches the
    just-arrived threshold, then a sample beyond the departure threshold,
    then a second approach: [onArrive] is called twice, once for each
    approach. *)
Theorem rearm_after_departure :
  forall (p : Props) (target : Station.t) (line : TrainLine.t) (h : Hook)
         (approach1 approach2 : list LocationSample.t)
         (away : LocationSample.t),
    selectedStation p = Some target ->
    selectedLine p = Some line ->
    hasTriggeredArrivalNotification h = false ->
    nonincreasing (map (distanceToTarget getDistance target) approach1) ->
    Exists (fun sample =>
              (distanceToTarget getDistance target sample <= 150)%Q)
      approach1 ->
    (inject_Z (departThresholdOf p away h)
     < distanceToTarget getDistance target away)%Q ->
    nonincreasing (map (distanceToTarget getDistance target) approach2) ->
    Exists (fun sample =>
              (distanceToTarget getDistance target sample <= 150)%Q)
      approach2 ->
    exists h',
      feed getDistance recordArrival p (approach1 ++ away :: approach2) h []
      = Completed (h', [Station.name target; Station.name target]).
Proof.
  intros p target line h approach1 approach2 away Ht Hl Hlatch
         Hmono1 Hex1 Haway Hmono2 Hex2.
  destruct (feed_approach getDistance recordArrival p target line approach1
              Ht Hl h [] Hmono1 Hex1 Hlatch) as (h1 & E1 & _).
  rewrite feed_app, E1. cbn [bind fst snd feed].
  assert (Hsp : lineAverageSpacing h1 = lineAverageSpacing h)
    by exact (feed_spacing getDistance recordArrival _ _ _ _ _ _ E1).
  destruct (step_departed getDistance recordArrival p away h1
              (recordArrival (Station.name target) []) target line Ht Hl)
    as (h2 & E2 & L2).
  { unfold departThresholdOf in *. rewrite Hsp. exact Haway. }
  rewrite E2. cbn [bind fst snd].
  destruct (feed_approach getDistance recordArrival p target line approach2
              Ht Hl h2 (recordArrival (Station.name target) [])
              Hmono2 Hex2 L2) as (h3 & E3 & _).
  exists h3. exact E3.
Qed.

(** X6: [onArrive] is never called without a sample within 150 m of the
    target.  Whatever the samples and the state, the calls a journey adds
    to the log all carry the name of the target, and there are at most as
    many of them as there are samples within 150 m. *)
Theorem arrivals_need_close_samples :
  forall (p : Props) (target : Station.t) (line : TrainLine.t)
         (samples : list LocationSample.t) (h : Hook) (log : list string),
    selectedStation p = Some target ->
    selectedLine p = Some line ->
    exists h' fired,
      feed getDistance recordArrival p samples h log
      = Completed (h', fired ++ log)
      /\ Forall (fun name => name = Station.name target) fired
      /\ (List.length fired
          <= List.length
               (filter (fun sample =>
                          Qleb (distanceToTarget getDistance target sample) 150)
                  samples))%nat.
Proof.
  intros p target line samples h log Ht Hl. revert h log.
  induction samples as [|s rest IH]; intros h log.
  - exists h, []. cbn. repeat split; [constructor|lia].
  - destruct (step_world getDistance recordArrival p s h log target line
                Ht Hl) as (h1 & log1 & E1 & Hlog).
    cbn [feed]. rewrite E1. cbn [bind fst snd].
    destruct Hlog as [->|(-> & Hclose & _)].
    + destruct (IH h1 log) as (h' & fired & E & Hall & Hlen).
      exists h', fired. split; [exact E|]. split; [exact Hall|].
      cbn [filter]. destruct (Qleb _ 150); cbn [List.length]; lia.
    + destruct (IH h1 (recordArrival (Station.name target) log))
        as (h' & fired & E & Hall & Hlen).
      exists h', (fired ++ [Station.name target]).
      split; [rewrite E; unfold recordArrival; rewrite <- app_assoc;
              reflexivity|].
      split; [apply Forall_app; split; [exact Hall|repeat constructor]|].
      cbn [filter]. apply Qleb_spec in Hclose. rewrite Hclose.
      rewrite length_app. cbn [List.length]. lia.
Qed.


End Journeys.

(** ** The station locator and the current station index *)

Section Locator.

Variable getDistance : Q -> Q -> Q -> Q -> Q.

Lemma locateNearest_scanned sample stations currentStationIndex n m :
  locateNearest getDistance sample stations currentStationIndex
  = Completed (n, m) ->
  scanned getDistance sample stations
    (fst (searchWindow stations currentStationIndex))
    (Z.max (fst (searchWindow stations currentStationIndex))
       (snd (searchWindow stations currentStationIndex)))
    (if currentStationIndex >=? 0 then currentStationIndex else 0) n m.
Proof.
  unfold locateNearest.
  destruct (searchWindow stations currentStationIndex) as [start end_].
  cbn [fst snd]. intros E.
  pose proof (scanStations_scanned getDistance sample stations start
                (if currentStationIndex >=? 0 then currentStationIndex else 0)
                (Z.to_nat (end_ - start)) start _ POSITIVE_INFINITY n m
                ltac:(lia) ltac:(left; repeat split; lia) E) as H.
  replace (start + Z.of_nat (Z.to_nat (end_ - start)))
    with (Z.max start end_) in H by lia.
  exact H.
Qed.

Lemma locateNearest_unknown_index sample stations currentStationIndex :
  currentStationIndex < 0 ->
  locateNearest getDistance sample stations currentStationIndex
  = fullScan getDistance sample stations.
Proof.
  intros Hneg. unfold locateNearest, searchWindow, fullScan.
  destruct (Z.geb_spec currentStationIndex 0); [lia|].
  cbn [andb]. unfold length_of.
  rewrite Z.sub_0_r, Nat2Z.id. reflexivity.
Qed.

(** On a line with stations, a current index that is unknown or valid
    gives a window that holds a station. *)
Lemma searchWindow_inhabited stations currentStationIndex :
  stations <> [] ->
  currentStationIndex < length_of stations ->
  0 <= fst (searchWindow stations currentStationIndex)
  /\ fst (searchWindow stations currentStationIndex)
     < snd (searchWindow stations currentStationIndex)
  /\ snd (searchWindow stations currentStationIndex) <= length_of stations.
Proof.
  intros Hne Hcur.
  assert (0 < length_of stations)
    by (unfold length_of; destruct stations; [contradiction|cbn; lia]).
  unfold searchWindow.
  destruct (Z.geb_spec currentStationIndex 0);
    destruct (Z.gtb_spec (length_of stations) 30); cbn; lia.
Qed.

(** X8: the locator returns the first station of least distance in its
    window.  On a line with stations and for an unknown or valid current
    index, the scan completes with an index of the window, the distance of
    the sample to that station, which is at most the distance to every
    station of the window and less than the distance to every earlier
    one. *)
Theorem nearest_station_is_first_minimum :
  forall (sample : LocationSample.t) (stations : list Station.t)
         (currentStationIndex : Z),
    stations <> [] ->
    currentStationIndex < length_of stations ->
    let start := fst (searchWindow stations currentStationIndex) in
    let end_ := snd (searchWindow stations currentStationIndex) in
    exists nearestIdx station,
      locateNearest getDistance sample stations currentStationIndex
      = Completed
          (nearestIdx, Finite (distanceToStation getDistance sample station))
      /\ start <= nearestIdx < end_
      /\ at_index stations nearestIdx = Some station
      /\ forall j other,
          start <= j < end_ ->
          at_index stations j = Some other ->
          (distanceToStation getDistance sample station
           <= distanceToStation getDistance sample other)%Q
          /\ (j < nearestIdx ->
              (distanceToStation getDistance sample station
               < distanceToStation getDistance sample other)%Q).
Proof.
  intros sample stations cur Hne Hcur start end_.
  destruct (searchWindow_inhabited stations cur Hne Hcur) as (W0 & W1 & W2).
  fold start end_ in W0, W1, W2.
  destruct (locateNearest_completes getDistance sample stations cur)
    as (n & m & E).
  pose proof (locateNearest_scanned sample stations cur n m E) as Hs.
  fold start end_ in Hs.
  replace (Z.max start end_) with end_ in Hs by lia.
  destruct Hs as [(Hempty & _)|(Hrange & station & Hat & Hm & Hall)]; [lia|].
  exists n, station. subst m. repeat split; try assumption; try lia;
    apply (Hall j other); assumption.
Qed.

Lemma locateNearest_valid_index sample stations currentStationIndex n m :
  stations <> [] ->
  currentStationIndex < length_of stations ->
  locateNearest getDistance sample stations currentStationIndex
  = Completed (n, m) ->
  0 <= n < length_of stations /\ exists d, m = Finite d.
Proof.
  intros Hne Hcur E.
  destruct (searchWindow_inhabited stations currentStationIndex Hne Hcur)
    as (W0 & W1 & W2).
  pose proof (locateNearest_scanned sample stations currentStationIndex
                n m E) as Hs.
  destruct Hs as [(Hempty & _)|(Hrange & station & _ & Hm & _)]; [lia|].
  split; [lia|eauto].
Qed.

End Locator.

Section CurrentStation.

Variable getDistance : Q -> Q -> Q -> Q -> Q.
Context {W : Type}.
Variable onArrive : string -> W -> W.

Lemma stationIndexUpdate_cold_start cur nearestIdx minDistance h :
  cur < 0 -> 0 <= nearestIdx ->
  let r := stationIndexUpdate cur nearestIdx minDistance h in
  currentStationIndex r = nearestIdx
  /\ stationSwitchCandidate r = {| idx := -1; hits := 0 |}
  /\ hasDepartedFromCurrentStation r = false.
Proof.
  intros Hc Hn. unfold stationIndexUpdate. cbv zeta.
  destruct (Z.ltb_spec cur 0); [|lia].
  destruct (Z.eqb_spec nearestIdx cur); [lia|]. cbn. auto.
Qed.

(** The index after a call is the index before or the nearest index. *)
Lemma stationIndexUpdate_choice cur nearestIdx minDistance h :
  currentStationIndex h = cur ->
  let r := stationIndexUpdate cur nearestIdx minDistance h in
  currentStationIndex r = cur
  \/ (currentStationIndex r = nearestIdx
      /\ (0 <= cur -> Z.abs (nearestIdx - cur) <= 1)).
Proof.
  intros Hc. cbv zeta.
  destruct (Z.ltb_spec cur 0) as [Hneg|Hpos].
  - unfold stationIndexUpdate.
    destruct (Z.ltb_spec cur 0); [|lia].
    destruct (Z.eqb_spec nearestIdx cur); cbn [andb negb].
    + subst nearestIdx.
      repeat match goal with
             | |- context [if ?b then _ else _] => destruct b
             end; cbn; auto.
    + right. cbn. split; [reflexivity|lia].
  - pose proof (stationIndexUpdate_known cur nearestIdx minDistance h Hpos)
      as K. cbv zeta in K.
    destruct (xnum_leb minDistance _); [|left; destruct K; congruence].
    destruct (_ && _ && _ && _) eqn:Esw.
    + right. destruct K as (K & _). split; [exact K|]. intros _.
      apply andb_true_iff in Esw. destruct Esw as [_ Habs].
      apply Z.leb_le in Habs. exact Habs.
    + left. destruct K; congruence.
Qed.

(** One call leaves a valid index. *)
Lemma updateLocation_valid_index :
  forall (p : Props) (target : Station.t) (line : TrainLine.t)
         (sample : LocationSample.t) (h : Hook) (w : W),
    selectedStation p = Some target ->
    selectedLine p = Some line ->
    TrainLine.stations line <> [] ->
    currentStationIndex h < length_of (TrainLine.stations line) ->
    exists h' w',
      updateLocation getDistance onArrive p sample h w = Completed (h', w')
      /\ 0 <= currentStationIndex h' < length_of (TrainLine.stations line).
Proof.
  intros p target line sample h w Ht Hl Hne Hcur.
  destruct (updateLocation_index getDistance onArrive p sample h w target line
              Ht Hl) as (n & m & h' & w' & Escan & E & C & _).
  exists h', w'. split; [exact E|]. rewrite C.
  destruct (locateNearest_valid_index getDistance sample _ _ n m Hne Hcur
              Escan) as (Hn & _).
  destruct (Z.ltb_spec (currentStationIndex h) 0) as [Hneg|Hpos].
  - destruct (stationIndexUpdate_cold_start (currentStationIndex h) n m h
                Hneg ltac:(lia)) as (K & _).
    rewrite K. exact Hn.
  - destruct (stationIndexUpdate_choice (currentStationIndex h) n m h
                eq_refl) as [K|(K & _)]; rewrite K; lia.
Qed.

(** X9: the current station index stays a valid index.  On a line with
    stations, from an index that is unknown or valid, every journey of at
    least one sample ends with an index between 0 and the number of
    stations (excluded): an unknown index becomes known at the first call
    and the index never leaves the line. *)
Theorem current_index_stays_valid :
  forall (p : Props) (target : Station.t) (line : TrainLine.t)
         (first : LocationSample.t) (rest : list LocationSample.t)
         (h : Hook) (w : W),
    selectedStation p = Some target ->
    selectedLine p = Some line ->
    TrainLine.stations line <> [] ->
    currentStationIndex h < length_of (TrainLine.stations line) ->
    exists h' w',
      feed getDistance onArrive p (first :: rest) h w = Completed (h', w')
      /\ 0 <= currentStationIndex h' < length_of (TrainLine.stations line).
Proof.
  intros p target line first rest h w Ht Hl Hne Hcur.
  destruct (updateLocation_valid_index p target line first h w Ht Hl Hne Hcur)
    as (h1 & w1 & E1 & Hv).
  cbn [feed]. rewrite E1. cbn [bind fst snd].
  clear E1 Hcur. revert h1 w1 Hv.
  induction rest as [|s rest IH]; intros h1 w1 Hv.
  - cbn. eauto.
  - destruct (updateLocation_valid_index p target line s h1 w1 Ht Hl Hne
                ltac:(lia)) as (h2 & w2 & E2 & Hv2).
    cbn [feed]. rewrite E2. cbn [bind fst snd]. apply IH. exact Hv2.
Qed.

(** X11: without a known index there is no debounce: on a line with
    stations the first call adopts the nearest station of the whole line
    at once, however far away it is, and starts with an empty candidate
    and the departed flag unset. *)
Theorem cold_start_adopts_nearest_station :
  forall (p : Props) (target : Station.t) (line : TrainLine.t)
         (sample : LocationSample.t) (h : Hook) (w : W),
    selectedStation p = Some target ->
    selectedLine p = Some line ->
    TrainLine.stations line <> [] ->
    currentStationIndex h < 0 ->
    exists nearestIdx d h' w',
      fullScan getDistance sample (TrainLine.stations line)
      = Completed (nearestIdx, Finite d)
      /\ updateLocation getDistance onArrive p sample h w
         = Completed (h', w')
      /\ currentStationIndex h' = nearestIdx
      /\ stationSwitchCandidate h' = {| idx := -1; hits := 0 |}
      /\ hasDepartedFromCurrentStation h' = false.
Proof.
  intros p target line sample h w Ht Hl Hne Hneg.
  destruct (updateLocation_index getDistance onArrive p sample h w target line
              Ht Hl) as (n & m & h' & w' & Escan & E & C & S & D).
  assert (Hcur : currentStationIndex h < length_of (TrainLine.stations line))
    by (unfold length_of; lia).
  destruct (locateNearest_valid_index getDistance sample _ _ n m Hne Hcur
              Escan) as (Hn & d & ->).
  rewrite locateNearest_unknown_index in Escan by exact Hneg.
  exists n, d, h', w'. split; [exact Escan|]. split; [exact E|].
  destruct (stationIndexUpdate_cold_start (currentStationIndex h) n
              (Finite d) h Hneg ltac:(lia)) as (K1 & K2 & K3).
  rewrite C, S, D. auto.
Qed.

End CurrentStation.

(** ** The sampling tiers and the position source *)

Section PositionSource.

Variable getDistance : Q -> Q -> Q -> Q -> Q.
Context {W : Type}.
Variable onArrive : string -> W -> W.

Lemma updateLocation_isTracking p sample h w h' w' :
  updateLocation getDistance onArrive p sample h w = Completed (h', w') ->
  isTracking h' = isTracking h.
Proof.
  unfold updateLocation.
  destruct (selectedStation p) as [target|];
    [|intros E; inversion E; reflexivity].
  destruct (selectedLine p) as [line|];
    [|intros E; inversion E; reflexivity].
  cbv zeta.
  destruct (locateNearest getDistance sample (TrainLine.stations line)
              (currentStationIndex h)) as [[nearestIdx minDistance]|e];
    [|destruct (arrivalTransition _ _ _ _ _ _); discriminate].
  unfold arrivalTransition, stationIndexUpdate, subscribeWithMode.
  cbv zeta. simpl.
  repeat match goal with
         | |- context [if ?b then _ else _] => destruct b
         end; simpl; intros E; inversion E; reflexivity.
Qed.

Lemma subscribeWithMode_source mode h :
  trackingMode (subscribeWithMode mode h) = mode
  /\ backgroundTask (location (subscribeWithMode mode h))
     = Some (baseOptions mode)
  /\ (orderlyService (location h) ->
      orderlyService (location (subscribeWithMode mode h))).
Proof.
  unfold subscribeWithMode, orderlyService. cbv zeta.
  unfold hasStartedLocationUpdatesAsync.
  destruct h as [tr di ar cu ne mo ca de la sp [task cs]]. cbn.
  destruct task as [options|]; cbn; (split; [reflexivity|]);
    (split; [reflexivity|]); intros [Hrun Hord]; (split; [reflexivity|]).
  - exact Hord.
  - destruct cs as [|[|o] rest]; cbn in *; try discriminate; assumption.
Qed.

(** What a call does to the position source. *)
Lemma updateLocation_source_step p sample h w h' w' :
  updateLocation getDistance onArrive p sample h w = Completed (h', w') ->
  (trackingMode h' = trackingMode h /\ location h' = location h
   /\ (isTracking h = true ->
       forall target line,
         selectedStation p = Some target -> selectedLine p = Some line ->
         resolveModeByDistance (distanceToTarget getDistance target sample)
         = trackingMode h))
  \/ (isTracking h = true
      /\ exists target,
          selectedStation p = Some target
          /\ trackingMode h'
             = resolveModeByDistance
                 (distanceToTarget getDistance target sample)
          /\ trackingMode h' <> trackingMode h
          /\ location h'
             = location (subscribeWithMode (trackingMode h') h)).
Proof.
  intros E.
  destruct (selectedStation p) as [target|] eqn:Ht;
    [|unfold updateLocation in E; rewrite Ht in E; inversion E; subst;
      left; repeat split; intros; discriminate].
  destruct (selectedLine p) as [line|] eqn:Hl;
    [|unfold updateLocation in E; rewrite Ht, Hl in E; inversion E; subst;
      left; repeat split; intros; discriminate].
  destruct (updateLocation_source getDistance onArrive p sample h w target
              line Ht Hl) as (h1 & w1 & E1 & Fm & Fl).
  rewrite E in E1. inversion E1; subst h1 w1. clear E1.
  rewrite Fm, Fl. unfold afterTierStep. cbv zeta.
  set (d := distanceToTarget getDistance target sample).
  cbn [trackingMode isTracking setDistance].
  destruct (DynamicMode_eqb (resolveModeByDistance d) (trackingMode h)) eqn:Eq.
  - apply DynamicMode_eqb_eq in Eq. cbn. left.
    repeat split. intros _ t l Ht' Hl'. inversion Ht'; subst t. exact Eq.
  - cbn [negb andb].
    destruct (isTracking h) eqn:Etr.
    + right. split; [reflexivity|]. exists target. split; [reflexivity|].
      destruct (subscribeWithMode_source (resolveModeByDistance d)
                  (setDistance (Some (Math_floor d)) h)) as (S1 & _).
      rewrite S1. split; [reflexivity|]. split.
      * intros H. apply DynamicMode_eqb_eq in H. congruence.
      * unfold subscribeWithMode. cbv zeta.
        destruct (hasStartedLocationUpdatesAsync _); reflexivity.
    + left. cbn. repeat split. intros; discriminate.
Qed.

(** X13: a hook that is not tracking never touches the position source:
    whatever samples arrive, the background task, the log of its calls
    and the active tier stay as they were. *)
Theorem idle_hook_leaves_position_source :
  forall (p : Props) (samples : list LocationSample.t) (h h' : Hook)
         (w w' : W),
    isTracking h = false ->
    feed getDistance onArrive p samples h w = Completed (h', w') ->
    location h' = location h
    /\ trackingMode h' = trackingMode h
    /\ isTracking h' = false.
Proof.
  intros p samples. induction samples as [|s rest IH];
    intros h h' w w' Htr E.
  - cbn in E. inversion E; subst. auto.
  - cbn [feed] in E.
    destruct (updateLocation getDistance onArrive p s h w)
      as [[h1 w1]|e] eqn:E1; [|discriminate].
    cbn [bind fst snd] in E.
    pose proof (updateLocation_isTracking _ _ _ _ _ _ E1) as Htr1.
    destruct (updateLocation_source_step _ _ _ _ _ _ E1)
      as [(Fm & Fl & _)|(Habs & _)]; [|congruence].
    destruct (IH h1 h' w1 w' ltac:(congruence) E) as (Gl & Gm & Gt).
    repeat split; congruence.
Qed.

Lemma feed_source_invariant p samples :
  forall h h' w w',
    feed getDistance onArrive p samples h w = Completed (h', w') ->
    isTracking h' = isTracking h
    /\ (orderlyService (location h) -> orderlyService (location h'))
    /\ (tierConsistent h -> tierConsistent h').
Proof.
  induction samples as [|s rest IH]; intros h h' w w' E.
  - cbn in E. inversion E; subst. auto.
  - cbn [feed] in E.
    destruct (updateLocation getDistance onArrive p s h w)
      as [[h1 w1]|e] eqn:E1; [|discriminate].
    cbn [bind fst snd] in E.
    pose proof (updateLocation_isTracking _ _ _ _ _ _ E1) as Htr1.
    destruct (IH h1 h' w1 w' E) as (Gt & Go & Gc).
    split; [congruence|].
    destruct (updateLocation_source_step _ _ _ _ _ _ E1)
      as [(Fm & Fl & _)|(_ & target & _ & Fm & _ & Fl)].
    + split; intros H; [apply Go|apply Gc]; unfold tierConsistent in *;
        congruence.
    + destruct (subscribeWithMode_source (trackingMode h1) h)
        as (_ & S2 & S3).
      split; intros H; [apply Go|apply Gc]; unfold tierConsistent in *;
        rewrite Fl; auto.
Qed.

(** X14: the position source is driven in an orderly way.  If the
    background task is what the log of calls says and no start in the log
    follows a start without a stop between them, the same holds after any
    journey: the hook never starts the background task while it is
    running. *)
Theorem position_source_stays_orderly :
  forall (p : Props) (samples : list LocationSample.t) (h h' : Hook)
         (w w' : W),
    orderlyService (location h) ->
    feed getDistance onArrive p samples h w = Completed (h', w') ->
    orderlyService (location h').
Proof.
  intros p samples h h' w w' Ho E.
  destruct (feed_source_invariant p samples h h' w w' E) as (_ & H & _).
  exact (H Ho).
Qed.

End PositionSource.

(** ** The dispatcher *)

(** One call of [sendNotification]: it changes nothing, or it is an
    attempt at least 5000 ms after the previous one, which becomes the
    time of the last attempt and presents at most one notification, and
    exactly when it presents one the latch is set. *)
Lemma sendNotification_cases settings os channel now name phones n :
  let n' := sendNotification settings os channel now name phones n in
  n' = n
  \/ (hasNotified n = false
      /\ NOTIFICATION_COOLDOWN_MS <= now - lastNotificationTime n
      /\ lastNotificationTime n' = now
      /\ ((hasNotified n' = false /\ presented n' = presented n)
          \/ (hasNotified n' = true
              /\ exists content, presented n' = content :: presented n))).
Proof.
  cbv zeta. unfold sendNotification.
  destruct (hasNotified n) eqn:En; [left; reflexivity|].
  destruct (Z.ltb_spec (now - lastNotificationTime n)
              NOTIFICATION_COOLDOWN_MS) as [Hc|Hc]; [left; reflexivity|].
  right. split; [reflexivity|]. split; [exact Hc|].
  destruct (cancelAllScheduledNotificationsAsync_rejects channel) eqn:R1;
    [|destruct (dismissAllNotificationsAsync_rejects channel) eqn:R2;
      [|destruct (scheduleNotificationAsync_rejects channel) eqn:R3]].
  1-3: rewrite dispatch_rejected by auto; cbn; auto.
  destruct (dispatch_resolved settings os channel name phones
              (set_lastNotificationTime now (set_hasNotified true n))
              R1 R2 R3) as (m & content & E & Hn & Hl & Hp).
  rewrite E. split; [exact Hl|]. right. split; [exact Hn|].
  exists content. exact Hp.
Qed.

(** X16: without a reset there is at most one notification.  Whatever
    calls of [sendNotification] are made, at whatever times and with
    whatever channel behaviour, together they present at most one
    notification, and none when the latch is already set. *)
Theorem at_most_one_notification_without_reset :
  forall (settings : AppSettings) (os : OS) (cs : list NotifierCall)
         (n : Notifier),
    forallb isSend cs = true ->
    let n' := runNotifier settings os cs n in
    (hasNotified n = true -> n' = n)
    /\ (presented n' = presented n
        \/ (hasNotified n' = true
            /\ exists content, presented n' = content :: presented n)).
Proof.
  intros settings os cs. induction cs as [|c rest IH]; intros n Hsend.
  - cbn. auto.
  - cbn [forallb] in Hsend. apply andb_true_iff in Hsend.
    destruct Hsend as [Hc Hrest].
    destruct c as [channel now name phones|channel]; [|discriminate].
    cbn [runNotifier].
    destruct (IH (sendNotification settings os channel now name phones n)
                Hrest) as [IH1 IH2].
    destruct (sendNotification_cases settings os channel now name phones n)
      as [Hsame|(Hl & _ & _ & [(Hn & Hp)|(Hn & content & Hp)])].
    + rewrite Hsame in *. split; assumption.
    + split; [congruence|]. rewrite Hp in IH2. exact IH2.
    + split; [congruence|]. rewrite (IH1 Hn). right.
      split; [exact Hn|]. exists content. exact Hp.
Qed.

(** X17: the cooldown is never reset.  Whatever calls of
    [sendNotification] and [resetNotification] are made, every
    notification presented costs 5000 ms of the dispatcher's clock: the
    time of the last attempt advances by at least 5000 ms for each. *)
Theorem notifications_are_spaced_by_cooldown :
  forall (settings : AppSettings) (os : OS) (cs : list NotifierCall)
         (n : Notifier),
    let n' := runNotifier settings os cs n in
    exists added,
      presented n' = added ++ presented n
      /\ 5000 * Z.of_nat (List.length added)
         <= lastNotificationTime n' - lastNotificationTime n.
Proof.
  intros settings os cs. induction cs as [|c rest IH]; intros n.
  - exists []. cbn. split; [reflexivity|lia].
  - destruct c as [channel now name phones|channel]; cbn [runNotifier].
    + destruct (IH (sendNotification settings os channel now name phones n))
        as (added & Hp & Ht).
      cbv zeta in Hp, Ht.
      destruct (sendNotification_cases settings os channel now name phones n)
        as [Hsame|(_ & Hc & Hl & [(_ & Hq)|(_ & content & Hq)])].
      * rewrite Hsame in *. exists added. split; assumption.
      * exists added. rewrite Hq in Hp. split; [exact Hp|].
        unfold NOTIFICATION_COOLDOWN_MS in Hc. lia.
      * exists (added ++ [content]). rewrite Hq in Hp.
        split; [rewrite <- app_assoc; exact Hp|].
        rewrite length_app. cbn [List.length].
        unfold NOTIFICATION_COOLDOWN_MS in Hc. lia.
    + destruct (IH (fst (resetNotification channel n))) as (added & Hp & Ht).
      exists added. cbn in Hp, Ht. split; assumption.
Qed.

(** X18: [resetNotification] re-arms the latch and clears the timers,
    also when the channel rejects its call, but leaves the cooldown
    running: after a reset a dispatch less than 5000 ms after the last
    attempt is still refused; one after the cooldown, on a working
    channel, presents a notification. *)
Theorem reset_rearms_latch_not_cooldown :
  forall (settings : AppSettings) (os : OS) (channel : Channel)
         (n : Notifier),
    let n' := fst (resetNotification channel n) in
    hasNotified n' = false
    /\ extraVibrationTimers n' = []
    /\ lastNotificationTime n' = lastNotificationTime n
    /\ presented n' = presented n
    /\ (forall channel2 now name phones,
           now - lastNotificationTime n < 5000 ->
           sendNotification settings os channel2 now name phones n' = n')
    /\ (forall channel2 now name phones,
           5000 <= now - lastNotificationTime n ->
           cancelAllScheduledNotificationsAsync_rejects channel2 = false ->
           dismissAllNotificationsAsync_rejects channel2 = false ->
           scheduleNotificationAsync_rejects channel2 = false ->
           exists content,
             presented
               (sendNotification settings os channel2 now name phones n')
             = content :: presented n).
Proof.
  intros settings os channel n. cbv zeta. cbn.
  do 4 (split; [reflexivity|]). split.
  - intros channel2 now name phones Hsoon. unfold sendNotification. cbn.
    destruct (Z.ltb_spec (now - lastNotificationTime n)
                NOTIFICATION_COOLDOWN_MS); [reflexivity|].
    unfold NOTIFICATION_COOLDOWN_MS in *. lia.
  - intros channel2 now name phones Hlate R1 R2 R3.
    unfold sendNotification.
    cbn [hasNotified lastNotificationTime set_hasNotified
         set_extraVibrationTimers].
    destruct (Z.ltb_spec (now - lastNotificationTime n)
                NOTIFICATION_COOLDOWN_MS);
      [unfold NOTIFICATION_COOLDOWN_MS in *; lia|].
    match goal with
    | |- context [dispatch ?s ?o ?c ?nm ?ph ?x] =>
        destruct (dispatch_resolved s o c nm ph x R1 R2 R3)
          as (m & content & E & _ & _ & Hp)
    end.
    rewrite E. exists content. rewrite Hp. reflexivity.
Qed.

(** ** The average station spacing *)

Section SpacingProperties.

Variable haversine : Q -> Q -> Q -> Q -> Q.

(** The loop counts the positive segments. *)
Lemma spacingLoop_count previous rest :
  forall sum count,
    snd (spacingLoop haversine previous rest sum count)
    = count
      + Z.of_nat
          (List.length
             (filter (fun d => Qgtb d 0)
                (segmentDistances haversine previous rest))).
Proof.
  revert previous. induction rest as [|current rest IH];
    intros previous sum count.
  - cbn. lia.
  - cbn [spacingLoop segmentDistances filter]. cbv zeta.
    destruct (Qgtb (segmentDistance haversine previous current) 0);
      rewrite IH; cbn [List.length]; lia.
Qed.

(** The sum it builds lies between [lo] and [hi] times the count when the
    positive segments lie between [lo] and [hi], and is positive when the
    count is. *)
Lemma spacingLoop_sum lo hi previous rest :
  forall sum count,
    (lo * inject_Z count <= sum)%Q ->
    (sum <= hi * inject_Z count)%Q ->
    (0 < count -> (0 < sum)%Q) ->
    0 <= count ->
    (forall d, In d (segmentDistances haversine previous rest) ->
               (0 < d)%Q -> (lo <= d /\ d <= hi)%Q) ->
    let r := spacingLoop haversine previous rest sum count in
    (lo * inject_Z (snd r) <= fst r)%Q
    /\ (fst r <= hi * inject_Z (snd r))%Q
    /\ (0 < snd r -> (0 < fst r)%Q).
Proof.
  revert previous. induction rest as [|current rest IH];
    intros previous sum count Hlo Hhi Hpos Hc Hall; cbv zeta.
  - cbn. auto.
  - cbn [spacingLoop segmentDistances]. cbv zeta.
    destruct (Qgtb (segmentDistance haversine previous current) 0) eqn:E;
      [apply Qgtb_spec in E|apply Qgtb_false in E].
    + destruct (Hall _ (or_introl eq_refl) E) as [Hd1 Hd2].
      apply IH.
      * rewrite inject_Z_plus.
        remember (inject_Z count) as c. change (inject_Z 1) with 1%Q.
        clear - Hlo Hd1.
        setoid_replace (lo * (c + 1))%Q with (lo * c + lo)%Q by ring. lra.
      * rewrite inject_Z_plus.
        remember (inject_Z count) as c. change (inject_Z 1) with 1%Q.
        clear - Hhi Hd2.
        setoid_replace (hi * (c + 1))%Q with (hi * c + hi)%Q by ring. lra.
      * intros _.
        assert (0 <= sum)%Q.
        { destruct (Z.eq_dec count 0) as [->|Hne].
          - change (inject_Z 0) with 0%Q in Hlo.
            setoid_replace (lo * 0)%Q with 0%Q in Hlo by ring. exact Hlo.
          - apply Qlt_le_weak. apply Hpos. lia. }
        lra.
      * lia.
      * intros d Hin. apply Hall. right. exact Hin.
    + apply IH; auto.
      intros d Hin. apply Hall. right. exact Hin.
Qed.

Lemma computeAverageStationSpacing_unfold stations :
  computeAverageStationSpacing haversine stations
  = match stations with
    | [] => None
    | first :: rest =>
        if snd (spacingLoop haversine first rest 0%Q 0) =? 0 then None
        else Some (fst (spacingLoop haversine first rest 0%Q 0)
                   / inject_Z (snd (spacingLoop haversine first rest 0%Q 0)))%Q
    end.
Proof.
  unfold computeAverageStationSpacing.
  destruct stations as [|first rest]; [reflexivity|].
  destruct rest as [|second rest].
  - reflexivity.
  - assert (Hlen : (length_of (first :: second :: rest) <? 2) = false).
    { apply Z.ltb_ge. unfold length_of. cbn [List.length]. lia. }
    rewrite Hlen.
    destruct (spacingLoop haversine first (second :: rest) 0%Q 0).
    reflexivity.
Qed.

(** X19: the average spacing is unknown exactly when no segment of the
    line has a positive length: in particular for a line of fewer than two
    stations, and for a line whose stations all lie at one place. *)
Theorem average_spacing_unknown_without_positive_segment :
  forall stations : list Station.t,
    computeAverageStationSpacing haversine stations = None
    <-> Forall (fun d => (d <= 0)%Q) (segmentsOf haversine stations).
Proof.
  intros stations. rewrite computeAverageStationSpacing_unfold.
  destruct stations as [|first rest]; [cbn; split; auto|].
  cbn [segmentsOf]. rewrite spacingLoop_count.
  set (segs := segmentDistances haversine first rest).
  assert (Hfilter : filter (fun d => Qgtb d 0) segs = []
                    <-> Forall (fun d => (d <= 0)%Q) segs).
  { induction segs as [|d segs IH]; cbn [filter].
    - split; auto.
    - destruct (Qgtb d 0) eqn:E;
        [apply Qgtb_spec in E|apply Qgtb_false in E].
      + split; [discriminate|]. intros H. inversion H; subst. lra.
      + rewrite IH. split; intros H; [constructor; assumption|].
        inversion H; assumption. }
  rewrite <- Hfilter.
  destruct (filter (fun d => Qgtb d 0) segs) as [|d ds]; cbn.
  - split; auto.
  - split; [|discriminate].
    destruct (Z.eqb_spec (0 + Z.pos (Pos.of_succ_nat (List.length ds))) 0);
      [lia|discriminate].
Qed.

(** X20: a known average spacing is positive and lies between the
    shortest and the longest positive segment: if every positive segment
    of the line measures between [lo] and [hi], so does the average.
    Segments that are not positive (two stations at one place) do not
    count. *)
Theorem average_spacing_between_extremes :
  forall (stations : list Station.t) (avg lo hi : Q),
    computeAverageStationSpacing haversine stations = Some avg ->
    (forall d, In d (segmentsOf haversine stations) ->
               (0 < d)%Q -> (lo <= d /\ d <= hi)%Q) ->
    (0 < avg)%Q /\ (lo <= avg)%Q /\ (avg <= hi)%Q.
Proof.
  intros stations avg lo hi E Hall.
  rewrite computeAverageStationSpacing_unfold in E.
  destruct stations as [|first rest]; [discriminate|].
  cbn [segmentsOf] in Hall.
  assert (Hsum := spacingLoop_sum lo hi first rest 0%Q 0).
  cbv zeta in Hsum.
  destruct Hsum as (H1 & H2 & H3);
    [change (inject_Z 0) with 0%Q; lra|change (inject_Z 0) with 0%Q; lra
    |intros; lia|lia|exact Hall|].
  pose proof (spacingLoop_count first rest 0%Q 0) as Hcount.
  destruct (Z.eqb_spec (snd (spacingLoop haversine first rest 0%Q 0)) 0)
    as [Hz|Hnz]; [discriminate|].
  inversion E as [Eavg]. clear E.
  set (s := fst (spacingLoop haversine first rest 0%Q 0)) in *.
  set (c := snd (spacingLoop haversine first rest 0%Q 0)) in *.
  assert (Hc : 0 < c) by lia.
  assert (Hcq : (0 < inject_Z c)%Q)
    by (change 0%Q with (inject_Z 0); rewrite <- Zlt_Qlt; exact Hc).
  specialize (H3 Hc).
  repeat split.
  - apply Qlt_shift_div_l; [exact Hcq|]. lra.
  - apply Qle_shift_div_l; [exact Hcq|]. exact H1.
  - apply Qle_shift_div_r; [exact Hcq|]. exact H2.
Qed.

End SpacingProperties.

(** ** Starting and stopping a session *)

Section SessionProperties.

Variable getDistance : Q -> Q -> Q -> Q -> Q.
Context {W : Type}.
Variable onArrive : string -> W -> W.

(** ** The background task *)

Lemma backgroundLocationTask_decision error locations store channel
    stopRejects :
  (forall b,
      backgroundLocationTask getDistance error locations store channel
        stopRejects b = b)
  \/ exists content,
      forall b,
        backgroundLocationTask getDistance error locations store channel
          stopRejects b
        = mkBackground (content :: backgroundPresented b)
            (if stopRejects then backgroundLocation b
             else stopLocationUpdatesAsync (backgroundLocation b)).
Proof.
  unfold backgroundLocationTask.
  destruct error; [left; reflexivity|].
  destruct (SelectedTargetStation store); [|left; reflexivity].
  destruct locations; [left; reflexivity|]. cbv zeta.
  destruct (Qleb _ _); [|left; reflexivity].
  destruct (scheduleNotificationAsync_rejects channel); cbn;
    [left; reflexivity|right; eauto].
Qed.

Lemma deliverAllToBackground_stopped store deliveries b :
  hasStartedLocationUpdatesAsync (backgroundLocation b) = false ->
  deliverAllToBackground getDistance store deliveries b = b.
Proof.
  intros Hstopped.
  induction deliveries as [|[[[error locations] channel] stopRejects] rest IH];
    [reflexivity|].
  cbn [deliverAllToBackground deliverToBackground].
  rewrite Hstopped. exact IH.
Qed.

(** X24: the background path alerts once when the updates can be
    stopped, and again and again when they cannot.  If
    [stopLocationUpdatesAsync] resolves whenever the task calls it, then
    whatever batches the platform delivers while the updates run, the
    task presents at most one notification, and when it has presented one
    the updates are stopped.  If the call rejects, the rejection is
    swallowed and the updates keep running: a batch that made the task
    alert makes it alert again when it is delivered again. *)
Theorem background_alerts_once_when_updates_stop :
  (forall (store : AsyncStorage)
          (deliveries : list (bool * list LocationSample.t * Channel * bool))
          (b : Background),
      Forall (fun delivery => snd delivery = false) deliveries ->
      let b' := deliverAllToBackground getDistance store deliveries b in
      b' = b
      \/ exists content,
          backgroundPresented b' = content :: backgroundPresented b
          /\ backgroundTask (backgroundLocation b') = None)
  /\ (forall (store : AsyncStorage) (error : bool)
             (locations : list LocationSample.t) (channel : Channel)
             (b : Background) (content : NotificationContent),
        hasStartedLocationUpdatesAsync (backgroundLocation b) = true ->
        backgroundPresented
          (backgroundLocationTask getDistance error locations store channel
             true b)
        = content :: backgroundPresented b ->
        let b' :=
          deliverAllToBackground getDistance store
            [(error, locations, channel, true);
             (error, locations, channel, true)] b in
        backgroundPresented b' = content :: content :: backgroundPresented b
        /\ backgroundLocation b' = backgroundLocation b).
Proof.
  split.
  - intros store deliveries. cbv zeta.
    induction deliveries
      as [|[[[error locations] channel] stopRejects] rest IH];
      intros b Hstops.
    + left. reflexivity.
    + inversion Hstops as [|d ds Hstop Hrest]; subst. cbn in Hstop. subst.
      cbn [deliverAllToBackground deliverToBackground].
      destruct (hasStartedLocationUpdatesAsync (backgroundLocation b)) eqn:Es;
        [|apply IH; assumption].
      destruct (backgroundLocationTask_decision error locations store channel
                  false) as [Hsame|(content & Hfired)].
      * rewrite Hsame. apply IH. assumption.
      * rewrite Hfired. right. exists content.
        rewrite deliverAllToBackground_stopped by reflexivity.
        cbn. auto.
  - intros store error locations channel b content Hruns Hfirst. cbv zeta.
    cbn [deliverAllToBackground deliverToBackground]. rewrite Hruns.
    destruct (backgroundLocationTask_decision error locations store channel
                true) as [Hsame|(content' & Hfired)].
    + rewrite Hsame in Hfirst. exfalso.
      apply (f_equal (@List.length _)) in Hfirst. cbn in Hfirst. lia.
    + rewrite Hfired in Hfirst. cbn in Hfirst.
      injection Hfirst as ->.
      rewrite Hfired. cbn [backgroundLocation]. rewrite Hruns.
      rewrite Hfired. cbn. auto.
Qed.


End SessionProperties.

(** ** The fallback colour of a line *)

Lemma ToInt32_congruent x : ToInt32 x mod 2 ^ 32 = x mod 2 ^ 32.
Proof.
  unfold ToInt32. cbv zeta.
  destruct (Z.ltb_spec (x mod 2 ^ 32) (2 ^ 31)).
  - apply Z.mod_mod. lia.
  - replace (x mod 2 ^ 32 - 2 ^ 32) with (x mod 2 ^ 32 + (-1) * 2 ^ 32)
      by lia.
    rewrite Z.mod_add by lia. apply Z.mod_mod. lia.
Qed.

Lemma ToInt32_small x : 0 <= x < 2 ^ 31 -> ToInt32 x = x.
Proof.
  intros H. unfold ToInt32. cbv zeta.
  rewrite Z.mod_small by lia.
  destruct (Z.ltb_spec x (2 ^ 31)); lia.
Qed.

Lemma congruent_mod_2_24 x y :
  x mod 2 ^ 32 = y mod 2 ^ 32 -> x mod 2 ^ 24 = y mod 2 ^ 24.
Proof.
  intros H.
  rewrite (Z.div_mod x (2 ^ 32)), (Z.div_mod y (2 ^ 32)), H by lia.
  replace (2 ^ 32) with (2 ^ 8 * 2 ^ 24) by reflexivity.
  rewrite <- !Z.mul_assoc, !(Z.mul_comm (2 ^ 24)), !Z.mul_assoc.
  rewrite !(Z.add_comm (_ * 2 ^ 24)), !Z.mod_add by lia.
  reflexivity.
Qed.

Lemma hashLoop_polynomial name :
  forall hash acc,
    hash mod 2 ^ 32 = acc mod 2 ^ 32 ->
    hashLoop name hash mod 2 ^ 32 = polynomialHash name acc mod 2 ^ 32.
Proof.
  induction name as [|code rest IH]; intros hash acc H; [exact H|].
  cbn [hashLoop polynomialHash]. apply IH.
  unfold shiftLeft.
  rewrite Z.shiftl_mul_pow2 by lia.
  rewrite Z.add_mod, Zminus_mod, ToInt32_congruent by lia.
  rewrite (Z.mul_mod (ToInt32 hash)), ToInt32_congruent by lia.
  rewrite <- Z.mul_mod, <- Zminus_mod, <- Z.add_mod by lia.
  replace (code + (hash * 2 ^ 5 - hash)) with (code + 31 * hash) by lia.
  rewrite Z.add_comm.
  rewrite Z.add_mod, Z.mul_mod, H, <- Z.mul_mod, <- Z.add_mod by lia.
  reflexivity.
Qed.

Lemma bitAnd_low_24 hash :
  bitAnd hash 16777215 = hash mod 2 ^ 24.
Proof.
  unfold bitAnd. rewrite (ToInt32_small 16777215) by lia.
  change 16777215 with (Z.ones 24).
  rewrite Z.land_ones by lia.
  assert (0 <= ToInt32 hash mod 2 ^ 24 < 2 ^ 24)
    by (apply Z.mod_pos_bound; lia).
  rewrite ToInt32_small by lia.
  apply congruent_mod_2_24, ToInt32_congruent.
Qed.

Lemma parseHexFrom_append s1 s2 :
  forall acc,
    parseHexFrom acc (s1 ++ s2)%string
    = parseHexFrom (parseHexFrom acc s1) s2.
Proof. induction s1 as [|c s1 IH]; intros acc; cbn; auto. Qed.

Lemma toUpperCase_append s1 s2 :
  toUpperCase (s1 ++ s2)%string
  = (toUpperCase s1 ++ toUpperCase s2)%string.
Proof. induction s1 as [|c s1 IH]; cbn; [|rewrite IH]; reflexivity. Qed.

Lemma allUpperHexDigits_append s1 s2 :
  allUpperHexDigits (s1 ++ s2)%string
  = allUpperHexDigits s1 && allUpperHexDigits s2.
Proof.
  induction s1 as [|c s1 IH]; cbn; [reflexivity|].
  rewrite IH, andb_assoc. reflexivity.
Qed.

Lemma string_length_append s1 s2 :
  String.length (s1 ++ s2)%string
  = (String.length s1 + String.length s2)%nat.
Proof. induction s1 as [|c s1 IH]; cbn; [|rewrite IH]; reflexivity. Qed.

Lemma append_assoc s1 s2 s3 :
  ((s1 ++ s2) ++ s3)%string = (s1 ++ (s2 ++ s3))%string.
Proof. induction s1 as [|c s1 IH]; cbn; [|rewrite IH]; reflexivity. Qed.

Lemma digitChar_reads_back d :
  0 <= d < 16 ->
  digitValue (upperChar (digitChar d)) = d
  /\ isUpperHexDigit (upperChar (digitChar d)) = true.
Proof.
  intros H.
  assert (d = 0 \/ d = 1 \/ d = 2 \/ d = 3 \/ d = 4 \/ d = 5 \/ d = 6
          \/ d = 7 \/ d = 8 \/ d = 9 \/ d = 10 \/ d = 11 \/ d = 12
          \/ d = 13 \/ d = 14 \/ d = 15) as Hd by lia.
  repeat (destruct Hd as [->|Hd]; [split; reflexivity|]).
  subst d. split; reflexivity.
Qed.

(** The digits [toString16_from] puts before [acc]: as many as the value
    needs, all hexadecimal digits once in upper case, and reading them
    gives the value back. *)
Lemma toString16_from_digits fuel :
  forall v acc,
    0 <= v < 16 ^ Z.of_nat fuel ->
    exists digits,
      toString16_from fuel v acc = (digits ++ acc)%string
      /\ (v = 0 -> fuel = O -> digits = EmptyString)
      /\ (fuel <> O ->
          (1 <= String.length digits)%nat
          /\ (String.length digits = 1%nat
              \/ 16 ^ (Z.of_nat (String.length digits) - 1) <= v))
      /\ allUpperHexDigits (toUpperCase digits) = true
      /\ forall a,
          parseHexFrom a (toUpperCase digits)
          = a * 16 ^ Z.of_nat (String.length digits) + v.
Proof.
  induction fuel as [|fuel IH]; intros v acc Hv.
  - exists EmptyString. cbn in *. repeat split; try congruence.
    intros a. lia.
  - cbn [toString16_from]. cbv zeta.
    assert (Hd : 0 <= v mod 16 < 16) by (apply Z.mod_pos_bound; lia).
    destruct (digitChar_reads_back (v mod 16) Hd) as [Hread Hhex].
    destruct (Z.ltb_spec v 16) as [Hsmall|Hbig].
    + exists (String (digitChar (v mod 16)) EmptyString).
      split; [reflexivity|]. split; [discriminate|].
      split; [intros _; cbn; split; [lia|left; reflexivity]|].
      split; [cbn; rewrite Hhex; reflexivity|].
      intros a. cbn [parseHexFrom toUpperCase String.length].
      rewrite Hread. rewrite Z.mod_small by lia.
      change (Z.of_nat 1) with 1. lia.
    + assert (Hfuel : fuel <> O).
      { intros ->. cbn in Hv. lia. }
      assert (Hq : 0 <= v / 16 < 16 ^ Z.of_nat fuel).
      { split; [apply Z.div_pos; lia|].
        apply Z.div_lt_upper_bound; [lia|].
        rewrite Nat2Z.inj_succ, Z.pow_succ_r in Hv by lia. lia. }
      destruct (IH (v / 16) (String (digitChar (v mod 16)) acc) Hq)
        as (digits & E & _ & Hlen & Hall & Hparse).
      destruct (Hlen Hfuel) as [Hlen1 Hlen2].
      exists (digits ++ String (digitChar (v mod 16)) EmptyString)%string.
      split; [rewrite E, append_assoc; reflexivity|].
      split; [intros; discriminate|].
      rewrite string_length_append. cbn [String.length].
      split.
      { intros _. split; [lia|]. right.
        replace (Z.of_nat (String.length digits + 1) - 1)
          with (Z.succ (Z.of_nat (String.length digits) - 1)) by lia.
        rewrite Z.pow_succ_r by lia.
        destruct Hlen2 as [H1|Hge].
        - rewrite H1. cbn. lia.
        - pose proof (Z.mul_div_le v 16 ltac:(lia)). lia. }
      split.
      { rewrite toUpperCase_append, allUpperHexDigits_append, Hall.
        cbn. rewrite Hhex. reflexivity. }
      intros a.
      rewrite toUpperCase_append, parseHexFrom_append, Hparse.
      cbn [parseHexFrom toUpperCase]. rewrite Hread.
      replace (Z.of_nat (String.length digits + 1))
        with (Z.succ (Z.of_nat (String.length digits))) by lia.
      rewrite Z.pow_succ_r by lia.
      pose proof (Z.div_mod v 16 ltac:(lia)). lia.
Qed.

Lemma append_empty s : (s ++ "")%string = s.
Proof. induction s as [|c s IH]; cbn; [|rewrite IH]; reflexivity. Qed.

Lemma toUpperCase_length s : String.length (toUpperCase s) = String.length s.
Proof. induction s as [|c s IH]; cbn; [|rewrite IH]; reflexivity. Qed.

(** The upper-case digits of a value below 16^6: between one and six of
    them, which read back as the value. *)
Lemma toString16_upper v :
  0 <= v < 16 ^ 6 ->
  let value := toUpperCase (toString16 v) in
  (1 <= String.length value <= 6)%nat
  /\ allUpperHexDigits value = true
  /\ forall a,
      parseHexFrom a value = a * 16 ^ Z.of_nat (String.length value) + v.
Proof.
  intros Hv. cbv zeta. unfold toString16.
  assert (Hfuel : 0 <= v < 16 ^ Z.of_nat (S (Z.to_nat (Z.log2 v)))).
  { split; [lia|].
    rewrite Nat2Z.inj_succ, Z2Nat.id by apply Z.log2_nonneg.
    destruct (Z.eq_dec v 0) as [->|Hne]; [cbn; lia|].
    pose proof (Z.log2_spec v ltac:(lia)) as [_ Hlt].
    apply Z.lt_le_trans with (2 ^ Z.succ (Z.log2 v)); [exact Hlt|].
    apply Z.pow_le_mono_l. lia. }
  destruct (toString16_from_digits _ v EmptyString Hfuel)
    as (digits & E & _ & Hlen & Hall & Hparse).
  rewrite E, append_empty, toUpperCase_length.
  destruct (Hlen ltac:(discriminate)) as [Hlen1 Hlen2].
  split; [|split; assumption].
  split; [exact Hlen1|].
  destruct Hlen2 as [->|Hge]; [lia|].
  destruct (Nat.le_gt_cases (String.length digits) 6) as [Hle|Hgt];
    [exact Hle|].
  exfalso.
  assert (16 ^ 6 <= 16 ^ (Z.of_nat (String.length digits) - 1))
    by (apply Z.pow_le_mono_r; lia).
  lia.
Qed.

Lemma zero_padding n :
  0 <= n <= 5 ->
  String.length (substringFromStart "00000" n) = Z.to_nat n
  /\ allUpperHexDigits (substringFromStart "00000" n) = true
  /\ parseHexFrom 0 (substringFromStart "00000" n) = 0.
Proof.
  intros H.
  assert (n = 0 \/ n = 1 \/ n = 2 \/ n = 3 \/ n = 4 \/ n = 5) as Hn by lia.
  repeat (destruct Hn as [->|Hn]; [repeat split; reflexivity|]).
  subst n. repeat split; reflexivity.
Qed.

(** X26: the fallback colour of a line is [#] followed by six upper-case
    hexadecimal digits, whatever the name (also the empty one), and these
    digits read as the polynomial hash of the name, in which every code
    unit weighs 31 times the following one, modulo 2^24. *)
Theorem fallback_colour_is_hash_in_six_digits :
  forall name : list Z,
    exists digits,
      createFallbackColor name = String "#" digits
      /\ String.length digits = 6%nat
      /\ allUpperHexDigits digits = true
      /\ parseHexFrom 0 digits = polynomialHash name 0 mod 2 ^ 24.
Proof.
  intros name. unfold createFallbackColor. cbv zeta.
  rewrite bitAnd_low_24.
  rewrite (congruent_mod_2_24 _ _ (hashLoop_polynomial name 0 0 eq_refl)).
  set (v := polynomialHash name 0 mod 2 ^ 24).
  assert (Hv : 0 <= v < 16 ^ 6)
    by (change (16 ^ 6) with (2 ^ 24); apply Z.mod_pos_bound; lia).
  destruct (toString16_upper v Hv) as ((Hlo & Hhi) & Hall & Hparse).
  set (value := toUpperCase (toString16 v)) in *.
  exists (substringFromStart "00000" (6 - Z.of_nat (String.length value))
          ++ value)%string.
  split; [reflexivity|].
  rewrite string_length_append, allUpperHexDigits_append,
    parseHexFrom_append.
  destruct (zero_padding (6 - Z.of_nat (String.length value)) ltac:(lia))
    as (P1 & P2 & P3).
  rewrite P1, P2, P3, Hall, Hparse.
  split; [lia|]. split; [reflexivity|lia].
Qed.

(** ** The saved lines *)

Lemma existsb_eqb_In (x : string) (seen : list string) :
  existsb (String.eqb x) seen = true <-> In x seen.
Proof.
  rewrite existsb_exists. split.
  - intros (y & Hin & Heq). apply String.eqb_eq in Heq. now subst.
  - intros Hin. exists x. split; [assumption|apply String.eqb_refl].
Qed.

Lemma insertionOrder_In (xs seen : list string) (x : string) :
  In x (insertionOrder seen xs) <-> In x xs /\ ~ In x seen.
Proof.
  revert seen. induction xs as [|y rest IH]; intros seen; cbn.
  - tauto.
  - destruct (existsb (String.eqb y) seen) eqn:Hseen.
    + apply existsb_eqb_In in Hseen. rewrite IH. split.
      * intros [H1 H2]. tauto.
      * intros [[->|H1] H2]; [contradiction|tauto].
    + assert (Hnot : ~ In y seen).
      { intros Hin. apply existsb_eqb_In in Hin. congruence. }
      cbn. rewrite IH. cbn. split.
      * intros [->|[H1 H2]]; [tauto|]. split; [tauto|]. intros Hin.
        apply H2. now right.
      * intros [[->|H1] H2]; [now left|].
        destruct (string_dec y x) as [->|Hne]; [now left|].
        right. split; [assumption|]. intros [?|?]; contradiction.
Qed.

Lemma insertionOrder_NoDup (xs seen : list string) :
  NoDup (insertionOrder seen xs).
Proof.
  revert seen. induction xs as [|y rest IH]; intros seen; cbn.
  - constructor.
  - destruct (existsb (String.eqb y) seen); [apply IH|].
    constructor; [|apply IH].
    rewrite insertionOrder_In. cbn. tauto.
Qed.

Lemma truthyLines_In (lines : list (option string)) (l : string) :
  In l (truthyLines lines) <-> l <> EmptyString /\ In (Some l) lines.
Proof.
  induction lines as [|line rest IH]; cbn.
  - tauto.
  - destruct line as [[|c text]|]; cbn.
    + rewrite IH. split.
      * intros [H1 H2]. tauto.
      * intros [H1 [H2|H2]]; [congruence|tauto].
    + rewrite IH. split.
      * intros [<-|[H1 H2]]; [split; [discriminate|now left]|tauto].
      * intros [H1 [H2|H2]]; [left; congruence|tauto].
    + rewrite IH. split.
      * intros [H1 H2]. tauto.
      * intros [H1 [H2|H2]]; [discriminate|tauto].
Qed.

Lemma isEmptyString_false (s : string) :
  s <> EmptyString -> isEmptyString s = false.
Proof. destruct s; [congruence|reflexivity]. Qed.

Lemma saved_name_test (lineName : string) (lines : list TrainLine.t) :
  existsb (fun line => String.eqb (TrainLine.name line) lineName) lines = true
  <-> In lineName (map TrainLine.name lines).
Proof.
  rewrite existsb_exists, in_map_iff. split.
  - intros (line & Hin & Heq). apply String.eqb_eq in Heq. now exists line.
  - intros (line & Heq & Hin). exists line. split; [assumption|].
    now apply String.eqb_eq.
Qed.

(** X27.  A station search that is answered offers every line that some
    returned station names (the empty name apart), each line once; that
    list is also the new [foundLines], the loading flag is lowered again
    and the saved lines are untouched. *)
Theorem search_offers_each_line_once (stationName : string)
    (stations : list HeartRailsStation.t) (d : TrainData) :
  stationName <> EmptyString ->
  let result :=
    searchLinesFromStation stationName (Completed (Some stations)) d in
  NoDup (snd result)
  /\ (forall l, In l (snd result) <->
        l <> EmptyString
        /\ exists station,
             In station stations /\ HeartRailsStation.line station = Some l)
  /\ foundLines (fst result) = snd result
  /\ isLoadingAPI (fst result) = false
  /\ savedLines (fst result) = savedLines d.
Proof.
  intros Hname. unfold searchLinesFromStation.
  rewrite (isEmptyString_false _ Hname). cbn.
  split; [apply insertionOrder_NoDup|].
  split; [|repeat split].
  intros l. unfold arrayFromSet. rewrite insertionOrder_In, truthyLines_In.
  rewrite in_map_iff. cbn. split.
  - intros [[H1 (station & H2 & H3)] _]. split; [assumption|].
    now exists station.
  - intros [H1 (station & H2 & H3)]. split; [|tauto]. split; [assumption|].
    now exists station.
Qed.

Section DownloadProperties.

Variable parseFloat : string -> Q.
Variable resolveLineColor : option (string -> option string).
Variable charCodes : string -> list Z.

Lemma downloadLine_cases (now lineName : string)
    (response : outcome (option (list HeartRailsStation.t)))
    (storageRejects : bool) (d : TrainData) :
  let result :=
    downloadLine parseFloat resolveLineColor charCodes now lineName response
      storageRejects d in
  (snd result = None
   /\ savedLines (fst result) = savedLines d
   /\ savedLinesItem (fst result) = savedLinesItem d
   /\ (lineName = EmptyString
       \/ (exists e, response = Threw e)
       \/ response = Completed None
       \/ response = Completed (Some [])
       \/ In lineName (map TrainLine.name (savedLines d))
       \/ storageRejects = true))
  \/ (exists stationsRaw,
        response = Completed (Some stationsRaw)
        /\ stationsRaw <> []
        /\ lineName <> EmptyString
        /\ ~ In lineName (map TrainLine.name (savedLines d))
        /\ storageRejects = false
        /\ snd result =
             Some (TrainLine.mk now lineName
                     (map (stationOfRaw parseFloat) stationsRaw)
                     (colorOf resolveLineColor charCodes lineName))
        /\ savedLines (fst result) =
             savedLines d
             ++ [TrainLine.mk now lineName
                   (map (stationOfRaw parseFloat) stationsRaw)
                   (colorOf resolveLineColor charCodes lineName)]
        /\ savedLinesItem (fst result) = Some (savedLines (fst result))
        /\ foundLines (fst result) = []
        /\ isLoadingAPI (fst result) = false).
Proof.
  unfold downloadLine.
  destruct lineName as [|c text] eqn:Hname; cbn [isEmptyString].
  { left. cbn. tauto. }
  rewrite <- Hname.
  assert (Hne : lineName <> EmptyString) by (subst; discriminate).
  clear Hname.
  destruct response as [[[|station rest]|]|e]; cbn zeta.
  - left. cbn. repeat split; tauto.
  - cbn [TrainLine.name].
    destruct (existsb _ (savedLines (setIsLoadingAPI true d))) eqn:Hsaved.
    + left. cbn. repeat split.
      apply saved_name_test in Hsaved. cbn in Hsaved. tauto.
    + assert (Hnot : ~ In lineName (map TrainLine.name (savedLines d))).
      { intros Hin. apply saved_name_test in Hin. cbn in Hsaved. congruence. }
      unfold saveLines, channelCall.
      destruct storageRejects; cbn.
      * left. repeat split. tauto.
      * right. exists (station :: rest). repeat split; try assumption.
        discriminate.
  - left. cbn. repeat split; tauto.
  - left. cbn. repeat split. right. left. now exists e.
Qed.

(** X28.  A download never leaves two saved lines of one name: if the
    saved names are distinct before [downloadLine], they are distinct
    after it, whatever the service answered and whether or not the store
    accepted the write. *)
Theorem download_keeps_line_names_distinct (now lineName : string)
    (response : outcome (option (list HeartRailsStation.t)))
    (storageRejects : bool) (d : TrainData) :
  NoDup (map TrainLine.name (savedLines d)) ->
  NoDup
    (map TrainLine.name
       (savedLines
          (fst (downloadLine parseFloat resolveLineColor charCodes now
                  lineName response storageRejects d)))).
Proof.
  intros Hdistinct.
  destruct (downloadLine_cases now lineName response storageRejects d)
    as [(_ & Hsame & _)|(raw & _ & _ & _ & Hnot & _ & _ & Hsaved & _)].
  - now rewrite Hsame.
  - rewrite Hsaved, map_app. cbn.
    apply NoDup_app; [assumption|constructor; [tauto|constructor]|].
    intros x Hin [<-|[]]. contradiction.
Qed.

(** X29.  [downloadLine] returns a line exactly when the name is not
    empty, the service returned at least one station, no saved line has
    that name and the store accepted the write; in every other case it
    returns [null] and neither the saved lines nor the stored item
    change. *)
Theorem download_returns_a_line_exactly_when_saved (now lineName : string)
    (response : outcome (option (list HeartRailsStation.t)))
    (storageRejects : bool) (d : TrainData) :
  let result :=
    downloadLine parseFloat resolveLineColor charCodes now lineName response
      storageRejects d in
  (snd result <> None <->
     lineName <> EmptyString
     /\ (exists station rest, response = Completed (Some (station :: rest)))
     /\ ~ In lineName (map TrainLine.name (savedLines d))
     /\ storageRejects = false)
  /\ (snd result = None ->
      savedLines (fst result) = savedLines d
      /\ savedLinesItem (fst result) = savedLinesItem d).
Proof.
  destruct (downloadLine_cases now lineName response storageRejects d)
    as [(Hnone & Hsame & Hitem & Hwhy)
       |(raw & Hresp & Hraw & Hname & Hnot & Hstore & Hsome & _)];
    cbv zeta.
  - split; [|tauto]. split; [congruence|].
    intros (H1 & (station & rest & H2) & H3 & H4).
    destruct Hwhy as [H|[(e & H)|[H|[H|[H|H]]]]]; try congruence;
      contradiction.
  - split; [|congruence]. split; [|congruence].
    intros _. repeat split; try assumption.
    destruct raw as [|station rest]; [congruence|].
    now exists station, rest.
Qed.

(** X30.  A line that [downloadLine] returns is the last of the saved
    lines, is what the store now holds, bears the requested name, and has
    one station per station of the answer, in the same order and with the
    same names. *)
Theorem downloaded_line_is_appended (now lineName : string)
    (response : outcome (option (list HeartRailsStation.t)))
    (storageRejects : bool) (d : TrainData) (newLine : TrainLine.t) :
  snd (downloadLine parseFloat resolveLineColor charCodes now lineName
         response storageRejects d) = Some newLine ->
  let d' :=
    fst (downloadLine parseFloat resolveLineColor charCodes now lineName
           response storageRejects d) in
  savedLines d' = savedLines d ++ [newLine]
  /\ savedLinesItem d' = Some (savedLines d')
  /\ TrainLine.name newLine = lineName
  /\ exists stationsRaw,
       response = Completed (Some stationsRaw)
       /\ map Station.name (TrainLine.stations newLine) =
            map HeartRailsStation.name stationsRaw.
Proof.
  intros Hsome.
  destruct (downloadLine_cases now lineName response storageRejects d)
    as [(Hnone & _)
       |(raw & Hresp & _ & _ & _ & _ & Hnew & Hsaved & Hitem & _)];
    cbv zeta.
  - congruence.
  - rewrite Hnew in Hsome. injection Hsome as <-.
    split; [assumption|]. split; [assumption|]. split; [reflexivity|].
    exists raw. split; [assumption|]. cbn. rewrite map_map. reflexivity.
Qed.

End DownloadProperties.

(** ** The hook as it runs: stale closures and a platform that rejects *)

Section LiveProperties.

Variable getDistance : Q -> Q -> Q -> Q -> Q.
Context {W : Type}.
Variable onArrive : string -> W -> W.

Lemma Resolved_injective {S : Type} (a b : S) :
  Resolved a = Resolved b -> a = b.
Proof. intros H. injection H as ->. reflexivity. Qed.

Lemma Live_subscribeWithMode_lets platform mode h :
  platformLetsSubscribe platform h = true ->
  Live.subscribeWithMode platform mode h
  = Resolved (subscribeWithMode mode h).
Proof.
  unfold platformLetsSubscribe, Live.subscribeWithMode, subscribeWithMode,
    await, andThen.
  cbv zeta.
  change (location (set_trackingMode mode h)) with (location h).
  destruct (hasStartedLocationUpdatesAsync_rejects platform); cbn;
    [discriminate|].
  destruct (hasStartedLocationUpdatesAsync (location h));
    destruct (stopLocationUpdatesAsync_rejects platform); cbn;
    try discriminate;
    destruct (startLocationUpdatesAsync_rejects platform); cbn;
    try discriminate; reflexivity.
Qed.

Lemma Live_subscribeWithMode_stops platform mode h :
  platformLetsSubscribe platform h = false ->
  exists h',
    Live.subscribeWithMode platform mode h = Rejected PlatformRejection h'.
Proof.
  unfold platformLetsSubscribe, Live.subscribeWithMode, await, andThen.
  cbv zeta.
  change (location (set_trackingMode mode h)) with (location h).
  destruct (hasStartedLocationUpdatesAsync_rejects platform); cbn;
    [eauto|].
  destruct (hasStartedLocationUpdatesAsync (location h));
    destruct (stopLocationUpdatesAsync_rejects platform); cbn;
    eauto;
    destruct (startLocationUpdatesAsync_rejects platform); cbn;
    eauto; discriminate.
Qed.

(** What [subscribeWithMode] leaves alone, however it ends. *)
Lemma Live_subscribeWithMode_frame platform mode h :
  let h' := stateOf (Live.subscribeWithMode platform mode h) in
  isTracking h' = isTracking h
  /\ isArrived h' = isArrived h
  /\ hasTriggeredArrivalNotification h' = hasTriggeredArrivalNotification h
  /\ currentStationIndex h' = currentStationIndex h
  /\ stationSwitchCandidate h' = stationSwitchCandidate h
  /\ hasDepartedFromCurrentStation h' = hasDepartedFromCurrentStation h
  /\ lineAverageSpacing h' = lineAverageSpacing h
  /\ distance h' = distance h
  /\ trackingMode h' = mode.
Proof.
  unfold Live.subscribeWithMode, await, andThen. cbv zeta.
  destruct (hasStartedLocationUpdatesAsync_rejects platform); cbn;
    [repeat split|].
  destruct (hasStartedLocationUpdatesAsync (location h));
    destruct (stopLocationUpdatesAsync_rejects platform); cbn;
    try (repeat split; fail);
    destruct (startLocationUpdatesAsync_rejects platform); cbn;
    repeat split.
Qed.

(** A call whose closure does not read that the hook is tracking makes
    no call of the platform: it is the arrival branch, the scan and the
    update of the index, with the index the closure reads. *)
Lemma Live_updateLocation_idle render platform sample h w target line :
  selectedStation (closureProps render) = Some target ->
  selectedLine (closureProps render) = Some line ->
  closureIsTracking render = false ->
  let dist := distanceToTarget getDistance target sample in
  let eff :=
    computeEffectiveArrivalThreshold (baseThresholdOf (closureProps render))
      (LocationSample.speedMps sample) (lineAverageSpacing h) in
  let arrival :=
    arrivalTransition onArrive target dist eff
      (setDistance (Some (Math_floor dist)) h) w in
  exists nearestIdx minDistance,
    locateNearest getDistance sample (TrainLine.stations line)
      (closureCurrentStationIndex render) = Completed (nearestIdx, minDistance)
    /\ Live.updateLocation getDistance onArrive render platform sample h w
       = Resolved
           (stationIndexUpdate (closureCurrentStationIndex render) nearestIdx
              minDistance
              (setNearestStationDistance (Some (xnum_floor minDistance))
                 (fst arrival)),
            snd arrival).
Proof.
  intros Ht Hl Hidle dist eff arrival.
  destruct (locateNearest_completes getDistance sample
              (TrainLine.stations line) (closureCurrentStationIndex render))
    as (nearestIdx & minDistance & E).
  exists nearestIdx, minDistance. split; [exact E|].
  unfold Live.updateLocation. rewrite Ht, Hl, Hidle. cbv zeta.
  rewrite Bool.andb_false_r.
  fold (distanceToTarget getDistance target sample). fold dist.
  fold (baseThresholdOf (closureProps render)).
  change (lineAverageSpacing (setDistance (Some (Math_floor dist)) h))
    with (lineAverageSpacing h).
  fold eff. fold arrival.
  destruct arrival as [h1 w1]. rewrite E. reflexivity.
Qed.

(** The closure of the latest render on a platform that lets
    [subscribeWithMode] through: the call is the [updateLocation] of the
    sections above. *)
Lemma Live_updateLocation_fresh p platform sample h w :
  platformLetsSubscribe platform h = true ->
  exists h' w',
    updateLocation getDistance onArrive p sample h w = Completed (h', w')
    /\ Live.updateLocation getDistance onArrive (renderOf p h) platform
         sample h w
       = Resolved (h', w').
Proof.
  intros Hlets.
  unfold updateLocation, Live.updateLocation, renderOf.
  cbn [closureProps closureIsTracking closureCurrentStationIndex].
  destruct (selectedStation p) as [target|]; [|eauto].
  destruct (selectedLine p) as [line|]; [|eauto].
  cbv zeta.
  set (dist := getDistance _ _ _ _).
  change (isTracking (setDistance (Some (Math_floor dist)) h))
    with (isTracking h).
  destruct (negb _ && isTracking h).
  - rewrite Live_subscribeWithMode_lets by exact Hlets.
    destruct (arrivalTransition _ _ _ _ _ _) as [h1 w1].
    destruct (locateNearest_completes getDistance sample
                (TrainLine.stations line) (currentStationIndex h))
      as (nearestIdx & minDistance & E).
    rewrite E. cbn. eauto.
  - destruct (arrivalTransition _ _ _ _ _ _) as [h1 w1].
    destruct (locateNearest_completes getDistance sample
                (TrainLine.stations line) (currentStationIndex h))
      as (nearestIdx & minDistance & E).
    rewrite E. cbn. eauto.
Qed.

Lemma Live_updateLocation_idle_frame render platform sample h w :
  closureIsTracking render = false ->
  exists h' w',
    Live.updateLocation getDistance onArrive render platform sample h w
    = Resolved (h', w')
    /\ isTracking h' = isTracking h
    /\ trackingMode h' = trackingMode h
    /\ location h' = location h
    /\ lineAverageSpacing h' = lineAverageSpacing h.
Proof.
  intros Hidle.
  destruct (selectedStation (closureProps render)) as [target|] eqn:Ht;
    [|unfold Live.updateLocation; rewrite Ht; eauto 10].
  destruct (selectedLine (closureProps render)) as [line|] eqn:Hl;
    [|unfold Live.updateLocation; rewrite Ht, Hl; eauto 10].
  destruct (Live_updateLocation_idle render platform sample h w target line
              Ht Hl Hidle) as (nearestIdx & minDistance & _ & E).
  cbv zeta in E. rewrite E. do 2 eexists. split; [reflexivity|].
  unfold arrivalTransition, stationIndexUpdate. cbv zeta.
  repeat match goal with
         | |- context [if ?b then _ else _] => destruct b
         end; cbn; repeat split.
Qed.

(** X7: a call of [updateLocation] ends in an error only when the
    platform rejects a change of tier.  The scan never reads [stations]
    outside its bounds, for no line, sample or index.  A call whose
    closure does not read that the hook is tracking, or that runs on a
    platform that lets [subscribeWithMode] through, resolves.  A call
    that rejects does so with the rejection of the platform, its closure
    reads that the hook is tracking, the tier of the distance differs
    from the active tier, and the call stops before the arrival branch:
    the active tier is already the new one, while the arrival flag, the
    latch, the current station and the caller's world are as they were;
    and with such a closure, tier and platform the call does reject. *)
Theorem sample_rejected_only_by_platform_on_tier_change :
  forall (render : Closure) (platform : Platform)
         (sample : LocationSample.t) (h : Hook) (w : W),
    (forall stations currentStationIndex,
        exists nearestIdx minDistance,
          locateNearest getDistance sample stations currentStationIndex
          = Completed (nearestIdx, minDistance))
    /\ (closureIsTracking render = false
        \/ platformLetsSubscribe platform h = true ->
        exists h' w',
          Live.updateLocation getDistance onArrive render platform sample h w
          = Resolved (h', w'))
    /\ (forall e h' w',
           Live.updateLocation getDistance onArrive render platform sample h w
           = Rejected e (h', w') ->
           e = PlatformRejection
           /\ closureIsTracking render = true
           /\ platformLetsSubscribe platform h = false
           /\ (exists target,
                  selectedStation (closureProps render) = Some target
                  /\ trackingMode h'
                     = resolveModeByDistance
                         (distanceToTarget getDistance target sample)
                  /\ trackingMode h' <> trackingMode h)
           /\ isArrived h' = isArrived h
           /\ hasTriggeredArrivalNotification h'
              = hasTriggeredArrivalNotification h
           /\ currentStationIndex h' = currentStationIndex h
           /\ w' = w)
    /\ (forall target line,
           selectedStation (closureProps render) = Some target ->
           selectedLine (closureProps render) = Some line ->
           closureIsTracking render = true ->
           resolveModeByDistance (distanceToTarget getDistance target sample)
           <> trackingMode h ->
           platformLetsSubscribe platform h = false ->
           exists h',
             Live.updateLocation getDistance onArrive render platform sample
               h w
             = Rejected PlatformRejection (h', w)).
Proof.
  intros render platform sample h w.
  split; [intros; apply locateNearest_completes|].
  destruct (selectedStation (closureProps render)) as [target|] eqn:Ht.
  2:{ unfold Live.updateLocation. rewrite Ht.
      split; [eauto|]. split; [discriminate|]. discriminate. }
  destruct (selectedLine (closureProps render)) as [line|] eqn:Hl.
  2:{ unfold Live.updateLocation. rewrite Ht, Hl.
      split; [eauto|]. split; [discriminate|]. discriminate. }
  assert (Hscan := locateNearest_completes getDistance sample
                      (TrainLine.stations line)
                      (closureCurrentStationIndex render)).
  destruct Hscan as (nearestIdx & minDistance & Escan).
  unfold Live.updateLocation. rewrite Ht, Hl, Escan. cbv zeta.
  fold (distanceToTarget getDistance target sample).
  set (dist := distanceToTarget getDistance target sample).
  set (h0 := setDistance (Some (Math_floor dist)) h).
  change (trackingMode h0) with (trackingMode h).
  assert (Hlets0 : platformLetsSubscribe platform h0
                   = platformLetsSubscribe platform h) by reflexivity.
  destruct (DynamicMode_eqb (resolveModeByDistance dist) (trackingMode h))
    eqn:Emode; cbn [negb andb].
  - (* the tier is the active one *)
    apply DynamicMode_eqb_eq in Emode.
    destruct (arrivalTransition _ _ _ _ _ _) as [h2 w2].
    split; [eauto|]. split; [discriminate|].
    intros target' line' Ht' _ _ Hdiff. injection Ht' as <-.
    exfalso. apply Hdiff. exact Emode.
  - destruct (closureIsTracking render) eqn:Etr.
    + destruct (platformLetsSubscribe platform h) eqn:Elets.
      * rewrite Live_subscribeWithMode_lets by exact Hlets0.
        destruct (arrivalTransition _ _ _ _ _ _) as [h2 w2].
        split; [eauto|]. split; [discriminate|intros; congruence].
      * destruct (Live_subscribeWithMode_stops platform
                    (resolveModeByDistance dist) h0 Hlets0) as (h1 & E1).
        pose proof (Live_subscribeWithMode_frame platform
                      (resolveModeByDistance dist) h0) as Hframe.
        cbv zeta in Hframe. rewrite E1 in Hframe. cbn [stateOf] in Hframe.
        destruct Hframe as (_ & Fa & Fl & Fc & _ & _ & _ & _ & Fm).
        rewrite E1.
        split; [intros [Habs|Habs]; discriminate|].
        split.
        -- intros e h' w' E. injection E as <- <- <-.
           split; [reflexivity|]. split; [reflexivity|].
           split; [reflexivity|].
           split.
           { exists target. split; [reflexivity|]. split; [exact Fm|].
             rewrite Fm. intros Heq.
             apply DynamicMode_eqb_eq in Heq. congruence. }
           repeat split; assumption.
        -- intros target' line' _ _ _ _ _. eauto.
    + destruct (arrivalTransition _ _ _ _ _ _) as [h2 w2].
      split; [eauto|]. split; [discriminate|intros; discriminate].
Qed.

Lemma fullScan_index_nonnegative sample stations nearestIdx minDistance :
  fullScan getDistance sample stations = Completed (nearestIdx, minDistance) ->
  0 <= nearestIdx.
Proof.
  intros E.
  rewrite <- (locateNearest_unknown_index getDistance sample stations (-1))
    in E by lia.
  destruct stations as [|station rest].
  - rewrite locateNearest_no_stations in E. cbn in E.
    injection E as <- _. lia.
  - destruct (locateNearest_valid_index getDistance sample
                (station :: rest) (-1) nearestIdx minDistance
                ltac:(discriminate)
                ltac:(unfold length_of; cbn [List.length]; lia) E)
      as (Hn & _).
    lia.
Qed.

(** One position of a session whose callback reads no current station. *)
Lemma deliver_stale p target line platform sample t w :
  staleWatch p t ->
  selectedStation p = Some target ->
  selectedLine p = Some line ->
  exists nearestIdx minDistance h' w',
    fullScan getDistance sample (TrainLine.stations line)
    = Completed (nearestIdx, minDistance)
    /\ Live.deliver getDistance onArrive platform sample t w
       = Resolved (set_hook h' t, w')
    /\ currentStationIndex h' = nearestIdx
    /\ stationSwitchCandidate h' = {| idx := -1; hits := 0 |}
    /\ hasDepartedFromCurrentStation h' = false
    /\ isTracking h' = isTracking (hook t)
    /\ trackingMode h' = trackingMode (hook t)
    /\ location h' = location (hook t)
    /\ lineAverageSpacing h' = lineAverageSpacing (hook t).
Proof.
  intros (watch & Hwatch & Hprops & Hidle & Hunknown) Ht Hl.
  rewrite <- Hprops in Ht, Hl.
  destruct (Live_updateLocation_idle (watchCallback watch) platform sample
              (hook t) w target line Ht Hl Hidle)
    as (nearestIdx & minDistance & Escan & E).
  cbv zeta in E.
  destruct (Live_updateLocation_idle_frame (watchCallback watch) platform
              sample (hook t) w Hidle)
    as (h' & w' & E' & Ftr & Fmode & Floc & Fsp).
  rewrite locateNearest_unknown_index in Escan by exact Hunknown.
  exists nearestIdx, minDistance, h', w'.
  split; [exact Escan|].
  split; [unfold Live.deliver; rewrite Hwatch, E'; reflexivity|].
  rewrite E in E'.
  apply Resolved_injective, (f_equal fst) in E'. cbn [fst] in E'.
  rename E' into E1.
  pose proof (fullScan_index_nonnegative _ _ _ _ Escan) as Hn.
  destruct (stationIndexUpdate_cold_start
              (closureCurrentStationIndex (watchCallback watch))
              nearestIdx minDistance
              (setNearestStationDistance (Some (xnum_floor minDistance))
                 (fst (arrivalTransition onArrive target
                         (distanceToTarget getDistance target sample)
                         (computeEffectiveArrivalThreshold
                            (baseThresholdOf
                               (closureProps (watchCallback watch)))
                            (LocationSample.speedMps sample)
                            (lineAverageSpacing (hook t)))
                         (setDistance
                            (Some
                               (Math_floor
                                  (distanceToTarget getDistance target
                                     sample))) (hook t)) w)))
              Hunknown Hn) as (K1 & K2 & K3).
  cbv zeta in K1, K2, K3. rewrite E1 in K1, K2, K3.
  repeat split; assumption.
Qed.

Lemma staleWatch_set_hook p h t :
  staleWatch p t -> staleWatch p (set_hook h t).
Proof. intros (watch & H); exists watch; exact H. Qed.

Lemma session_sample_adopts_nearest_station_step :
  forall (p : Props) (target : Station.t) (line : TrainLine.t)
         (platform : Platform) (sample : LocationSample.t) (t : Tracker)
         (w : W),
    staleWatch p t ->
    selectedStation p = Some target ->
    selectedLine p = Some line ->
    TrainLine.stations line <> [] ->
    exists nearestIdx d t' w',
      fullScan getDistance sample (TrainLine.stations line)
      = Completed (nearestIdx, Finite d)
      /\ Live.deliver getDistance onArrive platform sample t w
         = Resolved (t', w')
      /\ currentStationIndex (hook t') = nearestIdx
      /\ stationSwitchCandidate (hook t') = {| idx := -1; hits := 0 |}
      /\ hasDepartedFromCurrentStation (hook t') = false.
Proof.
  intros p target line platform sample t w Hstale Ht Hl Hne.
  destruct (deliver_stale p target line platform sample t w Hstale Ht Hl)
    as (nearestIdx & minDistance & h' & w' & Escan & E & C1 & C2 & C3 & _).
  assert (Hfinite : exists d, minDistance = Finite d).
  { rewrite <- (locateNearest_unknown_index getDistance sample
                  (TrainLine.stations line) (-1)) in Escan by lia.
    destruct (locateNearest_valid_index getDistance sample
                (TrainLine.stations line) (-1) nearestIdx minDistance Hne
                ltac:(unfold length_of; lia) Escan) as (_ & Hd).
    exact Hd. }
  destruct Hfinite as (d & ->).
  exists nearestIdx, d, (set_hook h' t), w'.
  split; [exact Escan|]. split; [exact E|].
  cbn [hook set_hook].
  split; [exact C1|]. split; [exact C2|]. exact C3.
Qed.

(** X10: in a session every position is a cold start.  The callback of
    the foreground watch is the one of the render [startTracking] was
    called from; when that render was not tracking and showed no current
    station, the callback reads no current station for as long as the
    watch lives.  On a line with stations each position then makes the
    nearest station of the whole line the current station at once,
    whatever the current station was, however far the two are apart and
    whatever the platform does, and leaves the candidate empty and the
    departed flag unset. *)
Theorem session_sample_adopts_nearest_station :
  forall (p : Props) (target : Station.t) (line : TrainLine.t)
         (platform : Platform) (sample : LocationSample.t) (t : Tracker)
         (w : W),
    staleWatch p t ->
    selectedStation p = Some target ->
    selectedLine p = Some line ->
    TrainLine.stations line <> [] ->
    exists nearestIdx d t' w',
      fullScan getDistance sample (TrainLine.stations line)
      = Completed (nearestIdx, Finite d)
      /\ Live.deliver getDistance onArrive platform sample t w
         = Resolved (t', w')
      /\ currentStationIndex (hook t') = nearestIdx
      /\ stationSwitchCandidate (hook t') = {| idx := -1; hits := 0 |}
      /\ hasDepartedFromCurrentStation (hook t') = false
      /\ staleWatch p t'.
Proof.
  intros p target line platform sample t w Hstale Ht Hl Hne.
  destruct (session_sample_adopts_nearest_station_step p target line
              platform sample t w Hstale Ht Hl Hne)
    as (nearestIdx & d & t' & w' & Escan & E & C1 & C2 & C3).
  exists nearestIdx, d, t', w'.
  split; [exact Escan|]. split; [exact E|].
  split; [exact C1|]. split; [exact C2|]. split; [exact C3|].
  destruct (deliver_stale p target line platform sample t w Hstale Ht Hl)
    as (n & m & h' & w'' & _ & E' & _).
  rewrite E in E'. injection E' as -> _.
  apply staleWatch_set_hook. exact Hstale.
Qed.

(** What a journey of a session leaves alone, and that its watch stays
    what it is. *)
Lemma deliverAll_stale p target line deliveries :
  selectedStation p = Some target ->
  selectedLine p = Some line ->
  forall t w,
    staleWatch p t ->
    let r := Live.deliverAll getDistance onArrive deliveries t w in
    staleWatch p (fst r)
    /\ foregroundWatchSubscription (fst r) = foregroundWatchSubscription t
    /\ storage (fst r) = storage t
    /\ alerts (fst r) = alerts t
    /\ isTracking (hook (fst r)) = isTracking (hook t)
    /\ trackingMode (hook (fst r)) = trackingMode (hook t)
    /\ location (hook (fst r)) = location (hook t)
    /\ lineAverageSpacing (hook (fst r)) = lineAverageSpacing (hook t).
Proof.
  intros Ht Hl.
  induction deliveries as [|[platform sample] rest IH]; intros t w Hstale.
  - cbn. repeat split. exact Hstale.
  - cbn [Live.deliverAll].
    destruct (deliver_stale p target line platform sample t w Hstale Ht Hl)
      as (n & m & h' & w' & _ & E & _ & _ & _ & F1 & F2 & F3 & F4).
    rewrite E. cbn [stateOf].
    destruct (IH (set_hook h' t) w' (staleWatch_set_hook p h' t Hstale))
      as (G0 & G1 & G2 & G3 & G4 & G5 & G6 & G7).
    cbv zeta in *. cbn [hook set_hook foregroundWatchSubscription storage
                        alerts] in *.
    repeat split; try assumption; congruence.
Qed.

Lemma deliverAll_app deliveries1 deliveries2 t w :
  Live.deliverAll getDistance onArrive (deliveries1 ++ deliveries2) t w
  = Live.deliverAll getDistance onArrive deliveries2
      (fst (Live.deliverAll getDistance onArrive deliveries1 t w))
      (snd (Live.deliverAll getDistance onArrive deliveries1 t w)).
Proof.
  revert t w.
  induction deliveries1 as [|[platform sample] rest IH]; intros t w.
  - reflexivity.
  - cbn [app Live.deliverAll].
    destruct (stateOf _) as [t1 w1]. apply IH.
Qed.

(** X12: a session keeps no history of stations.  After any journey of
    a session whose callback reads no current station, the current
    station is the station of the whole line nearest to the last
    position, the candidate is empty and the departed flag is unset:
    neither the debounce nor the departure gate ever engages, and what
    came before the last position has no part in the current station. *)
Theorem session_keeps_no_station_history :
  forall (p : Props) (target : Station.t) (line : TrainLine.t)
         (deliveries : list (Platform * LocationSample.t))
         (lastPlatform : Platform) (lastSample : LocationSample.t)
         (t : Tracker) (w : W),
    staleWatch p t ->
    selectedStation p = Some target ->
    selectedLine p = Some line ->
    TrainLine.stations line <> [] ->
    let r :=
      Live.deliverAll getDistance onArrive
        (deliveries ++ [(lastPlatform, lastSample)]) t w in
    (exists d,
        fullScan getDistance lastSample (TrainLine.stations line)
        = Completed (currentStationIndex (hook (fst r)), Finite d))
    /\ stationSwitchCandidate (hook (fst r)) = {| idx := -1; hits := 0 |}
    /\ hasDepartedFromCurrentStation (hook (fst r)) = false.
Proof.
  intros p target line deliveries lastPlatform lastSample t w
         Hstale Ht Hl Hne.
  cbv zeta. rewrite deliverAll_app.
  destruct (deliverAll_stale p target line deliveries Ht Hl t w Hstale)
    as (Hstale1 & _).
  destruct (Live.deliverAll getDistance onArrive deliveries t w)
    as [t1 w1].
  cbn [fst snd] in *.
  destruct (session_sample_adopts_nearest_station_step p target line
              lastPlatform lastSample t1 w1 Hstale1 Ht Hl Hne)
    as (nearestIdx & d & t' & w' & Escan & E & C1 & C2 & C3).
  cbn [Live.deliverAll]. rewrite E. cbn [stateOf fst].
  split; [exists d; rewrite C1; exact Escan|].
  split; assumption.
Qed.

(** X15: in a session the active tier never follows the distance.  The
    callback of the watch reads that the hook is not tracking, as it was
    when [startTracking] was called, so no position makes it call
    [subscribeWithMode]: whatever the distances of a journey and whatever
    the platform does, the active tier, the background task and the log
    of the calls of the position source are after the journey what they
    were before it, while the hook itself says that it is tracking or
    not as before. *)
Theorem session_tier_never_changes :
  forall (p : Props) (target : Station.t) (line : TrainLine.t)
         (deliveries : list (Platform * LocationSample.t))
         (t : Tracker) (w : W),
    staleWatch p t ->
    selectedStation p = Some target ->
    selectedLine p = Some line ->
    let r := Live.deliverAll getDistance onArrive deliveries t w in
    trackingMode (hook (fst r)) = trackingMode (hook t)
    /\ location (hook (fst r)) = location (hook t)
    /\ isTracking (hook (fst r)) = isTracking (hook t)
    /\ foregroundWatchSubscription (fst r) = foregroundWatchSubscription t.
Proof.
  intros p target line deliveries t w Hstale Ht Hl.
  destruct (deliverAll_stale p target line deliveries Ht Hl t w Hstale)
    as (_ & G1 & _ & _ & G4 & G5 & G6 & _).
  cbv zeta in *. repeat split; assumption.
Qed.

(** *** Starting and stopping *)

Lemma platformLetsStart_fields platform h :
  platformLetsStart platform h = true ->
  getForegroundPermissionsAsync platform = Completed true
  /\ getBackgroundPermissionsAsync platform = Completed true
  /\ (exists current, getCurrentPositionAsync platform = Completed current)
  /\ setItem_SelectedTargetStation_rejects platform = false
  /\ setItem_SelectedLineMeta_rejects platform = false
  /\ platformLetsSubscribe platform h = true
  /\ watchPositionAsync_rejects platform = false
  /\ permissionMissing platform = false.
Proof.
  unfold platformLetsStart, permissionMissing.
  destruct (getForegroundPermissionsAsync platform) as [[|]|];
    try discriminate;
    destruct (getBackgroundPermissionsAsync platform) as [[|]|];
    try discriminate;
    destruct (getCurrentPositionAsync platform) as [current|];
    try discriminate.
  destruct (setItem_SelectedTargetStation_rejects platform);
    try discriminate;
    destruct (setItem_SelectedLineMeta_rejects platform);
    try discriminate;
    destruct (platformLetsSubscribe platform h);
    try discriminate;
    destruct (watchPositionAsync_rejects platform);
    try discriminate.
  intros _. repeat split. eauto.
Qed.

Lemma tryStartTracking_started p target line platform current t w :
  isTracking (hook t) = false ->
  platformLetsStart platform (hook t) = true ->
  getCurrentPositionAsync platform = Completed current ->
  exists h' w',
    Live.updateLocation getDistance onArrive (renderOf p (hook t)) platform
      current (preparedForStart getDistance line (hook t)) w
    = Resolved (h', w')
    /\ Live.tryStartTracking getDistance onArrive p target line platform t w
       = Resolved
           (mkTracker h'
              (Some (mkWatch nearWatchOptions (renderOf p (hook t))))
              (setSelectedLineMeta
                 (Some (computeAverageStationSpacing getDistance
                          (TrainLine.stations line)))
                 (setSelectedTargetStation (Some target) (storage t)))
              (alerts t),
            w').
Proof.
  intros Hidle Hlets Hcurrent.
  destruct (platformLetsStart_fields platform (hook t) Hlets)
    as (Hfg & Hbg & _ & Hs1 & Hs2 & Hsub & Hwatch & _).
  destruct (Live_updateLocation_idle_frame (renderOf p (hook t)) platform
              current (preparedForStart getDistance line (hook t)) w Hidle)
    as (h' & w' & E & _).
  exists h', w'. split; [exact E|].
  unfold Live.tryStartTracking.
  rewrite Hfg, Hbg, Hs1, Hs2, Hwatch, Hcurrent. cbn [negb orb]. cbv zeta.
  rewrite Live_subscribeWithMode_lets by exact Hsub.
  cbn [hook set_hook set_foregroundWatchSubscription set_storage storage
       alerts foregroundWatchSubscription lineAverageSpacing
       set_lineAverageSpacing].
  fold (preparedForStart getDistance line (hook t)).
  rewrite E. reflexivity.
Qed.

Lemma tryStartTracking_denied p target line platform t w :
  permissionMissing platform = true ->
  Live.tryStartTracking getDistance onArrive p target line platform t w
  = Resolved
      (alert "権限エラー"
         "位置情報が「常に許可」になっていません。設定アプリから位置情報権限を変更してください。"
         t,
       w).
Proof.
  unfold permissionMissing, Live.tryStartTracking.
  destruct (getForegroundPermissionsAsync platform) as [fg|];
    [|discriminate].
  destruct (getBackgroundPermissionsAsync platform) as [bg|];
    [|discriminate].
  intros ->. reflexivity.
Qed.

Lemma tryStartTracking_rejected p target line platform t w :
  permissionMissing platform = false ->
  platformLetsStart platform (hook t) = false ->
  exists e t',
    Live.tryStartTracking getDistance onArrive p target line platform t w
    = Rejected e (t', w)
    /\ alerts t' = alerts t
    /\ currentStationIndex (hook t') = currentStationIndex (hook t).
Proof.
  unfold permissionMissing, platformLetsStart, Live.tryStartTracking.
  destruct (getForegroundPermissionsAsync platform) as [fg|e];
    [|intros _ _; exists e, t; repeat split].
  destruct (getBackgroundPermissionsAsync platform) as [bg|e];
    [|intros _ _; exists e, t; repeat split].
  intros Hgranted. rewrite Hgranted.
  apply Bool.orb_false_elim in Hgranted. destruct Hgranted as [Hfg Hbg].
  apply Bool.negb_false_iff in Hfg, Hbg. subst fg bg. cbv zeta.
  destruct (setItem_SelectedTargetStation_rejects platform);
    [intros _; cbn; do 2 eexists; split; [reflexivity|]; split; reflexivity|].
  destruct (setItem_SelectedLineMeta_rejects platform);
    [intros _; cbn; do 2 eexists; split; [reflexivity|]; split; reflexivity|].
  cbn [orb negb andb].
  match goal with
  | |- context [Live.subscribeWithMode platform near ?x] => set (h0 := x)
  end.
  assert (Hsame : platformLetsSubscribe platform h0
                  = platformLetsSubscribe platform (hook t)) by reflexivity.
  destruct (platformLetsSubscribe platform (hook t)) eqn:Hsub.
  - rewrite Live_subscribeWithMode_lets by exact Hsame.
    destruct (watchPositionAsync_rejects platform);
      [intros _; cbn; do 2 eexists; split; [reflexivity|]; split;
       [reflexivity|];
       unfold subscribeWithMode; cbv zeta;
       destruct (hasStartedLocationUpdatesAsync _); reflexivity|].
    cbn [negb andb].
    destruct (getCurrentPositionAsync platform) as [current|e];
      [discriminate|].
    intros _. cbn. do 2 eexists. split; [reflexivity|].
    split; [reflexivity|].
    unfold subscribeWithMode. cbv zeta.
    destruct (hasStartedLocationUpdatesAsync _); reflexivity.
  - intros _.
    destruct (Live_subscribeWithMode_stops platform near h0 Hsame)
      as (h1 & E1).
    pose proof (Live_subscribeWithMode_frame platform near h0) as Hframe.
    cbv zeta in Hframe. rewrite E1 in Hframe. cbn [stateOf] in Hframe.
    destruct Hframe as (_ & _ & _ & Fc & _).
    rewrite E1. do 2 eexists. split; [reflexivity|].
    split; [reflexivity|]. cbn [hook set_hook]. rewrite Fc. reflexivity.
Qed.

Lemma preparedForStart_fields line h :
  isTracking (preparedForStart getDistance line h) = true
  /\ trackingMode (preparedForStart getDistance line h) = near
  /\ backgroundTask (location (preparedForStart getDistance line h))
     = Some (baseOptions near)
  /\ lineAverageSpacing (preparedForStart getDistance line h)
     = computeAverageStationSpacing getDistance (TrainLine.stations line)
  /\ currentStationIndex (preparedForStart getDistance line h)
     = currentStationIndex h.
Proof.
  unfold preparedForStart, subscribeWithMode. cbv zeta.
  destruct (hasStartedLocationUpdatesAsync _); cbn; repeat split.
Qed.

(** A call that reads the current station the hook shows leaves a valid
    current station. *)
Lemma Live_updateLocation_valid_index render platform sample h w target
    line :
  selectedStation (closureProps render) = Some target ->
  selectedLine (closureProps render) = Some line ->
  closureIsTracking render = false ->
  TrainLine.stations line <> [] ->
  closureCurrentStationIndex render < length_of (TrainLine.stations line) ->
  currentStationIndex h = closureCurrentStationIndex render ->
  exists h' w',
    Live.updateLocation getDistance onArrive render platform sample h w
    = Resolved (h', w')
    /\ 0 <= currentStationIndex h' < length_of (TrainLine.stations line).
Proof.
  intros Ht Hl Hidle Hne Hcur Hsame.
  destruct (Live_updateLocation_idle render platform sample h w target line
              Ht Hl Hidle) as (n & m & Escan & E).
  cbv zeta in E. rewrite E. do 2 eexists. split; [reflexivity|].
  destruct (locateNearest_valid_index getDistance sample _ _ n m Hne Hcur
              Escan) as (Hn & _).
  match goal with
  | |- context [stationIndexUpdate ?c ?a ?b ?y] =>
      assert (Hx : currentStationIndex y = c);
      [|generalize dependent y; intros x _ Hx]
  end.
  { cbn [currentStationIndex setNearestStationDistance].
    match goal with
    | |- context [arrivalTransition onArrive ?a ?b ?c ?x ?y] =>
        destruct (arrivalTransition_index onArrive a b c x y) as (K & _)
    end.
    cbv zeta in K. rewrite K. exact Hsame. }
  destruct (Z.ltb_spec (closureCurrentStationIndex render) 0) as [Hneg|Hpos].
  - destruct (stationIndexUpdate_cold_start
                (closureCurrentStationIndex render) n m x Hneg ltac:(lia))
      as (K & _).
    cbv zeta in K. rewrite K. exact Hn.
  - destruct (stationIndexUpdate_choice (closureCurrentStationIndex render)
                n m x Hx) as [K|(K & _)]; cbv zeta in K; rewrite K; lia.
Qed.

Variable messageOf : JsError -> string.

(** X21: [startTracking] creates a session only with a target, a line,
    both permissions and a platform on which every call it makes
    resolves.  Called from a render that is not tracking, it ends
    tracking exactly in that case.  Without a target or a line nothing
    happens at all.  With a permission missing the user gets the
    permission alert and nothing else changes.  When a call rejects, the
    [catch] block ends the start not tracking with the start-error alert,
    the caller's world and the current station as they were; what the
    [try] block did before the rejection stays: when it is the position
    request that rejects, the store holds the target, the background task
    runs and the foreground watch is registered although the hook is not
    tracking. *)
Theorem start_needs_selection_permissions_and_platform :
  forall (p : Props) (platform : Platform) (t : Tracker) (w : W),
    isTracking (hook t) = false ->
    let r := Live.startTracking getDistance onArrive messageOf p platform t w in
    (isTracking (hook (fst r)) = true
     <-> (selectedStation p <> None /\ selectedLine p <> None
          /\ platformLetsStart platform (hook t) = true))
    /\ (selectedStation p = None \/ selectedLine p = None -> r = (t, w))
    /\ (selectedStation p <> None -> selectedLine p <> None ->
        permissionMissing platform = true ->
        r = (alert "権限エラー"
               "位置情報が「常に許可」になっていません。設定アプリから位置情報権限を変更してください。"
               t,
             w))
    /\ (selectedStation p <> None -> selectedLine p <> None ->
        permissionMissing platform = false ->
        platformLetsStart platform (hook t) = false ->
        isTracking (hook (fst r)) = false
        /\ snd r = w
        /\ currentStationIndex (hook (fst r)) = currentStationIndex (hook t)
        /\ exists e,
            alerts (fst r)
            = ("トラッキング起動エラー"%string, messageOf e) :: alerts t)
    /\ (forall target e,
           selectedStation p = Some target -> selectedLine p <> None ->
           getForegroundPermissionsAsync platform = Completed true ->
           getBackgroundPermissionsAsync platform = Completed true ->
           setItem_SelectedTargetStation_rejects platform = false ->
           setItem_SelectedLineMeta_rejects platform = false ->
           platformLetsSubscribe platform (hook t) = true ->
           watchPositionAsync_rejects platform = false ->
           getCurrentPositionAsync platform = Threw e ->
           isTracking (hook (fst r)) = false
           /\ SelectedTargetStation (storage (fst r)) = Some target
           /\ backgroundTask (location (hook (fst r)))
              = Some (baseOptions near)
           /\ foregroundWatchSubscription (fst r)
              = Some (mkWatch nearWatchOptions (renderOf p (hook t)))).
Proof.
  intros p platform t w Hidle. cbv zeta. unfold Live.startTracking.
  destruct (selectedStation p) as [target|] eqn:Ht.
  2:{ cbn [fst snd]. rewrite Hidle.
      split; [split; [discriminate|intros (H & _); contradiction]|].
      split; [reflexivity|].
      split; [intros H; contradiction|].
      split; [intros H; contradiction|].
      intros; discriminate. }
  destruct (selectedLine p) as [line|] eqn:Hl.
  2:{ cbn [fst snd]. rewrite Hidle.
      split; [split; [discriminate|intros (_ & H & _); contradiction]|].
      split; [reflexivity|].
      split; [intros _ H; contradiction|].
      split; [intros _ H; contradiction|].
      intros ? ? _ H; contradiction. }
  destruct (platformLetsStart platform (hook t)) eqn:Hlets.
  - (* the start goes through *)
    destruct (platformLetsStart_fields platform (hook t) Hlets)
      as (Hfg & Hbg & (current & Hcurrent) & Hs1 & Hs2 & Hsub & Hwatch
          & Hmissing).
    destruct (tryStartTracking_started p target line platform current t w
                Hidle Hlets Hcurrent) as (h' & w' & Eu & E).
    destruct (Live_updateLocation_idle_frame (renderOf p (hook t)) platform
                current (preparedForStart getDistance line (hook t)) w Hidle)
      as (h'' & w'' & Eu' & Ftr & _).
    rewrite Eu in Eu'. injection Eu' as <- <-.
    rewrite E. cbn [fst snd hook].
    assert (Htracking : isTracking h' = true).
    { rewrite Ftr. unfold preparedForStart, subscribeWithMode. cbv zeta.
      destruct (hasStartedLocationUpdatesAsync _); reflexivity. }
    split; [split; [intros _; repeat split; discriminate|intros _; exact Htracking]|].
    split; [intros [H|H]; discriminate|].
    split; [intros _ _ H; congruence|].
    split; [intros _ _ _ H; discriminate|].
    intros target' e _ _ _ _ _ _ _ _ H. congruence.
  - destruct (permissionMissing platform) eqn:Hmissing.
    + rewrite tryStartTracking_denied by exact Hmissing.
      cbn [fst snd hook alert]. rewrite Hidle.
      split; [split; [discriminate|intros (_ & _ & H); discriminate]|].
      split; [intros [H|H]; discriminate|].
      split; [reflexivity|].
      split; [intros _ _ H; discriminate|].
      intros target' e _ _ Hfg Hbg. exfalso.
      unfold permissionMissing in Hmissing. rewrite Hfg, Hbg in Hmissing.
      discriminate.
    + destruct (tryStartTracking_rejected p target line platform t w
                  Hmissing Hlets) as (e & t' & E & Ha & Hc).
      rewrite E. cbn [fst snd hook alert set_hook setIsTracking isTracking
                      currentStationIndex alerts].
      split; [split; [discriminate|intros (_ & _ & H); discriminate]|].
      split; [intros [H|H]; discriminate|].
      split; [intros _ _ H; discriminate|].
      split.
      { intros _ _ _ _. split; [reflexivity|]. split; [reflexivity|].
        split; [exact Hc|]. exists e. rewrite Ha. reflexivity. }
      intros target' e' Ht' _ Hfg Hbg Hs1 Hs2 Hsub Hwatch Hcurrent.
      injection Ht' as <-.
      revert E. unfold Live.tryStartTracking.
      rewrite Hfg, Hbg, Hs1, Hs2, Hwatch, Hcurrent. cbn [negb orb]. cbv zeta.
      rewrite Live_subscribeWithMode_lets by exact Hsub.
      intros E. injection E as _ <-.
      cbn [hook set_hook set_foregroundWatchSubscription set_storage storage
           foregroundWatchSubscription SelectedTargetStation
           setSelectedLineMeta setSelectedTargetStation].
      split; [reflexivity|]. split; [reflexivity|].
      split; [|reflexivity].
      unfold subscribeWithMode. cbv zeta.
      destruct (hasStartedLocationUpdatesAsync _); reflexivity.
Qed.

(** X22: a session that starts.  With a target, a line, both
    permissions and a platform on which every call of the start
    resolves, called from a render that is not tracking, [startTracking]
    ends with the hook tracking in the [near] tier, the background task
    running with the options of that tier, the target and the average
    spacing of the line in the store and the same spacing in the hook,
    and no alert.  The foreground watch holds the callback of the render
    of the call, which goes on reading that the hook is not tracking and
    the current station of that render.  On a line with stations the
    current station is known at once when it was unknown or valid
    before. *)
Theorem started_session :
  forall (p : Props) (target : Station.t) (line : TrainLine.t)
         (platform : Platform) (t : Tracker) (w : W),
    selectedStation p = Some target ->
    selectedLine p = Some line ->
    isTracking (hook t) = false ->
    platformLetsStart platform (hook t) = true ->
    let r := Live.startTracking getDistance onArrive messageOf p platform t w in
    isTracking (hook (fst r)) = true
    /\ trackingMode (hook (fst r)) = near
    /\ backgroundTask (location (hook (fst r))) = Some (baseOptions near)
    /\ foregroundWatchSubscription (fst r)
       = Some (mkWatch nearWatchOptions (renderOf p (hook t)))
    /\ SelectedTargetStation (storage (fst r)) = Some target
    /\ SelectedLineMeta (storage (fst r))
       = Some (computeAverageStationSpacing getDistance
                 (TrainLine.stations line))
    /\ lineAverageSpacing (hook (fst r))
       = computeAverageStationSpacing getDistance (TrainLine.stations line)
    /\ alerts (fst r) = alerts t
    /\ (currentStationIndex (hook t) < 0 -> staleWatch p (fst r))
    /\ (TrainLine.stations line <> [] ->
        currentStationIndex (hook t) < length_of (TrainLine.stations line) ->
        0 <= currentStationIndex (hook (fst r))
        < length_of (TrainLine.stations line)).
Proof.
  intros p target line platform t w Ht Hl Hidle Hlets. cbv zeta.
  destruct (platformLetsStart_fields platform (hook t) Hlets)
    as (_ & _ & (current & Hcurrent) & _).
  destruct (tryStartTracking_started p target line platform current t w
              Hidle Hlets Hcurrent) as (h' & w' & Eu & E).
  unfold Live.startTracking. rewrite Ht, Hl, E. clear E.
  cbn [fst snd hook foregroundWatchSubscription storage alerts
       SelectedTargetStation SelectedLineMeta setSelectedLineMeta
       setSelectedTargetStation].
  destruct (preparedForStart_fields line (hook t))
    as (P1 & P2 & P3 & P4 & P5).
  remember (preparedForStart getDistance line (hook t)) as h0 eqn:Hh0.
  clear Hh0.
  destruct (Live_updateLocation_idle_frame (renderOf p (hook t)) platform
              current h0 w Hidle)
    as (h'' & w'' & Eu' & Ftr & Fmode & Floc & Fsp).
  rewrite Eu in Eu'. apply Resolved_injective in Eu'.
  injection Eu' as <- <-.
  split; [rewrite Ftr; exact P1|]. split; [rewrite Fmode; exact P2|].
  split; [rewrite Floc; exact P3|].
  split; [reflexivity|]. split; [reflexivity|]. split; [reflexivity|].
  split; [rewrite Fsp; exact P4|]. split; [reflexivity|].
  split.
  - intros Hunknown. eexists. split; [reflexivity|].
    cbn [watchCallback renderOf closureProps closureIsTracking
         closureCurrentStationIndex].
    repeat split; assumption.
  - intros Hne Hcur.
    destruct (Live_updateLocation_valid_index (renderOf p (hook t)) platform
                current h0 w target line Ht Hl Hidle Hne Hcur P5)
      as (h'' & w'' & Eu' & Hvalid).
    rewrite Eu in Eu'. apply Resolved_injective in Eu'.
    injection Eu' as <- <-. exact Hvalid.
Qed.

(** X23: [stopTracking] forgets the session when the platform lets it,
    and keeps it when the platform does not.  The foreground watch is
    removed in every case.  The call resolves exactly when the query and
    the two removals resolve, and the stop too when the background task
    runs; it then leaves a hook that is not tracking, no background
    task, neither target nor line metadata in the store, no current
    station, an unset latch, an empty candidate and an unset departed
    flag.  When a call rejects, [stopTracking] rejects before any of its
    resets: the hook still says what it said about tracking, the current
    station, the arrival flag, the latch, the candidate and the departed
    flag. *)
Theorem stop_forgets_the_session_when_platform_lets_it :
  forall (platform : Platform) (t : Tracker),
    let r := Live.stopTracking platform t in
    foregroundWatchSubscription (stateOf r) = None
    /\ ((exists t', r = Resolved t')
        <-> platformLetsStop platform (hook t) = true)
    /\ (forall t',
           r = Resolved t' ->
           isTracking (hook t') = false
           /\ backgroundTask (location (hook t')) = None
           /\ SelectedTargetStation (storage t') = None
           /\ SelectedLineMeta (storage t') = None
           /\ lineAverageSpacing (hook t') = None
           /\ distance (hook t') = None
           /\ isArrived (hook t') = false
           /\ currentStationIndex (hook t') = -1
           /\ nearestStationDistance (hook t') = None
           /\ hasTriggeredArrivalNotification (hook t') = false
           /\ stationSwitchCandidate (hook t') = {| idx := -1; hits := 0 |}
           /\ hasDepartedFromCurrentStation (hook t') = false)
    /\ (forall e t',
           r = Rejected e t' ->
           e = PlatformRejection
           /\ isTracking (hook t') = isTracking (hook t)
           /\ currentStationIndex (hook t') = currentStationIndex (hook t)
           /\ isArrived (hook t') = isArrived (hook t)
           /\ hasTriggeredArrivalNotification (hook t')
              = hasTriggeredArrivalNotification (hook t)
           /\ stationSwitchCandidate (hook t')
              = stationSwitchCandidate (hook t)
           /\ hasDepartedFromCurrentStation (hook t')
              = hasDepartedFromCurrentStation (hook t)
           /\ lineAverageSpacing (hook t') = lineAverageSpacing (hook t)).
Proof.
  intros platform t. cbv zeta.
  unfold Live.stopTracking, platformLetsStop, await, andThen. cbv zeta.
  cbn [hook set_foregroundWatchSubscription].
  destruct (hasStartedLocationUpdatesAsync_rejects platform).
  { cbn. split; [reflexivity|].
    split; [split; [intros (t' & H); discriminate|discriminate]|].
    split; [discriminate|].
    intros e t' E. injection E as <- <-. repeat split. }
  unfold hasStartedLocationUpdatesAsync.
  destruct (backgroundTask (location (hook t))) as [options|] eqn:Etask;
    [destruct (stopLocationUpdatesAsync_rejects platform)|];
    destruct (removeItem_SelectedTargetStation_rejects platform);
    destruct (removeItem_SelectedLineMeta_rejects platform);
    cbn;
    (split; [reflexivity|]);
    (split;
     [split; [intros (t' & H); first [discriminate|reflexivity]
             |intros H; first [discriminate|eauto]]|]);
    (split;
     [intros t' E;
      first [discriminate|injection E as <-; repeat split; exact Etask]
     |intros e t' E; first [discriminate|injection E as <- <-; repeat split]]).
Qed.

End LiveProperties.

(** ** A session on the line of the examples *)

(** C2, as the code runs it.  [startTracking] is called from a render
    that is not tracking and shows no current station, with the device at
    station 25 of the line of 50 stations: the session starts, and the
    current station is 25 with the departed flag unset.  The callback of
    the foreground watch is the one of that render and reads no current
    station.  One position at station 26, the first and only one there
    and without any departure seen, makes 26 the current station; one
    position at station 30 then makes 30 the current station, four
    stations further.  The debounce and the departure gate are never
    consulted. *)
Theorem session_switches_station_on_one_sample :
  let started :=
    Live.startTracking meridianDistance recordArrival unknownErrorMessage
      props50 (platformAt (atStation 25)) readyTracker [] in
  let afterOne :=
    stateOf
      (Live.deliver meridianDistance recordArrival (platformAt (atStation 25))
         (atStation 26) (fst started) (snd started)) in
  let afterTwo :=
    stateOf
      (Live.deliver meridianDistance recordArrival (platformAt (atStation 25))
         (atStation 30) (fst afterOne) (snd afterOne)) in
  isTracking (hook readyTracker) = false
  /\ currentStationIndex (hook readyTracker) = -1
  /\ isTracking (hook (fst started)) = true
  /\ currentStationIndex (hook (fst started)) = 25
  /\ hasDepartedFromCurrentStation (hook (fst started)) = false
  /\ (exists d,
         locateNearest meridianDistance (atStation 26)
           (TrainLine.stations line50) 25 = Completed (25 + 1, Finite d))
  /\ currentStationIndex (hook (fst afterOne)) = 25 + 1
  /\ hasDepartedFromCurrentStation (hook (fst afterOne)) = false
  /\ currentStationIndex (hook (fst afterTwo)) = 30.
Proof.
  cbv zeta.
  split; [reflexivity|]. split; [reflexivity|].
  split; [vm_compute; reflexivity|]. split; [vm_compute; reflexivity|].
  split; [vm_compute; reflexivity|].
  split; [eexists; vm_compute; reflexivity|].
  split; [vm_compute; reflexivity|]. split; vm_compute; reflexivity.
Qed.

(** C8, as the code runs it.  [startTracking] is called from a render
    that is not tracking, with the device 6000 m from the target: the
    session starts in the [near] tier.  The callbacks of that render read
    that the hook is not tracking, so the test of [updateLocation] for a
    change of tier fails for every position of the session: at 6000 m
    the tier of the distance is [far], at 3000 m [mid], and after these
    positions the active tier is still [near], the background task still
    runs with the options of [near], and the subscription has been
    created once, by [startTracking]. *)
Theorem session_never_resubscribes :
  let started :=
    Live.startTracking meridianDistance recordArrival unknownErrorMessage
      props50 (platformAt (metresBefore 6000 None)) readyTracker [] in
  let later :=
    Live.deliverAll meridianDistance recordArrival
      [(platformAt (metresBefore 6000 None), metresBefore 6000 None);
       (platformAt (metresBefore 6000 None), metresBefore 3000 None)]
      (fst started) (snd started) in
  isTracking (hook readyTracker) = false
  /\ isTracking (hook (fst started)) = true
  /\ trackingMode (hook (fst started)) = near
  /\ subscriptionsCreated (calls (location (hook (fst started)))) = 1%nat
  /\ resolveModeByDistance
       (distanceToTarget meridianDistance ueno (metresBefore 6000 None)) = far
  /\ resolveModeByDistance
       (distanceToTarget meridianDistance ueno (metresBefore 3000 None)) = mid
  /\ isTracking (hook (fst later)) = true
  /\ distance (hook (fst later)) = Some 3000
  /\ trackingMode (hook (fst later)) = near
  /\ backgroundTask (location (hook (fst later))) = Some (baseOptions near)
  /\ subscriptionsCreated (calls (location (hook (fst later)))) = 1%nat.
Proof.
  cbv zeta. repeat split; vm_compute; reflexivity.
Qed.


(** ** The further properties at work on the example data *)

Lemma adjustments_bounded_and_monotone_witness :
  getSpeedAdjustment (Some 10%Q) <= getSpeedAdjustment (Some 20%Q)
  /\ getLineAdjustment (Some 500%Q) <= getLineAdjustment (Some 1500%Q).
Proof.
  destruct adjustments_bounded_and_monotone as (_ & _ & Hspeed & Hline).
  split; [apply Hspeed|apply Hline]; lra.
Defined.

Lemma effective_threshold_monotone_witness :
  computeEffectiveArrivalThreshold 300 (Some 10%Q) (Some 500%Q)
  <= computeEffectiveArrivalThreshold 400 (Some 20%Q) (Some 1500%Q).
Proof. apply effective_threshold_monotone; lra. Defined.

Lemma arrived_flag_hysteresis_witness :
  exists h' w',
    updateLocation meridianDistance recordArrival props50
      (metresBefore 700 None) trackingHook [] = Completed (h', w')
    /\ isArrived h' = false
    /\ hasTriggeredArrivalNotification h' = false
    /\ w' = [].
Proof.
  destruct (arrived_flag_hysteresis meridianDistance recordArrival props50
              ueno line50 (metresBefore 700 None) trackingHook []
              eq_refl eq_refl)
    as (_ & h' & w' & E & _ & Hfar & _).
  exists h', w'. split; [exact E|].
  apply Hfar. vm_compute. reflexivity.
Defined.

Lemma rearm_after_departure_witness :
  exists h',
    feed meridianDistance recordArrival props50
      ([metresBefore 1000 None; metresBefore 100 None]
       ++ metresBefore 700 None
          :: [metresBefore 500 None; metresBefore 50 None])
      initialHook []
    = Completed (h', ["Ueno"%string; "Ueno"%string]).
Proof.
  apply (rearm_after_departure meridianDistance props50 ueno line50
           initialHook
           [metresBefore 1000 None; metresBefore 100 None]
           [metresBefore 500 None; metresBefore 50 None]
           (metresBefore 700 None)).
  - reflexivity.
  - reflexivity.
  - reflexivity.
  - cbn [map nonincreasing].
    repeat split; apply Qle_by_computation; vm_compute; reflexivity.
  - apply Exists_cons_tl, Exists_cons_hd.
    apply Qle_by_computation. vm_compute. reflexivity.
  - vm_compute. reflexivity.
  - cbn [map nonincreasing].
    repeat split; apply Qle_by_computation; vm_compute; reflexivity.
  - apply Exists_cons_tl, Exists_cons_hd.
    apply Qle_by_computation. vm_compute. reflexivity.
Defined.

Lemma arrivals_need_close_samples_witness :
  exists h' fired,
    feed meridianDistance recordArrival props50
      [metresBefore 1000 None; metresBefore 100 None; metresBefore 700 None]
      initialHook []
    = Completed (h', fired ++ [])
    /\ Forall (fun name => name = Station.name ueno) fired
    /\ (List.length fired
        <= List.length
             (filter (fun sample =>
                        Qleb (distanceToTarget meridianDistance ueno sample)
                          150)
                [metresBefore 1000 None; metresBefore 100 None;
                 metresBefore 700 None]))%nat.
Proof.
  apply (arrivals_need_close_samples meridianDistance props50 ueno line50);
    reflexivity.
Defined.

Lemma nearest_station_is_first_minimum_witness :
  exists nearestIdx station,
    locateNearest meridianDistance (metresBefore 100 None)
      (TrainLine.stations line50) 25
    = Completed
        (nearestIdx,
         Finite
           (distanceToStation meridianDistance (metresBefore 100 None)
              station))
    /\ at_index (TrainLine.stations line50) nearestIdx = Some station.
Proof.
  destruct (nearest_station_is_first_minimum meridianDistance
              (metresBefore 100 None) (TrainLine.stations line50) 25
              ltac:(vm_compute; discriminate)
              ltac:(vm_compute; reflexivity))
    as (nearestIdx & station & E & _ & Hat & _).
  exists nearestIdx, station. split; assumption.
Defined.

Lemma current_index_stays_valid_witness :
  exists h' w',
    feed meridianDistance recordArrival props50
      [metresBefore 1000 None; metresBefore 100 None] trackingHook []
    = Completed (h', w')
    /\ 0 <= currentStationIndex h' < length_of (TrainLine.stations line50).
Proof.
  apply (current_index_stays_valid meridianDistance recordArrival props50
           ueno line50).
  - reflexivity.
  - reflexivity.
  - vm_compute. discriminate.
  - vm_compute. reflexivity.
Defined.

Lemma cold_start_adopts_nearest_station_witness :
  exists nearestIdx d h' w',
    fullScan meridianDistance (metresBefore 100 None)
      (TrainLine.stations line50)
    = Completed (nearestIdx, Finite d)
    /\ updateLocation meridianDistance recordArrival props50
         (metresBefore 100 None) trackingHook []
       = Completed (h', w')
    /\ currentStationIndex h' = nearestIdx
    /\ stationSwitchCandidate h' = {| idx := -1; hits := 0 |}
    /\ hasDepartedFromCurrentStation h' = false.
Proof.
  apply (cold_start_adopts_nearest_station meridianDistance recordArrival
           props50 ueno line50).
  - reflexivity.
  - reflexivity.
  - vm_compute. discriminate.
  - vm_compute. reflexivity.
Defined.

Lemma idle_hook_leaves_position_source_witness :
  exists h' w',
    feed meridianDistance recordArrival props50
      [metresBefore 3000 None; metresBefore 100 None] initialHook []
    = Completed (h', w')
    /\ location h' = location initialHook
    /\ trackingMode h' = trackingMode initialHook
    /\ isTracking h' = false.
Proof.
  assert (E : exists h' w',
             feed meridianDistance recordArrival props50
               [metresBefore 3000 None; metresBefore 100 None] initialHook []
             = Completed (h', w'))
    by (eexists; eexists; vm_compute; reflexivity).
  destruct E as (h' & w' & E).
  exists h', w'. split; [exact E|].
  apply (idle_hook_leaves_position_source meridianDistance recordArrival
           props50 [metresBefore 3000 None; metresBefore 100 None]
           initialHook h' [] w');
    [reflexivity|exact E].
Defined.

Lemma position_source_stays_orderly_witness :
  exists h' w',
    feed meridianDistance recordArrival props50
      [metresBefore 6000 None; metresBefore 3000 None; metresBefore 100 None]
      trackingHook []
    = Completed (h', w')
    /\ orderlyService (location h').
Proof.
  assert (E : exists h' w',
             feed meridianDistance recordArrival props50
               [metresBefore 6000 None; metresBefore 3000 None;
                metresBefore 100 None] trackingHook []
             = Completed (h', w'))
    by (eexists; eexists; vm_compute; reflexivity).
  destruct E as (h' & w' & E).
  exists h', w'. split; [exact E|].
  apply (position_source_stays_orderly meridianDistance recordArrival
           props50
           [metresBefore 6000 None; metresBefore 3000 None;
            metresBefore 100 None]
           trackingHook h' [] w');
    [split; [reflexivity|exact I]|exact E].
Defined.

Lemma at_most_one_notification_without_reset_witness :
  let n' :=
    runNotifier (settings props50) ios
      [Send healthyChannel 10000 "Ueno" true;
       Send healthyChannel 20000 "Ueno" true]
      initialNotifier in
  (hasNotified initialNotifier = true -> n' = initialNotifier)
  /\ (presented n' = presented initialNotifier
      \/ (hasNotified n' = true
          /\ exists content,
               presented n' = content :: presented initialNotifier)).
Proof.
  apply (at_most_one_notification_without_reset (settings props50) ios
           [Send healthyChannel 10000 "Ueno" true;
            Send healthyChannel 20000 "Ueno" true]
           initialNotifier).
  reflexivity.
Defined.

Lemma reset_rearms_latch_not_cooldown_witness :
  exists content,
    presented
      (sendNotification (settings props50) ios healthyChannel 20000 "Ueno"
         true
         (fst (resetNotification healthyChannel
                 (sendNotification (settings props50) ios healthyChannel
                    10000 "Ueno" true initialNotifier))))
    = content
      :: presented
           (sendNotification (settings props50) ios healthyChannel 10000
              "Ueno" true initialNotifier).
Proof.
  destruct (reset_rearms_latch_not_cooldown (settings props50) ios
              healthyChannel
              (sendNotification (settings props50) ios healthyChannel 10000
                 "Ueno" true initialNotifier))
    as (_ & _ & _ & _ & _ & Hlate).
  apply (Hlate healthyChannel 20000 "Ueno"%string true);
    [vm_compute; discriminate|reflexivity|reflexivity|reflexivity].
Defined.

Lemma average_spacing_between_extremes_witness :
  exists avg,
    computeAverageStationSpacing meridianDistance (meridianStations 3 0)
    = Some avg
    /\ (0 < avg)%Q /\ (1000 <= avg)%Q /\ (avg <= 1200)%Q.
Proof.
  eexists. split; [vm_compute; reflexivity|].
  apply (average_spacing_between_extremes meridianDistance
           (meridianStations 3 0) _ 1000 1200);
    [vm_compute; reflexivity|].
  intros d Hin _. vm_compute in Hin.
  destruct Hin as [<-|[<-|[]]];
    split; apply Qle_by_computation; vm_compute; reflexivity.
Defined.


Lemma search_offers_each_line_once_witness :
  snd (searchLinesFromStation "Tokyo" (Completed (Some tokyoAnswer))
         savedLine50)
  = ["Yamanote"%string; "Chuo"%string]
  /\ NoDup
       (snd (searchLinesFromStation "Tokyo" (Completed (Some tokyoAnswer))
               savedLine50))
  /\ foundLines
       (fst (searchLinesFromStation "Tokyo" (Completed (Some tokyoAnswer))
               savedLine50))
     = snd (searchLinesFromStation "Tokyo" (Completed (Some tokyoAnswer))
              savedLine50).
Proof.
  split; [reflexivity|].
  destruct (search_offers_each_line_once "Tokyo" tokyoAnswer savedLine50
              ltac:(discriminate))
    as (Hdistinct & _ & Hfound & _).
  split; assumption.
Defined.

Lemma download_keeps_line_names_distinct_witness :
  NoDup
    (map TrainLine.name
       (savedLines
          (fst (downloadLine parseFloatOfExamples None asciiCodes
                  "1700000000000" "Yamanote" (Completed (Some yamanoteAnswer))
                  false savedLine50)))).
Proof.
  apply download_keeps_line_names_distinct.
  constructor; [intros []|constructor].
Defined.

Lemma download_returns_a_line_exactly_when_saved_witness :
  snd (downloadLine parseFloatOfExamples None asciiCodes "1700000000000"
         "Yamanote" (Completed (Some yamanoteAnswer)) false savedLine50)
  <> None
  /\ (snd (downloadLine parseFloatOfExamples None asciiCodes "1700000000001"
             "line" (Completed (Some yamanoteAnswer)) false savedLine50)
      = None
      /\ savedLines
           (fst (downloadLine parseFloatOfExamples None asciiCodes
                   "1700000000001" "line" (Completed (Some yamanoteAnswer))
                   false savedLine50))
         = savedLines savedLine50).
Proof.
  split.
  - apply (proj1 (download_returns_a_line_exactly_when_saved
                    parseFloatOfExamples None asciiCodes "1700000000000"
                    "Yamanote" (Completed (Some yamanoteAnswer)) false
                    savedLine50)).
    split; [discriminate|]. split; [eexists; eexists; reflexivity|].
    split; [|reflexivity].
    intros [H|[]]. discriminate H.
  - split; [reflexivity|].
    apply (proj2 (download_returns_a_line_exactly_when_saved
                    parseFloatOfExamples None asciiCodes "1700000000001"
                    "line" (Completed (Some yamanoteAnswer)) false
                    savedLine50)).
    reflexivity.
Defined.

Lemma downloaded_line_is_appended_witness :
  exists newLine,
    snd (downloadLine parseFloatOfExamples None asciiCodes "1700000000000"
           "Yamanote" (Completed (Some yamanoteAnswer)) false savedLine50)
    = Some newLine
    /\ savedLines
         (fst (downloadLine parseFloatOfExamples None asciiCodes
                 "1700000000000" "Yamanote" (Completed (Some yamanoteAnswer))
                 false savedLine50))
       = savedLines savedLine50 ++ [newLine]
    /\ TrainLine.name newLine = "Yamanote"%string.
Proof.
  eexists. split; [vm_compute; reflexivity|].
  destruct (downloaded_line_is_appended parseFloatOfExamples None
              asciiCodes "1700000000000" "Yamanote"
              (Completed (Some yamanoteAnswer)) false savedLine50 _
              ltac:(vm_compute; reflexivity))
    as (Hsaved & _ & Hname & _).
  split; [exact Hsaved|exact Hname].
Defined.
